(** * cnpy: reading and writing NumPy [.npy] / [.npz] files

    A shallow embedding of [cnpy.h] / [cnpy.cpp] (namespace [cnpy]) and the
    properties of its header codec, single-array reader/writer and zip
    archive reader/writer.

    Modelling conventions.
    - [std::vector<char>] and [std::string] are [list ascii].
    - [size_t], [uint16_t], [uint32_t] values are [Z]; every cast or
      arithmetic step that can wrap has its wrap-around written out
      ([wrap16], [wrap32], [wrap64]).  Container sizes ([dict.size()], ...)
      are [Z.of_nat (length _)]: a vector that exists in memory is shorter
      than [2^63], so sums of a size and a small constant do not wrap.
    - The target is the usual little-endian LP64 machine: [operator+=] on an
      integer copies its bytes in memory order, which the source itself
      calls "write in little endian".
    - A call either returns, throws a C++ exception, or has undefined
      behaviour (an out-of-bounds [operator[]]): type [outcome].
    - A stream is its byte content, a position, the fail bit and [gcount].
      A file is its byte content; opening an existing file, or creating
      one, is taken to succeed.
    - zlib ([crc32], [inflate]) is outside the repository and is a parameter
      of the archive section.  What zlib documents for [inflate] under
      [Z_FINISH] is stated as [inflate_finishes].
    - Memory allocation is taken to succeed, except in the definitions
      whose names end in [_in]: they carry the size of the largest buffer
      the [NpyArray] constructor can get, and throw beyond it. *)

From Stdlib Require Import ZArith Ascii String List Bool Lia Arith.
Import ListNotations.
Open Scope Z_scope.

(* ================================================================== *)
(** ** Characters, byte strings and fixed-width integers *)

Definition lit (s : string) : list ascii := list_ascii_of_string s.

Definition byte_of_Z (z : Z) : ascii := ascii_of_N (Z.to_N (z mod 256)).
Definition Z_of_byte (c : ascii) : Z := Z.of_N (N_of_ascii c).

Definition wrap16 (z : Z) : Z := z mod 2 ^ 16.
Definition wrap32 (z : Z) : Z := z mod 2 ^ 32.
Definition wrap64 (z : Z) : Z := z mod 2 ^ 64.

Definition len {A} (l : list A) : Z := Z.of_nat (length l).

(** [operator+=(std::vector<char>&, const T)] for an integral [T] of [n]
    bytes: the bytes of the value in memory order (little endian). *)
Fixpoint le_bytes (n : nat) (v : Z) : list ascii :=
  match n with
  | O => []
  | S k => byte_of_Z v :: le_bytes k (v / 256)
  end.

(** [*reinterpret_cast<uintN_t*>(&buf[i])]: the little-endian value of the
    bytes of [l]. *)
Fixpoint le_value (l : list ascii) : Z :=
  match l with
  | [] => 0
  | c :: r => Z_of_byte c + 256 * le_value r
  end.

(** The first [n] elements of [l], and [l] without them, for a count [n]
    given as an integer; the count is cut to the length first so that a huge
    count costs nothing. *)
Definition takeZ {A} (n : Z) (l : list A) : list A :=
  firstn (Z.to_nat (Z.min n (len l))) l.
Definition dropZ {A} (n : Z) (l : list A) : list A :=
  skipn (Z.to_nat (Z.min n (len l))) l.

(** The bytes [buf[i] .. buf[i+n-1]] of a buffer (fewer when it is shorter). *)
Definition slice (i n : Z) (l : list ascii) : list ascii :=
  takeZ n (dropZ i l).

(** [n] copies of a byte. *)
Definition fill (n : Z) (c : ascii) : list ascii := repeat c (Z.to_nat n).

Fixpoint chars_eqb (a b : list ascii) : bool :=
  match a, b with
  | [], [] => true
  | x :: a', y :: b' => Ascii.eqb x y && chars_eqb a' b'
  | _, _ => false
  end.

(** ** Outcomes of a call *)

Inductive error : Type :=
| Runtime_error (what : string)   (* std::runtime_error *)
| Out_of_range                    (* std::out_of_range: substr, stoul *)
| Invalid_argument                (* std::invalid_argument: stoul *)
| Alloc_failure.                  (* std::bad_alloc, or std::length_error past
                                     max_size(): new std::vector<char>(n) *)

Inductive outcome (A : Type) : Type :=
| Ok (a : A)
| Throw (e : error)
| Undefined                       (* undefined behaviour *)
| Unfinished.                     (* a loop of the model ran out of fuel *)
Arguments Ok {A} a.
Arguments Throw {A} e.
Arguments Undefined {A}.
Arguments Unfinished {A}.

Definition bind {A B} (x : outcome A) (k : A -> outcome B) : outcome B :=
  match x with
  | Ok a => k a
  | Throw e => Throw e
  | Undefined => Undefined
  | Unfinished => Unfinished
  end.

Notation "'do' x <- e ; k" := (bind e (fun x => k))
  (at level 10, x pattern, e at level 100, k at level 200).

(** ** [std::to_string] on unsigned values *)

Definition digit_char (d : Z) : ascii := ascii_of_N (Z.to_N (48 + d)).

Fixpoint to_string_aux (fuel : nat) (n : Z) (acc : list ascii) : list ascii :=
  match fuel with
  | O => acc
  | S f =>
      let acc' := digit_char (n mod 10) :: acc in
      if n / 10 =? 0 then acc' else to_string_aux f (n / 10) acc'
  end.

(** Twenty digits are enough for every 64-bit value. *)
Definition to_string (n : Z) : list ascii := to_string_aux 20 n [].

(* ================================================================== *)
(** ** Element types: [typeid(T)], [sizeof(T)], [map_type] *)

Inductive ctype : Type :=
| T_float | T_double | T_long_double
| T_int | T_char | T_short | T_long | T_long_long
| T_unsigned_char | T_unsigned_short | T_unsigned_long
| T_unsigned_long_long | T_unsigned_int
| T_bool
| T_complex_float | T_complex_double | T_complex_long_double
| T_other (size : Z).             (* any type [map_type] does not list *)

Definition sizeof (T : ctype) : Z :=
  match T with
  | T_float => 4 | T_double => 8 | T_long_double => 16
  | T_int => 4 | T_char => 1 | T_short => 2 | T_long => 8 | T_long_long => 8
  | T_unsigned_char => 1 | T_unsigned_short => 2 | T_unsigned_long => 8
  | T_unsigned_long_long => 8 | T_unsigned_int => 4
  | T_bool => 1
  | T_complex_float => 8 | T_complex_double => 16
  | T_complex_long_double => 32
  | T_other size => size
  end.

Definition map_type (t : ctype) : ascii :=
  match t with
  | T_float | T_double | T_long_double => "f"
  | T_int | T_char | T_short | T_long | T_long_long => "i"
  | T_unsigned_char | T_unsigned_short | T_unsigned_long
  | T_unsigned_long_long | T_unsigned_int => "u"
  | T_bool => "b"
  | T_complex_float | T_complex_double | T_complex_long_double => "c"
  | T_other _ => "?"
  end%char.

(** The element types the library supports: those [map_type] knows. *)
Definition supported (T : ctype) : Prop := map_type T <> "?"%char.

(** [int x = 1; return ((char* )&x)[0] ? '<' : '>';] *)
Definition BigEndianTest : ascii :=
  match le_bytes 4 1 with
  | c :: _ => if Z_of_byte c =? 0 then ">"%char else "<"%char
  | [] => ">"%char
  end.

(* ================================================================== *)
(** ** Constants ([numpy_defs.h]) *)

Definition numpy_magic_length : Z := 6.
Definition numpy_magic : list ascii := byte_of_Z 147 :: lit "NUMPY".
Definition zip_header_length : Z := 30.
Definition zip_footer_length : Z := 22.

(* ================================================================== *)
(** ** [create_npy_header] *)

(** The dictionary text before padding: lines 113-127. *)
Definition npy_dict (T : ctype) (shape0 : Z) (shape_tl : list Z) : list ascii :=
  let dict := lit "{'descr': '" in
  let dict := dict ++ [BigEndianTest] in
  let dict := dict ++ [map_type T] in
  let dict := dict ++ to_string (sizeof T) in
  let dict := dict ++ lit "', 'fortran_order': False, 'shape': (" in
  let dict := dict ++ to_string shape0 in
  let dict := fold_left (fun dict d => (dict ++ lit ", ") ++ to_string d)
                        shape_tl dict in
  let dict := if (length shape_tl =? 0)%nat then dict ++ lit "," else dict in
  dict ++ lit "), }".

Definition big_header (dict : list ascii) : bool := 65535 <? len dict + 1.

Definition header_remainder (dict : list ascii) : Z :=
  64 - (numpy_magic_length + (if big_header dict then 4 else 2)
        + len dict + 1) mod 64.

(** [dict.back() = c] *)
Definition set_back (l : list ascii) (c : ascii) : list ascii :=
  removelast l ++ [c].

(** The dictionary text after [dict.insert(dict.end(), remainder, ' ')] and
    [dict.back() = '\n']. *)
Definition pad_dict (dict : list ascii) : list ascii :=
  set_back (dict ++ repeat " "%char (Z.to_nat (header_remainder dict)))
           "010"%char.

Definition npy_header_of_dict (dict : list ascii) : list ascii :=
  let big := big_header dict in
  let dict' := pad_dict dict in
  let header := numpy_magic in
  let header := header ++ [if big then byte_of_Z 2 else byte_of_Z 1] in
  let header := header ++ [byte_of_Z 0] in
  let header :=
    if big then header ++ le_bytes 4 (wrap32 (len dict'))
    else header ++ le_bytes 2 (wrap16 (len dict')) in
  header ++ dict'.

Definition create_npy_header (T : ctype) (shape : list Z)
  : outcome (list ascii) :=
  match shape with
  | [] => Undefined                        (* shape[0] on an empty vector *)
  | shape0 :: shape_tl => Ok (npy_header_of_dict (npy_dict T shape0 shape_tl))
  end.

(** The bytes of the header that precede the text: magic, version, length
    field. *)
Definition preamble_length (dict : list ascii) : Z :=
  numpy_magic_length + 2 + (if big_header dict then 4 else 2).

(** Accessors on a written header. *)
Definition header_major (h : list ascii) : Z := Z_of_byte (nth 6 h zero).
Definition header_minor (h : list ascii) : Z := Z_of_byte (nth 7 h zero).


(* ================================================================== *)
(** ** Input streams *)

Record istream : Type := mk_istream {
  content : list ascii;     (* the bytes of the file or buffer *)
  gpos : Z;                 (* read position *)
  failbit : bool;           (* [!is] *)
  gcount : Z                (* [is.gcount()] of the last read *)
}.

Definition open_stream (bytes : list ascii) : istream :=
  mk_istream bytes 0 false 0.

(** [is.read(buf, n)]: the bytes read, and the stream afterwards.  On a
    stream that already failed nothing is read; a short read sets the fail
    bit. *)
Definition read (ist : istream) (n : Z) : list ascii * istream :=
  if failbit ist then ([], mk_istream (content ist) (gpos ist) true 0)
  else
    let got := slice (gpos ist) n (content ist) in
    (got, mk_istream (content ist) (gpos ist + len got)
                     (negb (len got =? n)) (len got)).

(** The destination of a read: [got] over a buffer of [n] bytes [c]. *)
Definition over (got : list ascii) (n : Z) (c : ascii) : list ascii :=
  got ++ fill (n - len got) c.

(* ================================================================== *)
(** ** [std::string] operations used by the parser *)

Definition is_digit (c : ascii) : bool :=
  (48 <=? Z_of_byte c) && (Z_of_byte c <=? 57).

(** [isspace] in the C locale. *)
Definition isspace (c : ascii) : bool :=
  (Z_of_byte c =? 32) || ((9 <=? Z_of_byte c) && (Z_of_byte c <=? 13)).

Fixpoint is_prefix (p s : list ascii) : bool :=
  match p, s with
  | [], _ => true
  | a :: p', b :: s' => Ascii.eqb a b && is_prefix p' s'
  | _ :: _, [] => false
  end.

Fixpoint find_from (s p : list ascii) (i : Z) : option Z :=
  if is_prefix p s then Some i
  else match s with
       | [] => None
       | _ :: s' => find_from s' p (i + 1)
       end.

(** [s.find(p)]: the first position where [p] occurs, [None] for [npos]. *)
Definition find (s p : list ascii) : option Z := find_from s p 0.

(** [s.substr(pos, n)] *)
Definition substr (s : list ascii) (pos n : Z) : outcome (list ascii) :=
  if len s <? pos then Throw Out_of_range else Ok (slice pos n s).

(** [s.substr(pos)] *)
Definition substr_from (s : list ascii) (pos : Z) : outcome (list ascii) :=
  if len s <? pos then Throw Out_of_range else Ok (dropZ pos s).

(** [s[pos]]: the terminating NUL at [pos = size()], undefined beyond. *)
Definition char_at (s : list ascii) (pos : Z) : outcome ascii :=
  if pos <? len s then Ok (nth (Z.to_nat pos) s zero)
  else if pos =? len s then Ok zero
  else Undefined.

Fixpoint skip_space (s : list ascii) : list ascii :=
  match s with
  | c :: r => if isspace c then skip_space r else s
  | [] => []
  end.

(** The value of the leading decimal digits of [s], after [acc]. *)
Fixpoint digits_value (acc : Z) (s : list ascii) : Z :=
  match s with
  | c :: r => if is_digit c then digits_value (acc * 10 + (Z_of_byte c - 48)) r
              else acc
  | [] => acc
  end.

Definition ULONG_MAX : Z := 2 ^ 64 - 1.

(** [std::stoul(s)] (base 10): optional white space and sign, then digits. *)
Definition stoul (s : list ascii) : outcome Z :=
  let s := skip_space s in
  let '(neg, s) :=
    match s with
    | c :: r => if Ascii.eqb c "-" then (true, r)
                else if Ascii.eqb c "+" then (false, r)
                else (false, s)
    | [] => (false, s)
    end in
  match s with
  | c :: _ =>
      if is_digit c then
        let v := digits_value 0 s in
        if ULONG_MAX <? v then Throw Out_of_range
        else Ok (if neg then wrap64 (- v) else v)
      else Throw Invalid_argument
  | [] => Throw Invalid_argument
  end.

(** The longest run of digits at the head of [s], and what follows it. *)
Fixpoint take_digits (s : list ascii) : list ascii * list ascii :=
  match s with
  | c :: r => if is_digit c then
                let '(m, suffix) := take_digits r in (c :: m, suffix)
              else ([], s)
  | [] => ([], [])
  end.

(** [std::regex_search(s, sm, std::regex("[0-9]+"))]: the leftmost longest
    match [sm[0]] and [sm.suffix()], if any. *)
Fixpoint regex_search_num (s : list ascii) : option (list ascii * list ascii) :=
  match s with
  | [] => None
  | c :: r => if is_digit c then Some (take_digits s) else regex_search_num r
  end.

(** Lines 143-147: [while (regex_search(str_shape, sm, num_regex))]. *)
Fixpoint shape_loop (fuel : nat) (str_shape : list ascii) (shape : list Z)
  : outcome (list Z) :=
  match fuel with
  | O => Unfinished
  | S fuel' =>
      match regex_search_num str_shape with
      | None => Ok shape
      | Some (m, suffix) =>
          do v <- stoul m;
          shape_loop fuel' suffix (shape ++ [v])
      end
  end.

(* ================================================================== *)
(** ** [parse_npy_header] *)

Definition runtime_error {A} (what : string) : outcome A :=
  Throw (Runtime_error what).

Definition str (l : list ascii) : string := string_of_list_ascii l.

(** Lines 124-163: the header text once it is read. *)
Definition parse_header_text (header : list ascii)
  : outcome (Z * list Z * bool) :=
  (* fortran order *)
  match find header (lit "fortran_order") with
  | None => runtime_error "parse_npy_header: missing 'fortran_order'"
  | Some loc1 =>
    let loc1 := loc1 + 16 in
    do fo <- substr header loc1 4;
    let fortran_order := chars_eqb fo (lit "True") in
    (* shape *)
    match find header (lit "("), find header (lit ")") with
    | Some loc1, Some loc2 =>
      do str_shape <- substr header (loc1 + 1) (wrap64 (loc2 - loc1 - 1));
      do shape <- shape_loop (S (length str_shape)) str_shape [];
      (* endian, word size, data type *)
      match find header (lit "descr") with
      | None => runtime_error "parse_npy_header: missing 'descr'"
      | Some loc1 =>
        let loc1 := loc1 + 9 in
        do c <- char_at header loc1;
        let littleEndian := Ascii.eqb c "<" || Ascii.eqb c "|" in
        if negb littleEndian then
          runtime_error "parse_npy_header: endian check failed"
        else
          do str_ws <- substr_from header (loc1 + 2);
          let n := match find str_ws (lit "'") with
                   | Some loc2 => loc2
                   | None => 2 ^ 64 - 1          (* npos *)
                   end in
          do word_size <- stoul (slice 0 n str_ws);
          Ok (word_size, shape, fortran_order)
      end
    | _, _ => runtime_error "parse_npy_header: missing '(' or ')'"
    end
  end.

(** Lines 117-122: read [header_length] bytes of text and check them. *)
Definition read_header_text (ist : istream) (header_length : Z)
  : outcome (Z * list Z * bool) * istream :=
  if failbit ist then (runtime_error "Cannot read header length", ist)
  else
    let '(header, ist) := read ist header_length in
    if failbit ist || negb (gcount ist =? header_length) then
      (runtime_error "parse_npy_header: failed to read data for header", ist)
    else if header_length =? 0 then (Undefined, ist)  (* header[size() - 1] *)
    else if negb (Ascii.eqb (last header zero) "010") then
      (runtime_error "parse_npy_header: failed to read data for header", ist)
    else (parse_header_text header, ist).

Definition parse_npy_header (ist : istream)
  : outcome (Z * list Z * bool) * istream :=
  let '(got, ist) := read ist numpy_magic_length in
  let magic := over got numpy_magic_length zero in
  if negb (chars_eqb magic numpy_magic) then
    (runtime_error "Not a Numpy file as magic number does not match", ist)
  else
    let '(got, ist) := read ist 1 in
    let major := le_value (over got 1 zero) in
    let '(got, ist) := read ist 1 in
    let minor := le_value (over got 1 zero) in
    if (major =? 1) && (minor =? 0) then
      (* Next 2 bytes contain little-endian header length *)
      let '(got, ist) := read ist 2 in
      let header_length := le_value (over got 4 zero) in
      read_header_text ist header_length
    else if (major =? 2) && (minor =? 0) then
      (* Next 4 bytes *)
      let '(got, ist) := read ist 4 in
      let header_length := le_value (over got 4 zero) in
      read_header_text ist header_length
    else
      (runtime_error
         (str (lit "Numpy version " ++ to_string major ++ lit "."
               ++ to_string minor ++ lit " not supported.")), ist).

(* ================================================================== *)
(** ** [NpyArray] *)

Record NpyArray : Type := mk_NpyArray {
  data_holder : list ascii;
  shape : list Z;
  word_size : Z;
  fortran_order : bool;
  num_vals : Z
}.

(** [num_vals = 1; for (...) num_vals *= shape[i];] in [size_t]. *)
Definition product (shape : list Z) : Z :=
  fold_left (fun num_vals d => wrap64 (num_vals * d)) shape 1.

(** The constructor [NpyArray(shape, word_size, fortran_order)], its
    allocation taken to succeed; [NpyArray_in] is the constructor with the
    allocation that can fail. *)
Definition new_NpyArray (shape : list Z) (word_size : Z) (fortran_order : bool)
  : NpyArray :=
  let num_vals := product shape in
  mk_NpyArray (fill (wrap64 (num_vals * word_size)) zero)
              shape word_size fortran_order num_vals.

Definition num_bytes (arr : NpyArray) : Z := len (data_holder arr).

Definition set_data (arr : NpyArray) (bytes : list ascii) : NpyArray :=
  mk_NpyArray bytes (shape arr) (word_size arr) (fortran_order arr)
              (num_vals arr).

(* ================================================================== *)
(** ** [load_the_npy_file], [npy_load] *)

Definition load_the_npy_file (ist : istream) : outcome NpyArray * istream :=
  if failbit ist then (runtime_error "parse_npy_header: file is not open", ist)
  else
    let '(r, ist) := parse_npy_header ist in
    match r with
    | Ok (word_size, shape, fortran_order) =>
        let arr := new_NpyArray shape word_size fortran_order in
        let '(got, ist) := read ist (num_bytes arr) in
        if failbit ist || negb (gcount ist =? num_bytes arr) then
          (runtime_error "load_the_npy_file: failed fread", ist)
        else (Ok (set_data arr got), ist)
    | Throw e => (Throw e, ist)
    | Undefined => (Undefined, ist)
    | Unfinished => (Unfinished, ist)
    end.

(** The file system is seen through the one path a call names: [None] when
    no file exists there, [Some bytes] otherwise.  Opening an existing file
    is taken to succeed. *)
Definition npy_load (file : option (list ascii)) : outcome NpyArray :=
  match file with
  | None => runtime_error "File does not exist"
  | Some bytes => fst (load_the_npy_file (open_stream bytes))
  end.

(* ================================================================== *)
(** ** [npy_save] *)

(** [seekp(pos); write(bytes)] on a file: overwrite in place, extend at the
    end, zero-fill a gap. *)
Definition write_at (file : list ascii) (pos : Z) (bytes : list ascii)
  : list ascii :=
  takeZ pos file ++ fill (pos - len file) zero ++ bytes
  ++ dropZ (pos + len bytes) file.

(** The [n] bytes at a [const T*]: reading past the object is undefined. *)
Definition raw_bytes (data : list ascii) (n : Z) : outcome (list ascii) :=
  if len data <? n then Undefined else Ok (takeZ n data).

(** Lines 176-184: the dimensions after the first must agree. *)
Fixpoint check_trailing_dims (shape true_data_shape : list Z) : outcome unit :=
  match shape, true_data_shape with
  | d :: shape', e :: true' =>
      if negb (d =? e) then
        runtime_error
          (str (lit "Appending to existing data with wrong dimension: new="
                ++ to_string d ++ lit " existing=" ++ to_string e))
      else check_trailing_dims shape' true'
  | _, _ => Ok tt
  end.

Definition npy_save (T : ctype) (file : option (list ascii))
    (data : list ascii) (shape : list Z) (mode : string)
  : outcome (list ascii) :=
  do (true_data_shape, old) <-
    match file, String.eqb mode "a" with
    | Some old, true =>
        (* File exists, append mode *)
        do (word_size, ds, fortran_order) <-
           fst (parse_npy_header (open_stream old));
        let true_data_shape := ds in
        if negb fortran_order then
          runtime_error "Appending to existing fortran-order file not supported"
        else if negb (word_size =? sizeof T) then
          runtime_error
            (str (lit "Appending to existing file with wrong word size: new="
                  ++ to_string (sizeof T) ++ lit " existing="
                  ++ to_string word_size))
        else if negb (len true_data_shape =? len shape) then
          runtime_error
            (str (lit "Appending to existing file with wrong shape: new="
                  ++ to_string (len shape) ++ lit " existing="
                  ++ to_string (len true_data_shape)))
        else
          do _ <- check_trailing_dims (tl shape) (tl true_data_shape);
          match true_data_shape, shape with
          | t0 :: t_tl, s0 :: _ => Ok (wrap64 (t0 + s0) :: t_tl, old)
          | _, _ => Undefined                 (* true_data_shape[0], shape[0] *)
          end
    | _, _ =>
        (* Create a new file *)
        Ok (shape, [])
    end;
  do header <- create_npy_header T true_data_shape;
  let nels := product shape in
  let file := write_at old 0 header in
  do bytes <- raw_bytes data (wrap64 (sizeof T * nels));
  Ok (file ++ bytes).

(* ================================================================== *)
(** ** zlib, as far as the library uses it *)

Definition Z_OK : Z := 0.
Definition Z_STREAM_END : Z := 1.
Definition Z_BUF_ERROR : Z := -5.

(** One run of [inflateInit2(&s, -MAX_WBITS)], [inflate(&s, Z_FINISH)] and
    [inflateEnd(&s)] over an input buffer with [avail_out] bytes of room:
    the three return codes and the bytes written to [next_out]. *)
Record inflate_run : Type := mk_inflate_run {
  init_ret : Z;
  inflate_ret : Z;
  inflated : list ascii;
  end_ret : Z
}.

(** What zlib documents for [inflate] called with [Z_FINISH]: the answer
    is [Z_STREAM_END] when the stream was inflated to its end and
    [Z_BUF_ERROR] or another error code otherwise, never [Z_OK]. *)
Definition inflate_finishes (zlib_inflate : list ascii -> Z -> inflate_run)
  : Prop :=
  forall input avail_out, inflate_ret (zlib_inflate input avail_out) <> Z_OK.

(** The archive: [std::map<std::string, NpyArray>], as the list of its
    entries. *)
Definition npz_t : Type := list (list ascii * NpyArray).

(** [arrays[varname] = arr] *)
Fixpoint npz_assign (arrays : npz_t) (varname : list ascii) (arr : NpyArray)
  : npz_t :=
  match arrays with
  | [] => [(varname, arr)]
  | (k, a) :: rest =>
      if chars_eqb k varname then (k, arr) :: rest
      else (k, a) :: npz_assign rest varname arr
  end.

Fixpoint npz_find (arrays : npz_t) (varname : list ascii) : option NpyArray :=
  match arrays with
  | [] => None
  | (k, a) :: rest => if chars_eqb k varname then Some a else npz_find rest varname
  end.

(** Lines 288-290: [if (varname.size() >= 4) varname.erase(end - 4, end)]. *)
Definition erase_npy_suffix (varname : list ascii) : list ascii :=
  if 4 <=? len varname then takeZ (len varname - 4) varname else varname.

(* ================================================================== *)
(** ** [parse_zip_footer] *)

(** The [n]-byte little-endian field at offset [i] of a record. *)
Definition field (record : list ascii) (i n : Z) : Z :=
  le_value (slice i n record).

Definition parse_zip_footer (file : list ascii) : outcome (Z * Z * Z) :=
  (* seekg(-zip_footer_length, end) fails on a shorter file *)
  if len file <? zip_footer_length then
    runtime_error "parse_zip_footer: failed to read footer"
  else
    let footer := dropZ (len file - zip_footer_length) file in
    let disk_no := field footer 4 2 in
    let disk_start := field footer 6 2 in
    let nrecs_on_disk := field footer 8 2 in
    let nrecs := field footer 10 2 in
    let global_header_size := field footer 12 4 in
    let global_header_offset := field footer 16 4 in
    let comment_len := field footer 20 2 in
    if negb (disk_no =? 0) || negb (disk_start =? 0)
       || negb (nrecs_on_disk =? nrecs) || negb (comment_len =? 0) then
      runtime_error "Unexpected EOCD records"
    else Ok (nrecs, global_header_size, global_header_offset).

Section Archive.

(** [crc32(crc, buf, len)] and the raw inflate run of zlib. *)
Variable crc32 : Z -> list ascii -> Z.
Variable zlib_inflate : list ascii -> Z -> inflate_run.

(* ================================================================== *)
(** ** [load_the_npz_array] *)

Definition load_the_npz_array (ist : istream) (compr_bytes uncompr_bytes : Z)
  : outcome NpyArray * istream :=
  let '(buffer_compr, ist) := read ist compr_bytes in
  if failbit ist || negb (gcount ist =? compr_bytes) then
    (runtime_error "Failed reading compressed data", ist)
  else
    let run := zlib_inflate buffer_compr uncompr_bytes in
    if negb (init_ret run =? Z_OK) then
      (runtime_error "Failed initializing compression system.", ist)
    else if negb (inflate_ret run =? Z_OK) then
      (runtime_error "Failed inflating buffer.", ist)
    else if negb (end_ret run =? Z_OK) then
      (runtime_error "Failed finalizing inflation", ist)
    else
      let buffer_uncompr :=
        takeZ uncompr_bytes (inflated run ++ fill uncompr_bytes zero) in
      match fst (parse_npy_header (open_stream buffer_uncompr)) with
      | Ok (word_size, shape, fortran_order) =>
          let array := new_NpyArray shape word_size fortran_order in
          let offset := wrap64 (uncompr_bytes - num_bytes array) in
          (* memcpy(array.data, buffer_uncompr.data() + offset, num_bytes) *)
          if len buffer_uncompr <? offset + num_bytes array then
            (Undefined, ist)
          else
            (Ok (set_data array (slice offset (num_bytes array) buffer_uncompr)),
             ist)
      | Throw e => (Throw e, ist)
      | Undefined => (Undefined, ist)
      | Unfinished => (Unfinished, ist)
      end.

(* ================================================================== *)
(** ** [npz_load] *)

(** Lines 270-310: the scan over the local file headers. *)
Fixpoint npz_load_loop (fuel : nat) (ist : istream) (arrays : npz_t)
  : outcome npz_t :=
  match fuel with
  | O => Unfinished
  | S fuel' =>
    if failbit ist then Ok arrays                        (* while (is) *)
    else
      let '(local_header, ist) := read ist zip_header_length in
      if failbit ist || negb (gcount ist =? zip_header_length) then
        runtime_error "Failed reading header"
      else
        (* If we've reached the global header, stop reading *)
        if negb (Z_of_byte (nth 2 local_header zero) =? 3)
           || negb (Z_of_byte (nth 3 local_header zero) =? 4) then
          Ok arrays
        else
          (* Read in the variable name *)
          let name_len := field local_header 26 2 in
          let '(varname, ist) := read ist name_len in
          if failbit ist || negb (gcount ist =? name_len) then
            runtime_error "Failed reading variable name"
          else
            (* Erase the trailing .npy *)
            let varname := erase_npy_suffix varname in
            (* Read in the extra field *)
            let extra_field_len := field local_header 28 2 in
            let '(extra_ok, ist) :=
              if 0 <? extra_field_len then
                let '(buff, ist) := read ist extra_field_len in
                (negb (failbit ist || negb (gcount ist =? extra_field_len)),
                 ist)
              else (true, ist) in
            if negb extra_ok then runtime_error "Failed reading extra field"
            else
              let compr_method := field local_header 8 2 in
              let compr_bytes := field local_header 18 4 in
              let uncompr_bytes := field local_header 22 4 in
              let '(r, ist) :=
                if compr_method =? 0 then load_the_npy_file ist
                else load_the_npz_array ist compr_bytes uncompr_bytes in
              do arr <- r;
              npz_load_loop fuel' ist (npz_assign arrays varname arr)
  end.

Definition npz_load (file : option (list ascii)) : outcome npz_t :=
  match file with
  | None => runtime_error "File does not exist"
  | Some bytes => npz_load_loop (S (length bytes)) (open_stream bytes) []
  end.

(* ================================================================== *)
(** ** [npz_save] *)

(** Lines 262-275. *)
Definition zip_local_header (crc nbytes : Z) (key : list ascii) : list ascii :=
  let local_header := lit "PK" in                             (* first part of sig *)
  let local_header := local_header ++ le_bytes 2 (wrap16 1027) in (* 0x0403 *)
  let local_header := local_header ++ le_bytes 2 20 in         (* min version to extract *)
  let local_header := local_header ++ le_bytes 2 0 in          (* general purpose bit flag *)
  let local_header := local_header ++ le_bytes 2 0 in          (* compression method *)
  let local_header := local_header ++ le_bytes 2 0 in          (* file last mod time *)
  let local_header := local_header ++ le_bytes 2 0 in          (* file last mod date *)
  let local_header := local_header ++ le_bytes 4 (wrap32 crc) in     (* crc *)
  let local_header := local_header ++ le_bytes 4 (wrap32 nbytes) in  (* compressed size *)
  let local_header := local_header ++ le_bytes 4 (wrap32 nbytes) in  (* uncompressed size *)
  let local_header := local_header ++ le_bytes 2 (wrap16 (len key)) in (* fname length *)
  let local_header := local_header ++ le_bytes 2 0 in          (* extra field length *)
  local_header ++ key.

(** Lines 278-288: the central directory record of the new entry. *)
Definition zip_directory_record (local_header : list ascii)
    (global_header_offset : Z) (key : list ascii) : list ascii :=
  let global_header := lit "PK" in                              (* first part of sig *)
  let global_header := global_header ++ le_bytes 2 (wrap16 513) in  (* 0x0201 *)
  let global_header := global_header ++ le_bytes 2 20 in        (* version made by *)
  let global_header := global_header ++ slice 4 26 local_header in
  let global_header := global_header ++ le_bytes 2 0 in         (* file comment length *)
  let global_header := global_header ++ le_bytes 2 0 in         (* disk number where file starts *)
  let global_header := global_header ++ le_bytes 2 0 in         (* internal file attributes *)
  let global_header := global_header ++ le_bytes 4 0 in         (* external file attributes *)
  let global_header :=
    global_header ++ le_bytes 4 (wrap32 global_header_offset) in (* relative offset *)
  global_header ++ key.

(** Lines 291-302. *)
Definition zip_footer (nrecs global_header_size global_header_start : Z)
  : list ascii :=
  let footer := lit "PK" in                                     (* first part of sig *)
  let footer := footer ++ le_bytes 2 (wrap16 1541) in           (* 0x0605 *)
  let footer := footer ++ le_bytes 2 0 in                       (* number of this disk *)
  let footer := footer ++ le_bytes 2 0 in                       (* disk where footer starts *)
  let footer := footer ++ le_bytes 2 (wrap16 (nrecs + 1)) in    (* number of records on this disk *)
  let footer := footer ++ le_bytes 2 (wrap16 (nrecs + 1)) in    (* total number of records *)
  let footer := footer ++ le_bytes 4 (wrap32 global_header_size) in  (* nbytes of global headers *)
  let footer := footer ++ le_bytes 4 (wrap32 global_header_start) in (* offset of start of global headers *)
  footer ++ le_bytes 2 0.                                       (* zip file comment length *)

Definition npz_save (T : ctype) (zipfile : option (list ascii))
    (key data : list ascii) (shape : list Z) (mode : string)
  : outcome (list ascii) :=
  (* first, append a .npy to the key *)
  let key := key ++ lit ".npy" in
  do (nrecs, global_header_offset, global_header, old) <-
    match zipfile, String.eqb mode "a" with
    | Some old, true =>
        (* zip file exists. we need to add a new npy file to it. *)
        do (nrecs, global_header_size, global_header_offset) <-
           parse_zip_footer old;
        let global_header :=
          slice global_header_offset global_header_size old in
        if negb (len global_header =? global_header_size) then
          runtime_error
            "npz_save: header read error while adding to existing zip"
        else Ok (nrecs, global_header_offset, global_header, old)
    | _, _ => Ok (0, 0, [], [])
    end;
  do npy_header <- create_npy_header T shape;
  let nels := product shape in
  let nbytes := wrap64 (wrap64 (nels * sizeof T) + len npy_header) in
  do bytes <- raw_bytes data (wrap64 (nels * sizeof T));
  let crc := wrap32 (crc32 0 npy_header) in
  let crc :=
    wrap32 (crc32 crc (takeZ (wrap32 (wrap64 (nels * sizeof T))) bytes)) in
  let local_header := zip_local_header crc nbytes key in
  (* build global header *)
  let global_header :=
    global_header ++ zip_directory_record local_header global_header_offset key in
  (* build footer *)
  let footer :=
    zip_footer nrecs (len global_header)
      (wrap64 (wrap64 (global_header_offset + nbytes) + len local_header)) in
  Ok (write_at old global_header_offset
        (local_header ++ npy_header ++ bytes ++ global_header ++ footer)).

End Archive.

(* ================================================================== *)
(** ** Definitions used to state the properties *)

(** The text between the parentheses of the [shape] entry: what the
    source's running [dict += ...] appends for the dimensions. *)
Definition shape_text (shape0 : Z) (shape_tl : list Z) : list ascii :=
  to_string shape0
  ++ flat_map (fun d => lit ", " ++ to_string d) shape_tl
  ++ (if (length shape_tl =? 0)%nat then lit "," else []).

(** A shape of [n] ones. *)
Definition ones (n : Z) : list Z := repeat 1 (Z.to_nat n).

(** A dimension is a [size_t]. *)
Definition is_size_t (d : Z) : Prop := 0 <= d < 2 ^ 64.

(** The padded text fits the length field that [create_npy_header] chose. *)
Definition header_fits (dict : list ascii) : Prop :=
  len (pad_dict dict) < (if big_header dict then 2 ^ 32 else 2 ^ 16).

(** The fixed part of the dictionary, up to the opening parenthesis of the
    shape. *)
Definition header_prefix (T : ctype) : list ascii :=
  lit "{'descr': '" ++ BigEndianTest :: map_type T :: to_string (sizeof T)
  ++ lit "', 'fortran_order': False, 'shape': (".

(** The characters of a shape text: digits, commas and blanks. *)
Definition shape_char (c : ascii) : bool :=
  is_digit c || Ascii.eqb c "," || Ascii.eqb c " ".

(** A text that does not begin with a digit. *)
Definition no_digit_head (s : list ascii) : Prop :=
  match s with
  | c :: _ => is_digit c = false
  | [] => True
  end.

(** The mathematical product of the dimensions. *)
Definition dims_product (dims : list Z) : Z := fold_right Z.mul 1 dims.

(** A version 1.0 file of a column-major [int16] array of shape (1, 3):
    a 119-byte header text, the length this library writes for such a
    shape, and the six payload bytes [ABCDEF]. *)
Definition fortran_text_1x3 : list ascii :=
  let text := lit "{'descr': '<i2', 'fortran_order': True, 'shape': (1, 3), }" in
  text ++ fill (119 - 1 - len text) " " ++ ["010"%char].

Definition fortran_header_1x3 : list ascii :=
  numpy_magic ++ [byte_of_Z 1; byte_of_Z 0] ++ le_bytes 2 119
  ++ fortran_text_1x3.

Definition fortran_file_1x3 : list ascii := fortran_header_1x3 ++ lit "ABCDEF".

(** C3 as the specification states it, for one existing file and one call:
    a column-major file of matching word size and rank is extended. *)
Definition append_grows_as_stated (T : ctype) (old data : list ascii)
    (new_shape : list Z) : Prop :=
  forall ws ds ist',
    parse_npy_header (open_stream old) = (Ok (ws, ds, true), ist') ->
    ws = sizeof T ->
    length ds = length new_shape ->
    exists file' arr,
      npy_save T (Some old) data new_shape "a" = Ok file'
      /\ npy_load (Some file') = Ok arr
      /\ shape arr = wrap64 (hd 0 ds + hd 0 new_shape) :: tl ds
      /\ data_holder arr = dropZ (gpos ist') old ++ data.

(** C4 as the specification states it: the append throws exactly on an
    order, word-size or rank mismatch. *)
Definition append_fails_as_stated (T : ctype) (old data : list ascii)
    (shape : list Z) : Prop :=
  forall ws ds fo ist',
    parse_npy_header (open_stream old) = (Ok (ws, ds, fo), ist') ->
    ((exists e, npy_save T (Some old) data shape "a" = Throw e)
     <-> (fo = false \/ ws <> sizeof T \/ length ds <> length shape)).

(** The mismatches on which the append throws. *)
Definition append_mismatch (T : ctype) (shape : list Z)
    (ws : Z) (ds : list Z) (fo : bool) : Prop :=
  fo = false \/ ws <> sizeof T \/ length ds <> length shape
  \/ tl ds <> tl shape.

(** C8 as the specification states it, at one position of a scan: a
    30-byte block that does not start with [PK\003\004] ends the scan with
    the mapping built so far. *)
Definition scan_stops_as_stated (zlib_inflate : list ascii -> Z -> inflate_run)
    (C : list ascii) (pos : Z) (arrays : npz_t) : Prop :=
  forall fuel,
    len (slice pos 30 C) = 30 ->
    takeZ 4 (slice pos 30 C) <> lit "PK" ++ [byte_of_Z 3; byte_of_Z 4] ->
    npz_load_loop zlib_inflate (S fuel) (mk_istream C pos false 0) arrays
    = Ok arrays.

(** An inflate that copies its input and answers [Z_OK] three times.
    This is not zlib, whose [inflate] never answers [Z_OK] under
    [Z_FINISH]: it is an argument at which statements that hold for every
    inflate are evaluated, and the only kind of inflate on which
    [load_the_npz_array] returns. *)
Definition copy_inflate (input : list ascii) (avail_out : Z) : inflate_run :=
  mk_inflate_run Z_OK Z_OK (takeZ avail_out input) Z_OK.

(** The same copy with the answers zlib gives under [Z_FINISH]:
    [Z_STREAM_END] when the whole input went into the room given,
    [Z_BUF_ERROR] when it did not. *)
Definition finish_inflate (input : list ascii) (avail_out : Z) : inflate_run :=
  mk_inflate_run Z_OK
    (if len input <=? avail_out then Z_STREAM_END else Z_BUF_ERROR)
    (takeZ avail_out input) Z_OK.

(** A checksum to run the writer on. *)
Definition length_crc (crc : Z) (buf : list ascii) : Z := crc + len buf.

(** The single-array file of the [int16] array (2, 3) with bytes
    [abcdefghijkl]. *)
Definition npy_file_2x3 : list ascii :=
  npy_header_of_dict (npy_dict T_short 2 [3]) ++ lit "abcdefghijkl".

(** A 30-byte block that is not a local file header, as a central
    directory starts. *)
Definition directory_block : list ascii :=
  lit "PK" ++ le_bytes 2 (wrap16 513) ++ fill 26 zero.

(** An archive with one stored entry under the given stored name, closed
    by a directory block. *)
Definition stored_archive (name : list ascii) : list ascii :=
  zip_local_header 0 (len npy_file_2x3) name ++ npy_file_2x3
  ++ directory_block.

(** The same entry declared as deflated (compression method 8), its
    compressed and uncompressed sizes both the size of the array file. *)
Definition deflated_archive (name : list ascii) : list ascii :=
  lit "PK" ++ le_bytes 2 (wrap16 1027) ++ le_bytes 2 20 ++ le_bytes 2 0
  ++ le_bytes 2 8 ++ le_bytes 2 0 ++ le_bytes 2 0 ++ le_bytes 4 0
  ++ le_bytes 4 (len npy_file_2x3) ++ le_bytes 4 (len npy_file_2x3)
  ++ le_bytes 2 (len name) ++ le_bytes 2 0 ++ name
  ++ npy_file_2x3 ++ directory_block.

(** The same archive with the first two bytes of its local file header
    replaced by [XY]. *)
Definition unsigned_archive (name : list ascii) : list ascii :=
  lit "XY" ++ dropZ 2 (stored_archive name).

(** The fixed 30 bytes of the local file header of [stored_archive]. *)
Definition local_block (name : list ascii) : list ascii :=
  takeZ 30 (zip_local_header 0 (len npy_file_2x3) name).

(** The total length of a list of records. *)
Definition records_size (recs : list (list ascii)) : Z :=
  fold_right Z.add 0 (map len recs).

(** The layout the archive writer maintains: the entries ([body]), then
    the central directory, which is the records one after the other, then
    a 22-byte locator that reports the number of records, the sum of
    their lengths, and the offset one past the last entry byte. *)
Definition archive_invariant (file body : list ascii)
    (recs : list (list ascii)) : Prop :=
  exists footer,
    file = body ++ concat recs ++ footer
    /\ len footer = 22
    /\ parse_zip_footer file = Ok (len recs, records_size recs, len body).

(** C5 as the specification states it, for one append: whatever locator
    the existing archive has, the new one counts one entry more. *)
Definition locator_counts_as_stated (crc32 : Z -> list ascii -> Z)
    (T : ctype) (old key data : list ascii) (new_shape : list Z) : Prop :=
  forall nrecs size offset file',
    parse_zip_footer old = Ok (nrecs, size, offset) ->
    npz_save crc32 T (Some old) key data new_shape "a" = Ok file' ->
    exists size' offset',
      parse_zip_footer file' = Ok (nrecs + 1, size', offset').

(** A file that ends with a locator reporting 65535 entries (here the
    locator alone, with an empty directory at offset 0). *)
Definition full_locator : list ascii := zip_footer 65534 0 0.

(** The archive that holds the [int16] array (2, 3) under the name [a],
    the bytes before its directory, and its one directory record. *)
Definition archive_a : list ascii :=
  match npz_save length_crc T_short None (lit "a") (lit "abcdefghijkl")
                 [2; 3] "w" with
  | Ok file => file
  | _ => []
  end.

Definition body_a : list ascii := takeZ 176 archive_a.
Definition record_a : list ascii := slice 176 51 archive_a.

(** The same archive after appending [bb], and after appending [c]. *)
Definition archive_ab : list ascii :=
  match npz_save length_crc T_char (Some archive_a) (lit "bb") (lit "xyz")
                 [3] "a" with
  | Ok file => file
  | _ => []
  end.

Definition archive_abc : list ascii :=
  match npz_save length_crc T_char (Some archive_ab) (lit "c") (lit "uvwx")
                 [2; 2] "a" with
  | Ok file => file
  | _ => []
  end.

(** The same column-major file with a 118-byte header text, so that the
    whole header has 128 bytes, one less than the header this library
    regenerates. *)
Definition fortran_file_1x3_aligned : list ascii :=
  let text := lit "{'descr': '<i2', 'fortran_order': True, 'shape': (1, 3), }" in
  numpy_magic ++ [byte_of_Z 1; byte_of_Z 0] ++ le_bytes 2 118
  ++ text ++ fill (118 - 1 - len text) " " ++ ["010"%char]
  ++ lit "ABCDEF".

(** What a stream operation may do to the stream: keep its content and
    move forward inside it. *)
Definition advances (ist ist' : istream) : Prop :=
  content ist' = content ist
  /\ gpos ist <= gpos ist'
  /\ (gpos ist <= len (content ist) -> gpos ist' <= len (content ist)).


(* ================================================================== *)
(** ** Definitions used to state further properties *)

(** The stream [ist] seen inside a larger file, after the bytes [pre]. *)
Definition shift (pre : list ascii) (ist : istream) : istream :=
  mk_istream (pre ++ content ist) (len pre + gpos ist) (failbit ist)
             (gcount ist).

(** The invariant of an [NpyArray]: the element count is the product of
    the dimensions and the buffer holds that many words (in [size_t]
    arithmetic). *)
Definition array_invariant (arr : NpyArray) : Prop :=
  num_vals arr = product (shape arr)
  /\ len (data_holder arr) = wrap64 (num_vals arr * word_size arr).


(** What [npz_load] returns for [archive_ab]. *)
Definition loaded_ab : npz_t :=
  [ (lit "a", mk_NpyArray (lit "abcdefghijkl") [2; 3] 2 false 6);
    (lit "bb", mk_NpyArray (lit "xyz") [3] 1 false 3) ].

(** A locator that announces a 100-byte directory at offset 0 of a file
    that has only the locator's 22 bytes. *)
Definition dangling_locator : list ascii := zip_footer 0 100 0.

(* ------------------------------------------------------------------ *)
(** *** A sequence of [npz_save] calls *)

(** The arguments of one [npz_save<T>(zipname, key, data, shape, mode)]
    call, the shape with its first dimension apart. *)
Record entry : Type := mk_entry {
  e_type : ctype;
  e_key : list ascii;
  e_data : list ascii;
  e_shape0 : Z;
  e_shape_tl : list Z
}.

Definition entry_shape (e : entry) : list Z := e_shape0 e :: e_shape_tl e.

(** The stored file name: [key += ".npy"]. *)
Definition entry_name (e : entry) : list ascii := e_key e ++ lit ".npy".

Definition entry_npy_header (e : entry) : list ascii :=
  npy_header_of_dict (npy_dict (e_type e) (e_shape0 e) (e_shape_tl e)).

(** The array the caller handed over, as [npz_load] should return it. *)
Definition entry_array (e : entry) : NpyArray :=
  mk_NpyArray (e_data e) (entry_shape e) (sizeof (e_type e)) false
              (product (entry_shape e)).

(** The call is within what the format can express: a mapped element
    type, dimensions that are [size_t] values, a header text that fits
    its length field, a buffer of exactly the announced size, and a
    stored name that fits the 16-bit name length. *)
Definition entry_ok (e : entry) : Prop :=
  supported (e_type e)
  /\ Forall is_size_t (entry_shape e)
  /\ header_fits (npy_dict (e_type e) (e_shape0 e) (e_shape_tl e))
  /\ len (e_data e) = wrap64 (product (entry_shape e) * sizeof (e_type e))
  /\ len (entry_name e) < 2 ^ 16.

(** Bytes of the local part and of the directory record of an entry. *)
Definition entry_size (e : entry) : Z :=
  30 + len (entry_name e) + len (entry_npy_header e) + len (e_data e).

Definition record_size (e : entry) : Z := 46 + len (entry_name e).

(** The size of the archive that holds the entries. *)
Definition archive_size (entries : list entry) : Z :=
  fold_right (fun e n => entry_size e + record_size e + n) 22 entries.

(** A directory record starts with a 30-byte block that ends the scan of
    [npz_load]. *)
Definition stop_record (r : list ascii) : Prop :=
  exists block tail,
    r = block ++ tail /\ len block = 30
    /\ (Z_of_byte (nth 2 block zero) =? 3)
       && (Z_of_byte (nth 3 block zero) =? 4) = false.

Section ArchiveSequence.

Variable crc32 : Z -> list ascii -> Z.

(** The local file header [npz_save] builds for the entry (lines 250-275
    of the header file). *)
Definition entry_header (e : entry) : list ascii :=
  let npy_header := entry_npy_header e in
  let nels := product (entry_shape e) in
  let nbytes := wrap64 (wrap64 (nels * sizeof (e_type e)) + len npy_header) in
  let crc := wrap32 (crc32 0 npy_header) in
  let crc :=
    wrap32 (crc32 crc
              (takeZ (wrap32 (wrap64 (nels * sizeof (e_type e)))) (e_data e))) in
  zip_local_header crc nbytes (entry_name e).

(** What the call puts before the directory: local header, array header,
    payload. *)
Definition entry_block (e : entry) : list ascii :=
  entry_header e ++ entry_npy_header e ++ e_data e.

Definition entry_record (e : entry) (offset : Z) : list ascii :=
  zip_directory_record (entry_header e) offset (entry_name e).

(** The calls one after the other on the same path: the first with the
    given mode, the following ones in append mode. *)
Fixpoint npz_save_all (zipfile : option (list ascii)) (mode : string)
    (entries : list entry) : outcome (option (list ascii)) :=
  match entries with
  | [] => Ok zipfile
  | e :: rest =>
      do file <- npz_save crc32 (e_type e) zipfile (e_key e) (e_data e)
                          (entry_shape e) mode;
      npz_save_all (Some file) "a" rest
  end.

End ArchiveSequence.

(** The mapping after [arrays[key] = array] for each entry in turn. *)
Definition assign_all (arrays : npz_t) (entries : list entry) : npz_t :=
  fold_left (fun m e => npz_assign m (e_key e) (entry_array e)) entries arrays.

(** Three calls to save under the names [a], [bb] and [a] again. *)
Definition entry_a : entry :=
  mk_entry T_short (lit "a") (lit "abcdefghijkl") 2 [3].
Definition entry_bb : entry := mk_entry T_char (lit "bb") (lit "xyz") 3 [].
Definition entry_a2 : entry := mk_entry T_float (lit "a") (lit "wxyz") 1 [].

(* ------------------------------------------------------------------ *)
(** *** The allocation of the array buffer *)

(** The constructor [NpyArray(shape, word_size, fortran_order)] with the
    allocation of line 36, [new std::vector<char>(num_vals * word_size)]:
    it throws when the program cannot get that many bytes.  [memory] is
    the size of the largest buffer this allocation can get; the other,
    smaller allocations of a call are still taken to succeed. *)
Definition NpyArray_in (memory : Z) (shape : list Z) (word_size : Z)
    (fortran_order : bool) : outcome NpyArray :=
  if memory <? wrap64 (product shape * word_size) then Throw Alloc_failure
  else Ok (new_NpyArray shape word_size fortran_order).

(** [load_the_npy_file] and [npy_load] with that constructor. *)
Definition load_the_npy_file_in (memory : Z) (ist : istream)
  : outcome NpyArray * istream :=
  if failbit ist then (runtime_error "parse_npy_header: file is not open", ist)
  else
    let '(r, ist) := parse_npy_header ist in
    match r with
    | Ok (word_size, shape, fortran_order) =>
        match NpyArray_in memory shape word_size fortran_order with
        | Ok arr =>
            let '(got, ist) := read ist (num_bytes arr) in
            if failbit ist || negb (gcount ist =? num_bytes arr) then
              (runtime_error "load_the_npy_file: failed fread", ist)
            else (Ok (set_data arr got), ist)
        | Throw e => (Throw e, ist)
        | Undefined => (Undefined, ist)
        | Unfinished => (Unfinished, ist)
        end
    | Throw e => (Throw e, ist)
    | Undefined => (Undefined, ist)
    | Unfinished => (Unfinished, ist)
    end.

Definition npy_load_in (memory : Z) (file : option (list ascii))
  : outcome NpyArray :=
  match file with
  | None => runtime_error "File does not exist"
  | Some bytes => fst (load_the_npy_file_in memory (open_stream bytes))
  end.
(* ================================================================== *)
(** * Properties of the header writer *)

Lemma le_bytes_length : forall n v, length (le_bytes n v) = n.
Proof. induction n as [|n IH]; intros v; simpl; [reflexivity | now rewrite IH]. Qed.

Lemma set_back_length : forall l c, l <> [] -> length (set_back l c) = length l.
Proof.
  intros l c Hl. unfold set_back.
  destruct (exists_last Hl) as [l' [a ->]].
  rewrite removelast_last. now rewrite !length_app.
Qed.

Lemma header_remainder_range : forall dict, 1 <= header_remainder dict <= 64.
Proof.
  intros dict. unfold header_remainder.
  pose proof (Z.mod_pos_bound
    (numpy_magic_length + (if big_header dict then 4 else 2) + len dict + 1) 64).
  lia.
Qed.

Lemma pad_dict_len : forall dict,
  len (pad_dict dict) = len dict + header_remainder dict.
Proof.
  intros dict. pose proof (header_remainder_range dict) as Hr.
  unfold pad_dict, len. rewrite set_back_length.
  - rewrite length_app, repeat_length. lia.
  - destruct (Z.to_nat (header_remainder dict)) eqn:E; [lia|].
    simpl. now destruct dict.
Qed.

Lemma npy_header_of_dict_len : forall dict,
  len (npy_header_of_dict dict) = preamble_length dict + len (pad_dict dict).
Proof.
  intros dict. unfold npy_header_of_dict, preamble_length, numpy_magic_length, len.
  destruct (big_header dict);
    repeat (rewrite length_app || rewrite le_bytes_length);
    change (length numpy_magic) with 6%nat; cbn [length]; lia.
Qed.


Lemma fold_left_dict : forall shape_tl dict,
  fold_left (fun dict d => (dict ++ lit ", ") ++ to_string d) shape_tl dict
  = dict ++ flat_map (fun d => lit ", " ++ to_string d) shape_tl.
Proof.
  induction shape_tl as [|d tl IH]; intros dict; simpl.
  - now rewrite app_nil_r.
  - rewrite IH. now rewrite <- !app_assoc.
Qed.

Lemma npy_dict_eq : forall T shape0 shape_tl,
  npy_dict T shape0 shape_tl
  = lit "{'descr': '" ++ BigEndianTest :: map_type T :: to_string (sizeof T)
    ++ lit "', 'fortran_order': False, 'shape': ("
    ++ shape_text shape0 shape_tl ++ lit "), }".
Proof.
  intros T shape0 shape_tl. unfold npy_dict, shape_text.
  rewrite fold_left_dict.
  destruct (length shape_tl =? 0)%nat; repeat rewrite <- app_assoc; reflexivity.
Qed.

(** Every header is one byte longer than a multiple of 64: the padding
    formula counts the newline, which replaces a padding byte, and leaves
    out the two version bytes. *)
Lemma npy_header_of_dict_mod64 : forall dict,
  len (npy_header_of_dict dict) mod 64 = 1.
Proof.
  intros dict. rewrite npy_header_of_dict_len, pad_dict_len.
  unfold preamble_length, header_remainder, numpy_magic_length.
  destruct (big_header dict); Z.div_mod_to_equations; lia.
Qed.

(** C1 (as the code behaves): for every element type and non-empty shape,
    [create_npy_header] returns a header whose total length (magic, version,
    length field and text) is congruent to 1 modulo 64, hence never a
    multiple of 64. *)
Theorem create_npy_header_length_mod64 : forall T shape,
  shape <> [] ->
  exists h, create_npy_header T shape = Ok h
            /\ len h mod 64 = 1 /\ len h mod 64 <> 0.
Proof.
  intros T [|shape0 shape_tl] Hne; [congruence|].
  eexists; split; [reflexivity|].
  rewrite npy_header_of_dict_mod64. split; [reflexivity | discriminate].
Qed.

Lemma create_npy_header_length_mod64_witness :
  exists h, create_npy_header T_double [3] = Ok h
            /\ len h mod 64 = 1 /\ len h mod 64 <> 0.
Proof. apply (create_npy_header_length_mod64 T_double [3]). discriminate. Defined.

(** The smallest instance: a [double] array of shape (3) gets a 129-byte
    header. *)
Example create_npy_header_double_3 :
  exists h, create_npy_header T_double [3] = Ok h /\ len h = 129.
Proof. eexists; split; reflexivity. Qed.

Lemma big_header_spec : forall dict,
  big_header dict = negb (len dict + 1 <=? 65535).
Proof.
  intros dict. unfold big_header.
  destruct (Z.ltb_spec 65535 (len dict + 1)), (Z.leb_spec (len dict + 1) 65535);
    simpl; lia || reflexivity.
Qed.

Lemma skipn_app_exact : forall {A} (l1 l2 : list A) n,
  n = length l1 -> skipn n (l1 ++ l2) = l2.
Proof.
  intros A l1 l2 n ->. rewrite skipn_app, skipn_all, Nat.sub_diag. reflexivity.
Qed.

Lemma create_npy_header_cons : forall T shape0 shape_tl,
  create_npy_header T (shape0 :: shape_tl)
  = Ok (npy_header_of_dict (npy_dict T shape0 shape_tl)).
Proof. reflexivity. Qed.

Lemma npy_header_of_dict_layout : forall dict,
  let small := len dict + 1 <=? 65535 in
  let w := if small then 2 else 4 in
  header_major (npy_header_of_dict dict) = (if small then 1 else 2)
  /\ header_minor (npy_header_of_dict dict) = 0
  /\ len (npy_header_of_dict dict) = 8 + w + len (pad_dict dict)
  /\ skipn (Z.to_nat (8 + w)) (npy_header_of_dict dict) = pad_dict dict.
Proof.
  intros dict small w. subst w small.
  rewrite npy_header_of_dict_len. unfold preamble_length, numpy_magic_length.
  unfold npy_header_of_dict. rewrite big_header_spec.
  destruct (len dict + 1 <=? 65535); cbn [negb]; repeat split; reflexivity.
Qed.


Lemma npy_dict_len_threshold_below :
  len (npy_dict T_double 1 (ones 21826)) + 1 = 65535.
Proof. rewrite npy_dict_eq. vm_compute. reflexivity. Qed.

Lemma npy_dict_len_threshold_above :
  len (npy_dict T_double 10 (ones 21826)) + 1 = 65536.
Proof. rewrite npy_dict_eq. vm_compute. reflexivity. Qed.

(** The test of line 131, made before the padding is added:
    [create_npy_header] writes major version 1 and a 2-byte length field
    when the dictionary with one newline has at most 65535 bytes, and
    major version 2 with a 4-byte length field when it has more; the
    minor version is 0 in both cases.  A [double] shape of 21827 ones
    sits on the threshold (65535 bytes) and keeps version 1.0; one more
    digit gives version 2.0.  What this does to the text that is written
    is stated further down, with the length field. *)
Lemma create_npy_header_version_switch :
  (forall T shape0 shape_tl,
     let dict := npy_dict T shape0 shape_tl in
     let small := len dict + 1 <=? 65535 in
     let w := if small then 2 else 4 in
     exists h, create_npy_header T (shape0 :: shape_tl) = Ok h
       /\ header_major h = (if small then 1 else 2)
       /\ header_minor h = 0
       /\ len h = 8 + w + len (pad_dict dict)
       /\ skipn (Z.to_nat (8 + w)) h = pad_dict dict)
  /\ (len (npy_dict T_double 1 (ones 21826)) + 1 = 65535
      /\ exists h, create_npy_header T_double (1 :: ones 21826) = Ok h
                   /\ header_major h = 1 /\ header_minor h = 0)
  /\ (len (npy_dict T_double 10 (ones 21826)) + 1 = 65536
      /\ exists h, create_npy_header T_double (10 :: ones 21826) = Ok h
                   /\ header_major h = 2 /\ header_minor h = 0).
Proof.
  split; [|split].
  - intros T shape0 shape_tl dict small w.
    exists (npy_header_of_dict dict).
    split; [apply create_npy_header_cons | apply npy_header_of_dict_layout].
  - split; [exact npy_dict_len_threshold_below|].
    exists (npy_header_of_dict (npy_dict T_double 1 (ones 21826))).
    split; [apply create_npy_header_cons|].
    destruct (npy_header_of_dict_layout (npy_dict T_double 1 (ones 21826)))
      as (Ha & Hb & _).
    rewrite Ha, Hb, npy_dict_len_threshold_below. split; reflexivity.
  - split; [exact npy_dict_len_threshold_above|].
    exists (npy_header_of_dict (npy_dict T_double 10 (ones 21826))).
    split; [apply create_npy_header_cons|].
    destruct (npy_header_of_dict_layout (npy_dict T_double 10 (ones 21826)))
      as (Ha & Hb & _).
    rewrite Ha, Hb, npy_dict_len_threshold_above. split; reflexivity.
Qed.

(* ================================================================== *)
(** * Bytes, slices and streams *)

Lemma len_nonneg : forall {A} (l : list A), 0 <= len l.
Proof. intros; unfold len; lia. Qed.

Lemma len_app : forall {A} (l1 l2 : list A), len (l1 ++ l2) = len l1 + len l2.
Proof. intros; unfold len; rewrite length_app; lia. Qed.

Lemma len_cons : forall {A} (x : A) l, len (x :: l) = 1 + len l.
Proof. intros; unfold len; simpl length; lia. Qed.

Lemma len_fill : forall n c, 0 <= n -> len (fill n c) = n.
Proof. intros; unfold len, fill; rewrite repeat_length; lia. Qed.

Lemma takeZ_firstn : forall {A} n (l : list A),
  takeZ n l = firstn (Z.to_nat n) l.
Proof.
  intros A n l. unfold takeZ, len.
  destruct (Z.le_ge_cases n (Z.of_nat (length l))).
  - rewrite Z.min_l by lia. reflexivity.
  - rewrite Z.min_r by lia. rewrite Nat2Z.id, firstn_all.
    symmetry. apply firstn_all2. lia.
Qed.

Lemma dropZ_skipn : forall {A} n (l : list A),
  dropZ n l = skipn (Z.to_nat n) l.
Proof.
  intros A n l. unfold dropZ, len.
  destruct (Z.le_ge_cases n (Z.of_nat (length l))).
  - rewrite Z.min_l by lia. reflexivity.
  - rewrite Z.min_r by lia. rewrite Nat2Z.id, skipn_all.
    symmetry. apply skipn_all2. lia.
Qed.

Lemma takeZ_app_exact : forall {A} (l1 l2 : list A), takeZ (len l1) (l1 ++ l2) = l1.
Proof.
  intros. rewrite takeZ_firstn. unfold len. rewrite Nat2Z.id.
  rewrite firstn_app, Nat.sub_diag, firstn_all. simpl. apply app_nil_r.
Qed.

Lemma dropZ_app_exact : forall {A} (l1 l2 : list A), dropZ (len l1) (l1 ++ l2) = l2.
Proof.
  intros. rewrite dropZ_skipn. unfold len. rewrite Nat2Z.id.
  now apply skipn_app_exact.
Qed.

Lemma takeZ_all : forall {A} n (l : list A), len l <= n -> takeZ n l = l.
Proof.
  intros A n l H. rewrite takeZ_firstn. apply firstn_all2. unfold len in H. lia.
Qed.

Lemma takeZ_nil : forall {A} n, @takeZ A n [] = [].
Proof. intros. rewrite takeZ_firstn. apply firstn_nil. Qed.

Lemma dropZ_0 : forall {A} (l : list A), dropZ 0 l = l.
Proof. intros. rewrite dropZ_skipn. reflexivity. Qed.

Lemma dropZ_all : forall {A} n (l : list A), len l <= n -> dropZ n l = [].
Proof.
  intros A n l H. rewrite dropZ_skipn. apply skipn_all2. unfold len in H. lia.
Qed.

(** The slice that is exactly the middle part of a concatenation. *)
Lemma slice_middle : forall pre x post,
  slice (len pre) (len x) (pre ++ x ++ post) = x.
Proof.
  intros. unfold slice. rewrite dropZ_app_exact. apply takeZ_app_exact.
Qed.

Lemma slice_prefix : forall x post, slice 0 (len x) (x ++ post) = x.
Proof. intros. apply (slice_middle [] x post). Qed.

(** Reading exactly the next part of a good stream. *)
Lemma read_exact : forall pre x post g n p,
  p = len pre -> n = len x ->
  read (mk_istream (pre ++ x ++ post) p false g) n
  = (x, mk_istream (pre ++ x ++ post) (len pre + len x) false (len x)).
Proof.
  intros pre x post g n p -> ->. unfold read. cbn [failbit gpos content].
  rewrite slice_middle, Z.eqb_refl. reflexivity.
Qed.

Lemma Z_of_byte_range : forall c, 0 <= Z_of_byte c < 256.
Proof.
  intros c. unfold Z_of_byte. pose proof (N_ascii_bounded c). lia.
Qed.

Lemma Z_of_byte_of_Z : forall z, Z_of_byte (byte_of_Z z) = z mod 256.
Proof.
  intros z. unfold Z_of_byte, byte_of_Z.
  pose proof (Z.mod_pos_bound z 256 ltac:(lia)).
  rewrite N_ascii_embedding by lia. lia.
Qed.

Lemma le_value_le_bytes : forall n v,
  le_value (le_bytes n v) = v mod 256 ^ Z.of_nat n.
Proof.
  induction n as [|n IH]; intros v.
  - simpl. now rewrite Z.mod_1_r.
  - cbn [le_bytes le_value]. rewrite IH, Z_of_byte_of_Z.
    rewrite Nat2Z.inj_succ, Z.pow_succ_r by lia.
    rewrite Z.rem_mul_r by lia. reflexivity.
Qed.

Lemma le_value_app_zeros : forall l k, le_value (l ++ repeat zero k) = le_value l.
Proof.
  induction l as [|c l IH]; intros k.
  - simpl. induction k as [|k IHk]; simpl; [reflexivity|]. rewrite IHk. reflexivity.
  - simpl. now rewrite IH.
Qed.

Lemma chars_eqb_refl : forall l, chars_eqb l l = true.
Proof.
  induction l as [|c l IH]; simpl; [reflexivity|].
  now rewrite Ascii.eqb_refl, IH.
Qed.

Lemma chars_eqb_eq : forall a b, chars_eqb a b = true <-> a = b.
Proof.
  induction a as [|x a IH]; intros [|y b]; simpl; split; intros H;
    try reflexivity; try discriminate.
  - apply andb_true_iff in H as [H1 H2]. apply Ascii.eqb_eq in H1.
    apply IH in H2. congruence.
  - inversion H; subst. now rewrite Ascii.eqb_refl, chars_eqb_refl.
Qed.

(* ================================================================== *)
(** * Decimal printing and reading *)

Lemma digit_char_spec : forall d, 0 <= d <= 9 ->
  is_digit (digit_char d) = true /\ Z_of_byte (digit_char d) - 48 = d.
Proof.
  intros d Hd.
  assert (H : d = 0 \/ d = 1 \/ d = 2 \/ d = 3 \/ d = 4 \/ d = 5 \/ d = 6
              \/ d = 7 \/ d = 8 \/ d = 9) by lia.
  repeat (destruct H as [-> | H]; [split; reflexivity|]).
  subst d. split; reflexivity.
Qed.

Lemma is_digit_not_space : forall c, is_digit c = true -> isspace c = false.
Proof.
  intros c. unfold is_digit, isspace. pose proof (Z_of_byte_range c) as Hr.
  intros H. apply andb_true_iff in H as [H1 H2].
  apply Z.leb_le in H1, H2.
  apply orb_false_iff. split.
  - apply Z.eqb_neq. lia.
  - apply andb_false_iff. right. apply Z.leb_gt. lia.
Qed.

Lemma is_digit_not_sign : forall c, is_digit c = true ->
  Ascii.eqb c "-" = false /\ Ascii.eqb c "+" = false.
Proof.
  intros c H. split; apply Ascii.eqb_neq; intros ->; discriminate H.
Qed.

Lemma to_string_aux_S : forall f n acc,
  to_string_aux (S f) n acc
  = if n / 10 =? 0 then digit_char (n mod 10) :: acc
    else to_string_aux f (n / 10) (digit_char (n mod 10) :: acc).
Proof. reflexivity. Qed.

Lemma to_string_aux_acc : forall fuel n acc,
  to_string_aux fuel n acc = to_string_aux fuel n [] ++ acc.
Proof.
  induction fuel as [|f IH]; intros n acc; [reflexivity|].
  rewrite !to_string_aux_S. destruct (n / 10 =? 0); [reflexivity|].
  rewrite (IH _ (_ :: acc)), (IH _ [_]). now rewrite <- app_assoc.
Qed.

(** Every character [to_string] prints is a digit. *)
Lemma to_string_aux_digits : forall fuel n,
  Forall (fun c => is_digit c = true) (to_string_aux fuel n []).
Proof.
  induction fuel as [|f IH]; intros n; [constructor|].
  rewrite to_string_aux_S.
  assert (Hd : is_digit (digit_char (n mod 10)) = true).
  { apply digit_char_spec. pose proof (Z.mod_pos_bound n 10). lia. }
  destruct (n / 10 =? 0).
  - constructor; [exact Hd | constructor].
  - rewrite to_string_aux_acc. apply Forall_app. split; [apply IH|].
    constructor; [exact Hd | constructor].
Qed.

Lemma to_string_digits : forall n,
  Forall (fun c => is_digit c = true) (to_string n).
Proof. intros n. apply to_string_aux_digits. Qed.

Lemma to_string_nonempty : forall n, to_string n <> [].
Proof.
  intros n. change (to_string n) with (to_string_aux (S 19) n []).
  rewrite to_string_aux_S.
  destruct (n / 10 =? 0); [discriminate|].
  rewrite to_string_aux_acc. intros H. apply app_eq_nil in H as [_ H]. discriminate.
Qed.

(** Reading back what [to_string] printed. *)
Lemma digits_value_to_string_aux : forall fuel n,
  0 <= n < 10 ^ Z.of_nat fuel ->
  forall a rest,
    digits_value a (to_string_aux fuel n [] ++ rest)
    = digits_value (a * 10 ^ len (to_string_aux fuel n []) + n) rest.
Proof.
  induction fuel as [|f IH]; intros n Hn a rest.
  - simpl in Hn. assert (n = 0) by lia. subst n. simpl.
    f_equal. unfold len. simpl. lia.
  - rewrite Nat2Z.inj_succ, Z.pow_succ_r in Hn by lia.
    rewrite to_string_aux_S.
    destruct (digit_char_spec (n mod 10)) as [Hd Hv].
    { pose proof (Z.mod_pos_bound n 10). lia. }
    destruct (Z.eqb_spec (n / 10) 0) as [Hq|Hq].
    + cbn [app digits_value]. rewrite Hd, Hv. f_equal.
      unfold len. simpl. Z.div_mod_to_equations. lia.
    + rewrite to_string_aux_acc, <- app_assoc.
      rewrite IH by (Z.div_mod_to_equations; lia).
      cbn [app digits_value]. rewrite Hd, Hv. f_equal.
      rewrite len_app. change (len [digit_char (n mod 10)]) with 1.
      rewrite Z.pow_add_r by (try apply len_nonneg; lia). rewrite Z.pow_1_r.
      generalize (10 ^ len (to_string_aux f (n / 10) [])). intros P.
      Z.div_mod_to_equations. lia.
Qed.

Lemma digits_value_stop : forall a rest,
  no_digit_head rest ->
  digits_value a rest = a.
Proof. intros a [|c r] H; simpl in *; [reflexivity | now rewrite H]. Qed.

Lemma digits_value_to_string : forall n, is_size_t n ->
  digits_value 0 (to_string n) = n.
Proof.
  intros n [H0 H1]. unfold to_string.
  rewrite <- (app_nil_r (to_string_aux 20 n [])).
  rewrite digits_value_to_string_aux.
  - reflexivity.
  - split; [exact H0|]. eapply Z.lt_trans; [exact H1|]. reflexivity.
Qed.

Lemma to_string_head : forall n,
  exists c r, to_string n = c :: r /\ is_digit c = true.
Proof.
  intros n. pose proof (to_string_digits n) as Hd.
  pose proof (to_string_nonempty n) as Hne.
  destruct (to_string n) as [|c r]; [congruence|].
  exists c, r. split; [reflexivity|]. now inversion Hd.
Qed.

(** [std::stoul(std::to_string(n)) == n] for every [size_t] value. *)
Lemma stoul_to_string : forall n, is_size_t n -> stoul (to_string n) = Ok n.
Proof.
  intros n Hn. unfold stoul.
  destruct (to_string_head n) as (c & r & E & Hc).
  pose proof (digits_value_to_string n Hn) as Hv. rewrite E in *.
  cbn [skip_space]. rewrite (is_digit_not_space c Hc).
  destruct (is_digit_not_sign c Hc) as [-> ->].
  rewrite Hc, Hv.
  destruct (Z.ltb_spec ULONG_MAX n) as [H|H]; [|reflexivity].
  unfold ULONG_MAX, is_size_t in *. lia.
Qed.

Lemma take_digits_app : forall m rest,
  Forall (fun c => is_digit c = true) m ->
  no_digit_head rest ->
  take_digits (m ++ rest) = (m, rest).
Proof.
  induction m as [|c m IH]; intros rest Hm Hr.
  - destruct rest as [|c r]; simpl in *; [reflexivity|]. now rewrite Hr.
  - inversion Hm; subst. cbn [app take_digits].
    rewrite H1, IH by assumption. reflexivity.
Qed.

(** The search skips a separator without digits and matches the number
    printed after it. *)
Lemma regex_search_num_skip : forall sep n rest,
  Forall (fun c => is_digit c = false) sep ->
  no_digit_head rest ->
  regex_search_num (sep ++ to_string n ++ rest) = Some (to_string n, rest).
Proof.
  induction sep as [|c sep IH]; intros n rest Hs Hr.
  - destruct (to_string_head n) as (c & r & E & Hc).
    cbn [app]. pose proof (take_digits_app (to_string n) rest
                             (to_string_digits n) Hr) as Ht.
    rewrite E in *. cbn [app regex_search_num]. rewrite Hc.
    cbn [app] in Ht. now rewrite Ht.
  - inversion Hs; subst. cbn [app regex_search_num]. rewrite H1.
    now apply IH.
Qed.

Lemma regex_search_num_none : forall s,
  Forall (fun c => is_digit c = false) s -> regex_search_num s = None.
Proof.
  induction s as [|c s IH]; intros H; [reflexivity|].
  inversion H; subst. simpl. rewrite H2. now apply IH.
Qed.

(* ================================================================== *)
(** * Parsing a generated header *)

Lemma npy_dict_split : forall T shape0 shape_tl,
  npy_dict T shape0 shape_tl
  = header_prefix T ++ shape_text shape0 shape_tl ++ lit "), }".
Proof.
  intros. rewrite npy_dict_eq. unfold header_prefix.
  repeat (rewrite <- app_assoc; cbn [app]). reflexivity.
Qed.

Lemma pad_dict_eq : forall dict,
  pad_dict dict
  = dict ++ fill (header_remainder dict - 1) " " ++ ["010"%char].
Proof.
  intros dict. pose proof (header_remainder_range dict) as Hr.
  unfold pad_dict, set_back, fill.
  replace (Z.to_nat (header_remainder dict))
    with (S (Z.to_nat (header_remainder dict - 1))) by lia.
  cbn [repeat]. rewrite repeat_cons, app_assoc, removelast_last.
  now rewrite <- app_assoc.
Qed.

Lemma pad_dict_last : forall dict, last (pad_dict dict) zero = "010"%char.
Proof.
  intros dict. rewrite pad_dict_eq, app_assoc. apply last_last.
Qed.

(** *** Searching *)

Lemma find_from_single : forall l ch r i,
  Forall (fun c => Ascii.eqb ch c = false) l ->
  find_from (l ++ ch :: r) [ch] i = Some (i + len l).
Proof.
  induction l as [|c l IH]; intros ch r i Hl.
  - cbn [app find_from is_prefix]. rewrite Ascii.eqb_refl. cbn.
    f_equal. unfold len. simpl. lia.
  - inversion Hl; subst. cbn [app find_from is_prefix]. rewrite H1. cbn [andb].
    rewrite IH by assumption. f_equal. rewrite len_cons. lia.
Qed.

Lemma find_single : forall l ch r,
  Forall (fun c => Ascii.eqb ch c = false) l ->
  find (l ++ ch :: r) [ch] = Some (len l).
Proof. intros. unfold find. now rewrite find_from_single. Qed.

Lemma substr_app_l : forall pre tail pos n,
  0 <= pos -> 0 <= n -> pos + n <= len pre ->
  substr (pre ++ tail) pos n = Ok (slice pos n pre).
Proof.
  intros pre tail pos n Hp Hn Hle. unfold substr.
  rewrite len_app. pose proof (len_nonneg tail).
  destruct (Z.ltb_spec (len pre + len tail) pos); [lia|].
  f_equal. unfold slice. rewrite !takeZ_firstn, !dropZ_skipn.
  rewrite skipn_app, firstn_app.
  unfold len in *.
  replace (Z.to_nat n - length (skipn (Z.to_nat pos) pre))%nat with 0%nat
    by (rewrite length_skipn; lia).
  simpl. apply app_nil_r.
Qed.

Lemma substr_from_app_l : forall pre tail pos,
  0 <= pos <= len pre ->
  substr_from (pre ++ tail) pos = Ok (dropZ pos pre ++ tail).
Proof.
  intros pre tail pos Hp. unfold substr_from.
  rewrite len_app. pose proof (len_nonneg tail).
  destruct (Z.ltb_spec (len pre + len tail) pos); [lia|].
  f_equal. rewrite !dropZ_skipn, skipn_app. unfold len in *.
  replace (Z.to_nat pos - length pre)%nat with 0%nat by lia. reflexivity.
Qed.

Lemma char_at_app_l : forall pre tail pos,
  0 <= pos < len pre ->
  char_at (pre ++ tail) pos = Ok (nth (Z.to_nat pos) pre zero).
Proof.
  intros pre tail pos Hp. unfold char_at.
  rewrite len_app. pose proof (len_nonneg tail).
  destruct (Z.ltb_spec pos (len pre + len tail)); [|lia].
  f_equal. apply app_nth1. unfold len in *. lia.
Qed.

(** *** The fixed prefix, per element type *)

Ltac by_computation :=
  first [ apply Z.leb_le; vm_compute; reflexivity
        | apply Z.ltb_lt; vm_compute; reflexivity ].

Ltac each_supported T H :=
  destruct T; try (exfalso; apply H; reflexivity).

Lemma supported_sizeof : forall T, supported T -> is_size_t (sizeof T).
Proof. intros T H. unfold is_size_t. each_supported T H; split; by_computation. Qed.

Lemma prefix_find_fortran_order : forall T, supported T -> forall X,
  find (header_prefix T ++ X) (lit "fortran_order")
  = Some (17 + len (to_string (sizeof T))).
Proof. intros T H X. each_supported T H; vm_compute; reflexivity. Qed.

Lemma prefix_fortran_value : forall T, supported T -> forall X,
  substr (header_prefix T ++ X) (17 + len (to_string (sizeof T)) + 16) 4
  = Ok (lit "Fals").
Proof.
  intros T H X.
  each_supported T H;
    (rewrite substr_app_l by by_computation); vm_compute; reflexivity.
Qed.

Lemma prefix_find_open : forall T, supported T -> forall X,
  find (header_prefix T ++ X) (lit "(") = Some (len (header_prefix T) - 1).
Proof. intros T H X. each_supported T H; vm_compute; reflexivity. Qed.

Lemma prefix_no_close : forall T, supported T ->
  Forall (fun c => Ascii.eqb ")" c = false) (header_prefix T).
Proof.
  intros T H. apply Forall_forall. intros c Hc.
  assert (F : forallb (fun c => negb (Ascii.eqb ")" c)) (header_prefix T) = true)
    by (each_supported T H; vm_compute; reflexivity).
  rewrite forallb_forall in F. apply F in Hc. now apply negb_true_iff in Hc.
Qed.

Lemma prefix_find_descr : forall T, supported T -> forall X,
  find (header_prefix T ++ X) (lit "descr") = Some 2.
Proof. intros T H X. each_supported T H; vm_compute; reflexivity. Qed.

Lemma prefix_endian : forall T, supported T -> forall X,
  char_at (header_prefix T ++ X) (2 + 9) = Ok "<"%char.
Proof.
  intros T H X.
  each_supported T H;
    (rewrite char_at_app_l by (split; by_computation));
    vm_compute; reflexivity.
Qed.

Lemma prefix_word_size_text : forall T, supported T -> forall X,
  substr_from (header_prefix T ++ X) (2 + 9 + 2)
  = Ok (to_string (sizeof T)
        ++ "'"%char :: lit ", 'fortran_order': False, 'shape': (" ++ X).
Proof.
  intros T H X.
  each_supported T H;
    (rewrite substr_from_app_l by (split; by_computation));
    f_equal.
Qed.

(** *** The shape text *)

Lemma shape_char_digit : forall c, is_digit c = true -> shape_char c = true.
Proof. intros c H. unfold shape_char. now rewrite H. Qed.

Lemma shape_text_chars : forall shape0 shape_tl,
  Forall (fun c => shape_char c = true) (shape_text shape0 shape_tl).
Proof.
  intros shape0 shape_tl. unfold shape_text.
  assert (Hn : forall n, Forall (fun c => shape_char c = true) (to_string n)).
  { intros n. eapply Forall_impl; [|apply to_string_digits].
    apply shape_char_digit. }
  apply Forall_app; split; [apply Hn|].
  apply Forall_app; split.
  - induction shape_tl as [|d tl IH]; [constructor|].
    cbn [flat_map]. repeat (apply Forall_app; split); auto.
    repeat constructor.
  - destruct (length shape_tl =? 0)%nat; repeat constructor.
Qed.

Lemma shape_char_not_close : forall c,
  shape_char c = true -> Ascii.eqb ")" c = false.
Proof.
  intros c H. apply Ascii.eqb_neq. intros <-. discriminate H.
Qed.

Lemma flat_map_head : forall (tl : list Z) trailing,
  Forall (fun c => is_digit c = false) trailing ->
  no_digit_head (flat_map (fun d => lit ", " ++ to_string d) tl ++ trailing).
Proof.
  intros [|d tl] trailing Ht; cbn.
  - destruct Ht; simpl; auto.
  - reflexivity.
Qed.

(** The loop reads back the dimensions that were printed. *)
Lemma shape_loop_numbers : forall tl fuel acc trailing,
  Forall is_size_t tl ->
  Forall (fun c => is_digit c = false) trailing ->
  (length tl < fuel)%nat ->
  shape_loop fuel (flat_map (fun d => lit ", " ++ to_string d) tl ++ trailing)
             acc
  = Ok (acc ++ tl).
Proof.
  induction tl as [|d tl IH]; intros fuel acc trailing Hs Ht Hf.
  - destruct fuel as [|f]; [simpl in Hf; lia|].
    cbn [flat_map app shape_loop].
    rewrite regex_search_num_none by assumption. now rewrite app_nil_r.
  - destruct fuel as [|f]; [simpl in Hf; lia|].
    inversion Hs; subst.
    cbn [flat_map shape_loop]. rewrite <- !app_assoc.
    rewrite regex_search_num_skip.
    + rewrite stoul_to_string by assumption. cbn [bind].
      rewrite IH by (try assumption; simpl in Hf; lia).
      now rewrite <- app_assoc.
    + repeat constructor.
    + now apply flat_map_head.
Qed.

Lemma flat_map_length_ge : forall (tl : list Z),
  (length tl <= length (flat_map (fun d => lit ", " ++ to_string d) tl))%nat.
Proof.
  induction tl as [|d tl IH]; [simpl; lia|].
  cbn [flat_map]. rewrite !length_app.
  change (length (lit ", ")) with 2%nat. cbn [length]. lia.
Qed.

Lemma shape_loop_shape_text : forall shape0 shape_tl,
  Forall is_size_t (shape0 :: shape_tl) ->
  shape_loop (S (length (shape_text shape0 shape_tl)))
             (shape_text shape0 shape_tl) []
  = Ok (shape0 :: shape_tl).
Proof.
  intros shape0 shape_tl Hs. inversion Hs; subst.
  assert (Ht : Forall (fun c => is_digit c = false)
                 (if (length shape_tl =? 0)%nat then lit "," else [])).
  { destruct (length shape_tl =? 0)%nat; repeat constructor. }
  assert (Hlen : (length shape_tl < length (shape_text shape0 shape_tl))%nat).
  { unfold shape_text. rewrite !length_app.
    pose proof (flat_map_length_ge shape_tl).
    pose proof (to_string_nonempty shape0).
    destruct (to_string shape0); [congruence|]. cbn [length]. lia. }
  unfold shape_text in *. cbn [shape_loop].
  pose proof (regex_search_num_skip [] shape0 _ (Forall_nil _)
                (flat_map_head shape_tl _ Ht)) as R.
  cbn [app] in R. rewrite R.
  rewrite stoul_to_string by assumption. cbn [bind app].
  now rewrite shape_loop_numbers.
Qed.

(** *** The whole text *)

Lemma supported_digits_not_quote : forall n,
  Forall (fun c => Ascii.eqb "'" c = false) (to_string n).
Proof.
  intros n. eapply Forall_impl; [|apply to_string_digits].
  intros c H. apply Ascii.eqb_neq. intros <-. discriminate H.
Qed.

(** [parse_npy_header]'s text scan recovers word size and shape from the
    text [create_npy_header] pads, and reads the order flag as false. *)
Lemma parse_header_text_generated : forall T shape0 shape_tl,
  supported T ->
  Forall is_size_t (shape0 :: shape_tl) ->
  len (pad_dict (npy_dict T shape0 shape_tl)) < 2 ^ 64 ->
  parse_header_text (pad_dict (npy_dict T shape0 shape_tl))
  = Ok (sizeof T, shape0 :: shape_tl, false).
Proof.
  intros T shape0 shape_tl HT Hs Hlen.
  rewrite pad_dict_eq in *. rewrite npy_dict_split in *.
  set (st := shape_text shape0 shape_tl) in *.
  set (pad := fill _ _ ++ _) in *.
  assert (E : (header_prefix T ++ st ++ lit "), }") ++ pad
              = header_prefix T ++ st ++ ")"%char :: lit ", }" ++ pad).
  { repeat (rewrite <- app_assoc; cbn [app]). reflexivity. }
  rewrite E in *. clear E.
  unfold parse_header_text.
  rewrite prefix_find_fortran_order by assumption.
  rewrite prefix_fortran_value by assumption. cbn [bind].
  rewrite prefix_find_open by assumption.
  replace (find (header_prefix T ++ st ++ ")"%char :: lit ", }" ++ pad) (lit ")"))
    with (Some (len (header_prefix T) + len st)).
  2:{ rewrite app_assoc. change (lit ")") with [")"%char].
      rewrite find_single; [now rewrite len_app|].
      apply Forall_app; split; [now apply prefix_no_close|].
      eapply Forall_impl; [|apply shape_text_chars].
      apply shape_char_not_close. }
  replace (len (header_prefix T) - 1 + 1) with (len (header_prefix T)) by lia.
  replace (wrap64 (len (header_prefix T) + len st - (len (header_prefix T) - 1) - 1))
    with (len st).
  2:{ unfold wrap64. rewrite Z.mod_small; [lia|].
      rewrite !len_app in Hlen.
      pose proof (len_nonneg (header_prefix T)). pose proof (len_nonneg st).
      pose proof (len_nonneg (")"%char :: lit ", }" ++ pad)). lia. }
  replace (substr (header_prefix T ++ st ++ ")"%char :: lit ", }" ++ pad)
                  (len (header_prefix T)) (len st)) with (Ok st).
  2:{ unfold substr. rewrite slice_middle. rewrite !len_app.
      pose proof (len_nonneg st).
      pose proof (len_nonneg (")"%char :: lit ", }" ++ pad)).
      destruct (Z.ltb_spec (len (header_prefix T) + (len st + len (")"%char :: lit ", }" ++ pad)))
                           (len (header_prefix T))); [lia | reflexivity]. }
  cbn [bind]. unfold st at 1 2. rewrite shape_loop_shape_text by assumption.
  cbn [bind].
  rewrite prefix_find_descr by assumption.
  rewrite prefix_endian by assumption. cbn [bind Ascii.eqb orb negb].
  rewrite prefix_word_size_text by assumption. cbn [bind].
  change (lit "'") with ["'"%char].
  rewrite find_single by apply supported_digits_not_quote.
  rewrite slice_prefix.
  rewrite stoul_to_string by now apply supported_sizeof.
  reflexivity.
Qed.

(** *** The binary preamble *)

Lemma read_split : forall C pre x post p n g,
  C = pre ++ x ++ post -> p = len pre -> n = len x ->
  read (mk_istream C p false g) n = (x, mk_istream C (p + n) false n).
Proof.
  intros C pre x post p n g -> -> ->. now rewrite read_exact.
Qed.

Lemma over_exact : forall x n c, n = len x -> over x n c = x.
Proof.
  intros x n c ->. unfold over. rewrite Z.sub_diag. apply app_nil_r.
Qed.

Lemma le_value_over : forall x n, le_value (over x n zero) = le_value x.
Proof. intros. unfold over, fill. apply le_value_app_zeros. Qed.

Lemma pad_dict_len_pos : forall dict, 1 <= len (pad_dict dict).
Proof.
  intros dict. rewrite pad_dict_len.
  pose proof (header_remainder_range dict). pose proof (len_nonneg dict). lia.
Qed.

Lemma read_header_text_exact : forall C pre text post g,
  C = pre ++ text ++ post ->
  1 <= len text ->
  last text zero = "010"%char ->
  read_header_text (mk_istream C (len pre) false g) (len text)
  = (parse_header_text text,
     mk_istream C (len pre + len text) false (len text)).
Proof.
  intros C pre text post g HC Hlen Hlast. unfold read_header_text.
  cbn [failbit].
  rewrite (read_split C pre text post) by (assumption || reflexivity).
  cbn [failbit gcount]. rewrite Z.eqb_refl. cbn [negb orb].
  destruct (Z.eqb_spec (len text) 0); [lia|].
  rewrite Hlast. reflexivity.
Qed.

(** [parse_npy_header] on a stream that starts with a generated header:
    the metadata comes back and the stream stands at the first payload
    byte. *)
Lemma parse_npy_header_generated : forall T shape0 shape_tl rest,
  supported T ->
  Forall is_size_t (shape0 :: shape_tl) ->
  header_fits (npy_dict T shape0 shape_tl) ->
  let header := npy_header_of_dict (npy_dict T shape0 shape_tl) in
  parse_npy_header (open_stream (header ++ rest))
  = (Ok (sizeof T, shape0 :: shape_tl, false),
     mk_istream (header ++ rest) (len header) false
                (len (pad_dict (npy_dict T shape0 shape_tl)))).
Proof.
  intros T shape0 shape_tl rest HT Hs Hfit header.
  set (dict := npy_dict T shape0 shape_tl) in *.
  pose proof (pad_dict_len_pos dict) as Hpos.
  assert (Htext : parse_header_text (pad_dict dict)
                  = Ok (sizeof T, shape0 :: shape_tl, false)).
  { apply parse_header_text_generated; try assumption.
    revert Hfit. unfold header_fits. fold dict.
    destruct (big_header dict); lia. }
  assert (Hlen : len header = preamble_length dict + len (pad_dict dict))
    by apply npy_header_of_dict_len.
  revert Hfit Hlen. unfold header_fits, preamble_length.
  subst header. unfold npy_header_of_dict in *.
  set (pad := pad_dict dict) in *.
  unfold parse_npy_header, open_stream.
  destruct (big_header dict); intros Hfit Hlen.
  - (* version 2.0 *)
    set (lf := le_bytes 4 (wrap32 (len pad))) in *.
    set (C := ((((numpy_magic ++ [byte_of_Z 2]) ++ [byte_of_Z 0]) ++ lf) ++ pad) ++ rest) in *.
    assert (Hlf : len lf = 4) by (unfold len, lf; now rewrite le_bytes_length).
    assert (Hv : le_value lf = len pad).
    { unfold lf. rewrite le_value_le_bytes. unfold wrap32.
      change (256 ^ Z.of_nat 4) with (2 ^ 32).
      rewrite Z.mod_mod by lia. apply Z.mod_small. lia. }
    rewrite (read_split C [] numpy_magic
               ([byte_of_Z 2] ++ [byte_of_Z 0] ++ lf ++ pad ++ rest));
      [| subst C; repeat rewrite <- app_assoc; reflexivity
       | reflexivity | reflexivity ].
    rewrite over_exact by reflexivity. rewrite chars_eqb_refl. cbn [negb].
    rewrite (read_split C numpy_magic [byte_of_Z 2]
               ([byte_of_Z 0] ++ lf ++ pad ++ rest));
      [| subst C; repeat rewrite <- app_assoc; reflexivity
       | reflexivity | reflexivity ].
    rewrite (read_split C (numpy_magic ++ [byte_of_Z 2]) [byte_of_Z 0]
               (lf ++ pad ++ rest));
      [| subst C; repeat rewrite <- app_assoc; reflexivity
       | reflexivity | reflexivity ].
    rewrite !le_value_over.
    change (le_value [byte_of_Z 2]) with 2.
    change (le_value [byte_of_Z 0]) with 0.
    cbn [Z.eqb Pos.eqb andb].
    rewrite (read_split C ((numpy_magic ++ [byte_of_Z 2]) ++ [byte_of_Z 0]) lf
               (pad ++ rest));
      [| subst C; repeat rewrite <- app_assoc; reflexivity
       | reflexivity | now rewrite Hlf ].
    rewrite le_value_over, Hv.
    change (0 + numpy_magic_length + 1 + 1 + 4)
      with (len (((numpy_magic ++ [byte_of_Z 2]) ++ [byte_of_Z 0])) + 4).
    rewrite <- Hlf, <- len_app.
    rewrite (read_header_text_exact C _ pad rest);
      [| subst C; repeat rewrite <- app_assoc; reflexivity
       | assumption | apply pad_dict_last ].
    rewrite Htext. f_equal. f_equal. rewrite Hlen. rewrite len_app, Hlf.
    reflexivity.
  - (* version 1.0 *)
    set (lf := le_bytes 2 (wrap16 (len pad))) in *.
    set (C := ((((numpy_magic ++ [byte_of_Z 1]) ++ [byte_of_Z 0]) ++ lf) ++ pad) ++ rest) in *.
    assert (Hlf : len lf = 2) by (unfold len, lf; now rewrite le_bytes_length).
    assert (Hv : le_value lf = len pad).
    { unfold lf. rewrite le_value_le_bytes. unfold wrap16.
      change (256 ^ Z.of_nat 2) with (2 ^ 16).
      rewrite Z.mod_mod by lia. apply Z.mod_small. lia. }
    rewrite (read_split C [] numpy_magic
               ([byte_of_Z 1] ++ [byte_of_Z 0] ++ lf ++ pad ++ rest));
      [| subst C; repeat rewrite <- app_assoc; reflexivity
       | reflexivity | reflexivity ].
    rewrite over_exact by reflexivity. rewrite chars_eqb_refl. cbn [negb].
    rewrite (read_split C numpy_magic [byte_of_Z 1]
               ([byte_of_Z 0] ++ lf ++ pad ++ rest));
      [| subst C; repeat rewrite <- app_assoc; reflexivity
       | reflexivity | reflexivity ].
    rewrite (read_split C (numpy_magic ++ [byte_of_Z 1]) [byte_of_Z 0]
               (lf ++ pad ++ rest));
      [| subst C; repeat rewrite <- app_assoc; reflexivity
       | reflexivity | reflexivity ].
    rewrite !le_value_over.
    change (le_value [byte_of_Z 1]) with 1.
    change (le_value [byte_of_Z 0]) with 0.
    cbn [Z.eqb Pos.eqb andb].
    rewrite (read_split C ((numpy_magic ++ [byte_of_Z 1]) ++ [byte_of_Z 0]) lf
               (pad ++ rest));
      [| subst C; repeat rewrite <- app_assoc; reflexivity
       | reflexivity | now rewrite Hlf ].
    rewrite le_value_over, Hv.
    change (0 + numpy_magic_length + 1 + 1 + 2)
      with (len (((numpy_magic ++ [byte_of_Z 1]) ++ [byte_of_Z 0])) + 2).
    rewrite <- Hlf, <- len_app.
    rewrite (read_header_text_exact C _ pad rest);
      [| subst C; repeat rewrite <- app_assoc; reflexivity
       | assumption | apply pad_dict_last ].
    rewrite Htext. f_equal. f_equal. rewrite Hlen. rewrite len_app, Hlf.
    reflexivity.
Qed.

(** *** The shape loop always ends *)

Lemma take_digits_suffix_length : forall s m suffix,
  take_digits s = (m, suffix) -> (length suffix <= length s)%nat.
Proof.
  induction s as [|c s IH]; intros m suffix H; cbn [take_digits] in H.
  - inversion H; subst. simpl. lia.
  - destruct (is_digit c).
    + destruct (take_digits s) as [m' suffix'] eqn:E.
      inversion H; subst. specialize (IH _ _ eq_refl). simpl. lia.
    + inversion H; subst. lia.
Qed.

Lemma regex_search_num_suffix_length : forall s m suffix,
  regex_search_num s = Some (m, suffix) -> (length suffix < length s)%nat.
Proof.
  induction s as [|c s IH]; intros m suffix H; [discriminate|].
  cbn [regex_search_num] in H. destruct (is_digit c) eqn:Hc.
  - cbn [take_digits] in H. rewrite Hc in H.
    destruct (take_digits s) as [m' suffix'] eqn:E.
    inversion H; subst.
    pose proof (take_digits_suffix_length _ _ _ E). simpl. lia.
  - specialize (IH _ _ H). simpl. lia.
Qed.

(** With the fuel [parse_header_text] gives it, one more than the length
    of the text, the loop never runs out. *)
Lemma shape_loop_finishes : forall fuel str_shape acc,
  (length str_shape < fuel)%nat ->
  shape_loop fuel str_shape acc <> Unfinished.
Proof.
  induction fuel as [|fuel IH]; intros str_shape acc Hf; [lia|].
  cbn [shape_loop].
  destruct (regex_search_num str_shape) as [[m suffix]|] eqn:E; [|discriminate].
  apply regex_search_num_suffix_length in E.
  destruct (stoul m) as [v| | |] eqn:Ev; cbn [bind]; try discriminate.
  - apply IH. lia.
  - unfold stoul in Ev.
    destruct (skip_space m) as [|c r]; [discriminate|].
    destruct (Ascii.eqb c "-"); [|destruct (Ascii.eqb c "+")];
      repeat match type of Ev with
             | context [match ?x with _ => _ end] => destruct x
             end; discriminate.
Qed.

(* ================================================================== *)
(** * Saving and loading a single array *)

Lemma wrap64_range : forall z, 0 <= wrap64 z < 2 ^ 64.
Proof. intros z. unfold wrap64. apply Z.mod_pos_bound. lia. Qed.

Lemma wrap64_small : forall z, 0 <= z < 2 ^ 64 -> wrap64 z = z.
Proof. intros. unfold wrap64. now apply Z.mod_small. Qed.

Lemma wrap32_small : forall z, 0 <= z < 2 ^ 32 -> wrap32 z = z.
Proof. intros. unfold wrap32. now apply Z.mod_small. Qed.

Lemma wrap16_small : forall z, 0 <= z < 2 ^ 16 -> wrap16 z = z.
Proof. intros. unfold wrap16. now apply Z.mod_small. Qed.

Lemma write_at_empty : forall bytes, write_at [] 0 bytes = bytes.
Proof.
  intros bytes. unfold write_at. rewrite takeZ_nil.
  rewrite (dropZ_all _ []) by (unfold len; simpl; pose proof (len_nonneg bytes); lia).
  cbn. apply app_nil_r.
Qed.

Lemma raw_bytes_exact : forall data n, len data = n -> raw_bytes data n = Ok data.
Proof.
  intros data n <-. unfold raw_bytes. rewrite Z.ltb_irrefl.
  now rewrite takeZ_all by lia.
Qed.

(** Create mode: the file is the header followed by the raw bytes. *)
Lemma npy_save_create : forall T file data shape0 shape_tl,
  len data = wrap64 (sizeof T * product (shape0 :: shape_tl)) ->
  npy_save T file data (shape0 :: shape_tl) "w"
  = Ok (npy_header_of_dict (npy_dict T shape0 shape_tl) ++ data).
Proof.
  intros T file data shape0 shape_tl Hd. unfold npy_save.
  change (String.eqb "w" "a") with false.
  destruct file; cbn [bind]; rewrite create_npy_header_cons; cbn [bind];
    rewrite raw_bytes_exact by assumption; cbn [bind];
    now rewrite write_at_empty.
Qed.

(** Loading a stream that holds a generated header and then the payload. *)
Lemma load_generated : forall T shape0 shape_tl data,
  supported T ->
  Forall is_size_t (shape0 :: shape_tl) ->
  header_fits (npy_dict T shape0 shape_tl) ->
  len data = wrap64 (sizeof T * product (shape0 :: shape_tl)) ->
  npy_load (Some (npy_header_of_dict (npy_dict T shape0 shape_tl) ++ data))
  = Ok (mk_NpyArray data (shape0 :: shape_tl) (sizeof T) false
                    (product (shape0 :: shape_tl))).
Proof.
  intros T shape0 shape_tl data HT Hs Hfit Hd.
  unfold npy_load, load_the_npy_file. cbn [open_stream failbit].
  fold (open_stream (npy_header_of_dict (npy_dict T shape0 shape_tl) ++ data)).
  rewrite parse_npy_header_generated by assumption.
  set (header := npy_header_of_dict _).
  assert (Hn : num_bytes (new_NpyArray (shape0 :: shape_tl) (sizeof T) false)
               = len data).
  { unfold num_bytes, new_NpyArray. cbn [data_holder].
    rewrite len_fill by apply wrap64_range. rewrite Hd. f_equal. lia. }
  rewrite Hn.
  rewrite (read_split (header ++ data) header data []);
    [| now rewrite app_nil_r | reflexivity | reflexivity ].
  cbn [failbit gcount fst]. rewrite Z.eqb_refl. reflexivity.
Qed.

(** Round trip, for the headers whose padded text fits the length field:
    [npy_save] in create mode followed by [npy_load] returns the shape, the
    element size, a false order flag and the bytes that were saved. *)
Theorem npy_save_load_roundtrip : forall T file data shape0 shape_tl,
  supported T ->
  Forall is_size_t (shape0 :: shape_tl) ->
  header_fits (npy_dict T shape0 shape_tl) ->
  len data = wrap64 (sizeof T * product (shape0 :: shape_tl)) ->
  exists file',
    npy_save T file data (shape0 :: shape_tl) "w" = Ok file'
    /\ npy_load (Some file')
       = Ok (mk_NpyArray data (shape0 :: shape_tl) (sizeof T) false
                         (product (shape0 :: shape_tl))).
Proof.
  intros T file data shape0 shape_tl HT Hs Hfit Hd.
  eexists. split; [now apply npy_save_create|]. now apply load_generated.
Qed.

Lemma npy_save_load_roundtrip_witness :
  exists file',
    npy_save T_short None (lit "abcdefghijkl") [2; 3] "w" = Ok file'
    /\ npy_load (Some file')
       = Ok (mk_NpyArray (lit "abcdefghijkl") [2; 3] 2 false 6).
Proof.
  apply (npy_save_load_roundtrip T_short None (lit "abcdefghijkl") 2 [3]).
  - discriminate.
  - repeat constructor; vm_compute; congruence.
  - vm_compute. reflexivity.
  - reflexivity.
Defined.

(** C2 (failing input): a [double] array whose shape is 21827 ones.  Its
    dictionary text has 65534 bytes, so version 1.0 is chosen, but the
    padded text has 65591 bytes and the 16-bit length field wraps to 55.
    [npy_save] writes the file and [npy_load] rejects it. *)
Theorem npy_roundtrip_breaks_at_padded_length :
  let shape := 1 :: ones 21826 in
  let data := fill 8 "a"%char in
  len data = wrap64 (sizeof T_double * product shape)
  /\ len (pad_dict (npy_dict T_double 1 (ones 21826))) = 65591
  /\ exists file,
       npy_save T_double None data shape "w" = Ok file
       /\ slice 8 2 file = le_bytes 2 55
       /\ npy_load (Some file)
          = Throw (Runtime_error
                     "parse_npy_header: failed to read data for header").
Proof.
  intros shape data.
  assert (Hd : len data = wrap64 (sizeof T_double * product shape))
    by (vm_compute; reflexivity).
  split; [exact Hd|].
  split; [rewrite npy_dict_eq; vm_compute; reflexivity|].
  eexists. split; [apply npy_save_create; exact Hd|].
  rewrite npy_dict_eq. split; vm_compute; reflexivity.
Qed.

(* ================================================================== *)
(** * The version and the length field against the text written *)

Lemma pad_dict_len_small : forall dict,
  big_header dict = false ->
  (len dict <= 65526 -> len (pad_dict dict) <= 65527)
  /\ (65527 <= len dict -> len (pad_dict dict) = 65591).
Proof.
  intros dict Hb. pose proof (len_nonneg dict) as H0.
  rewrite pad_dict_len. unfold header_remainder, numpy_magic_length.
  rewrite Hb. unfold big_header in Hb. apply Z.ltb_ge in Hb.
  split; intros H; Z.div_mod_to_equations; lia.
Qed.

Lemma pad_dict_len_big : forall dict,
  big_header dict = true -> 65535 < len (pad_dict dict).
Proof.
  intros dict Hb. rewrite pad_dict_len.
  pose proof (header_remainder_range dict).
  unfold big_header in Hb. apply Z.ltb_lt in Hb. lia.
Qed.

(** C6 (code bug): [create_npy_header] chooses the version and the width
    of the length field from the length of the dictionary before padding
    (line 131), while the field holds the length of the padded text
    (lines 140-143).  The choice is the one the text written calls for,
    version 1.0 exactly when that text fits a 16-bit length, for every
    dictionary except those of 65527 to 65534 bytes: for these the text
    written has 65591 bytes, yet version 1.0 and a 2-byte field are used,
    and the field holds 55. *)
Theorem create_npy_header_version_before_padding :
  forall T shape0 shape_tl,
    let dict := npy_dict T shape0 shape_tl in
    exists h w,
      create_npy_header T (shape0 :: shape_tl) = Ok h
      /\ ((header_major h = 1 /\ w = 2) \/ (header_major h = 2 /\ w = 4))
      /\ header_minor h = 0
      /\ dropZ (8 + w) h = pad_dict dict
      /\ ((header_major h = 1 <-> len (pad_dict dict) <= 65535)
          <-> ~ (65527 <= len dict <= 65534))
      /\ (65527 <= len dict <= 65534 ->
            header_major h = 1
            /\ len (pad_dict dict) = 65591
            /\ slice 8 2 h = le_bytes 2 55).
Proof.
  intros T shape0 shape_tl dict.
  destruct (npy_header_of_dict_layout dict) as (Hmaj & Hmin & _ & Htext).
  cbv zeta in Hmaj, Htext. rewrite <- dropZ_skipn in Htext.
  assert (Hbig : big_header dict = negb (len dict + 1 <=? 65535))
    by apply big_header_spec.
  exists (npy_header_of_dict dict), (if len dict + 1 <=? 65535 then 2 else 4).
  split; [apply create_npy_header_cons|].
  destruct (Z.leb_spec (len dict + 1) 65535) as [Hs|Hs]; cbn [negb] in Hbig.
  - destruct (pad_dict_len_small dict Hbig) as [Hlow Hhigh].
    split; [now left|]. split; [exact Hmin|]. split; [exact Htext|].
    split; [|intros Hr; split; [exact Hmaj|split; [apply Hhigh; lia|]]].
    + rewrite Hmaj. split.
      * intros [Hfit _] Hr. specialize (Hfit eq_refl).
        rewrite Hhigh in Hfit by lia. lia.
      * intros Hn. split; [intros _|reflexivity].
        specialize (Hlow ltac:(lia)). lia.
    + unfold npy_header_of_dict. rewrite Hbig.
      rewrite Hhigh by lia.
      change (wrap16 65591) with 55.
      rewrite <- app_assoc.
      apply (slice_middle ((numpy_magic ++ [byte_of_Z 1]) ++ [byte_of_Z 0])
               (le_bytes 2 55) (pad_dict dict)).
  - pose proof (pad_dict_len_big dict Hbig) as Hlong.
    split; [now right|]. split; [exact Hmin|]. split; [exact Htext|].
    split; [|intros Hr; lia].
    rewrite Hmaj. split.
    + intros _ Hr. lia.
    + intros _. split; [discriminate | lia].
Qed.

Lemma create_npy_header_version_before_padding_witness :
  exists h,
    create_npy_header T_double (1 :: ones 21826) = Ok h
    /\ header_major h = 1
    /\ len (pad_dict (npy_dict T_double 1 (ones 21826))) = 65591
    /\ slice 8 2 h = le_bytes 2 55.
Proof.
  destruct (create_npy_header_version_before_padding T_double 1 (ones 21826))
    as (h & w & Hc & _ & _ & _ & _ & Hbad).
  exists h. split; [exact Hc|]. apply Hbad.
  pose proof npy_dict_len_threshold_below. lia.
Defined.

(* ================================================================== *)
(** * Appending to a single-array file *)

Lemma product_from : forall l acc,
  0 <= acc < 2 ^ 64 ->
  fold_left (fun num_vals d => wrap64 (num_vals * d)) l acc
  = wrap64 (acc * dims_product l).
Proof.
  induction l as [|d l IH]; intros acc Hacc.
  - cbn. unfold wrap64. rewrite Z.mul_1_r. symmetry. now apply Z.mod_small.
  - cbn [fold_left dims_product fold_right].
    rewrite IH by apply wrap64_range.
    unfold wrap64. rewrite Z.mul_mod_idemp_l by lia.
    f_equal. fold (dims_product l). ring.
Qed.

Lemma product_spec : forall l, product l = wrap64 (dims_product l).
Proof.
  intros l. unfold product. rewrite product_from by lia.
  f_equal. ring.
Qed.

Lemma dims_product_nonneg : forall l,
  Forall is_size_t l -> 0 <= dims_product l.
Proof.
  induction l as [|d l IH]; intros H; cbn; [lia|].
  inversion H as [|? ? [Hd _] Hl]; subst. fold (dims_product l).
  specialize (IH Hl). nia.
Qed.

Lemma write_at_prefix : forall A B bytes,
  len bytes = len A -> write_at (A ++ B) 0 bytes = bytes ++ B.
Proof.
  intros A B bytes Hl. unfold write_at.
  rewrite takeZ_firstn. cbn [Z.to_nat firstn app].
  unfold fill. pose proof (len_nonneg (A ++ B)).
  replace (Z.to_nat (0 - len (A ++ B))) with 0%nat by lia. cbn [repeat app].
  rewrite Z.add_0_l, Hl, dropZ_app_exact. reflexivity.
Qed.

Lemma check_trailing_dims_same : forall l, check_trailing_dims l l = Ok tt.
Proof.
  induction l as [|d l IH]; [reflexivity|].
  cbn [check_trailing_dims]. now rewrite Z.eqb_refl.
Qed.

Lemma check_trailing_dims_differ : forall a b,
  length a = length b -> a <> b ->
  exists what, check_trailing_dims a b = Throw (Runtime_error what).
Proof.
  induction a as [|d a IH]; intros [|e b] Hl Hne; try discriminate.
  - congruence.
  - cbn [check_trailing_dims]. destruct (Z.eqb_spec d e) as [->|Hde].
    + cbn [negb]. apply IH; [simpl in Hl; lia | congruence].
    + cbn [negb]. eexists. reflexivity.
Qed.

Lemma raw_bytes_enough : forall data n,
  n <= len data -> raw_bytes data n = Ok (takeZ n data).
Proof.
  intros data n H. unfold raw_bytes.
  destruct (Z.ltb_spec (len data) n); [lia | reflexivity].
Qed.

(** The append branch once the existing header is parsed and nothing
    mismatches. *)
Lemma npy_save_append_ok : forall T old data t0 s0 dims ist',
  parse_npy_header (open_stream old) = (Ok (sizeof T, t0 :: dims, true), ist') ->
  wrap64 (sizeof T * product (s0 :: dims)) <= len data ->
  npy_save T (Some old) data (s0 :: dims) "a"
  = Ok (write_at old 0
          (npy_header_of_dict (npy_dict T (wrap64 (t0 + s0)) dims))
        ++ takeZ (wrap64 (sizeof T * product (s0 :: dims))) data).
Proof.
  intros T old data t0 s0 dims ist' Hp Hd. unfold npy_save.
  change (String.eqb "a" "a") with true. cbn iota. rewrite Hp.
  cbn [fst bind negb]. rewrite Z.eqb_refl. cbn [negb].
  replace (len (t0 :: dims) =? len (s0 :: dims)) with true
    by (symmetry; apply Z.eqb_eq; now rewrite !len_cons).
  cbn [negb tl]. rewrite check_trailing_dims_same. cbn [bind].
  rewrite create_npy_header_cons. cbn [bind].
  rewrite raw_bytes_enough by assumption. reflexivity.
Qed.

(** The one case in which an append keeps the payload: a column-major
    file of the same element size whose dimensions after the first equal
    the new ones, and whose header happens to be as long as the
    regenerated one (which no header aligned to 16 or 64 bytes is, as is
    proved further down).  The file becomes the regenerated
    header, whose shape is the old one with dimension 0 grown by the new
    leading dimension, then the old payload, then the new bytes.  When
    nothing overflows it loads with that shape, with the old payload
    followed by the new bytes, and with the order flag false. *)
Lemma npy_save_append_grows :
  forall T old_header old_payload data t0 s0 dims ist',
    parse_npy_header (open_stream (old_header ++ old_payload))
    = (Ok (sizeof T, t0 :: dims, true), ist') ->
    gpos ist' = len old_header ->
    len (npy_header_of_dict (npy_dict T (wrap64 (t0 + s0)) dims))
    = len old_header ->
    len data = wrap64 (sizeof T * product (s0 :: dims)) ->
    exists file',
      npy_save T (Some (old_header ++ old_payload)) data (s0 :: dims) "a"
      = Ok file'
      /\ create_npy_header T (wrap64 (t0 + s0) :: dims)
         = Ok (firstn (length old_header) file')
      /\ skipn (length old_header) file' = old_payload ++ data
      /\ (supported T ->
          Forall is_size_t (t0 :: s0 :: dims) ->
          header_fits (npy_dict T (wrap64 (t0 + s0)) dims) ->
          len old_payload = wrap64 (sizeof T * product (t0 :: dims)) ->
          (t0 + s0) * dims_product dims * sizeof T < 2 ^ 64 ->
          t0 + s0 < 2 ^ 64 ->
          npy_load (Some file')
          = Ok (mk_NpyArray (old_payload ++ data) ((t0 + s0) :: dims)
                            (sizeof T) false (product ((t0 + s0) :: dims)))).
Proof.
  intros T old_header old_payload data t0 s0 dims ist' Hp Hpos Hhl Hnew.
  set (header := npy_header_of_dict (npy_dict T (wrap64 (t0 + s0)) dims)) in *.
  assert (Hlen : length header = length old_header)
    by (unfold len in Hhl; lia).
  exists (header ++ old_payload ++ data).
  split; [|split; [|split]].
  - rewrite (npy_save_append_ok T _ data t0 s0 dims ist' Hp) by lia.
    rewrite <- Hnew, takeZ_all by lia. fold header.
    rewrite write_at_prefix by assumption.
    rewrite <- app_assoc. reflexivity.
  - rewrite create_npy_header_cons. fold header. f_equal.
    rewrite <- Hlen, firstn_app, Nat.sub_diag, firstn_all. cbn [firstn].
    now rewrite app_nil_r.
  - now apply skipn_app_exact.
  - intros HT Hs Hfit Hold Hno Hsum.
    inversion Hs as [|? ? [Ht0 _] Hs']; subst.
    inversion Hs' as [|? ? [Hs0 _] Hdims]; subst.
    pose proof (dims_product_nonneg dims Hdims) as HP.
    assert (Hw : 1 <= sizeof T).
    { clear - HT. each_supported T HT; by_computation. }
    assert (Hg : wrap64 (t0 + s0) = t0 + s0) by (apply wrap64_small; lia).
    unfold header. rewrite Hg in *.
    apply load_generated; try assumption.
    + constructor; [split; lia | assumption].
    + rewrite len_app, Hold, Hnew. rewrite !product_spec. unfold wrap64.
      rewrite !Z.mul_mod_idemp_r by lia. cbn [dims_product fold_right].
      fold (dims_product dims).
      rewrite (Z.mod_small (sizeof T * (t0 * dims_product dims))) by nia.
      rewrite (Z.mod_small (sizeof T * (s0 * dims_product dims))) by nia.
      rewrite Z.mod_small by nia. ring.
Qed.

Lemma npy_save_append_grows_witness :
  exists file',
    npy_save T_short (Some (fortran_header_1x3 ++ lit "ABCDEF"))
             (lit "abcdefghijkl") [2; 3] "a" = Ok file'
    /\ create_npy_header T_short (wrap64 (1 + 2) :: [3])
       = Ok (firstn (length fortran_header_1x3) file')
    /\ skipn (length fortran_header_1x3) file'
       = lit "ABCDEF" ++ lit "abcdefghijkl"
    /\ npy_load (Some file')
       = Ok (mk_NpyArray (lit "ABCDEF" ++ lit "abcdefghijkl") [1 + 2; 3]
                         (sizeof T_short) false (product [1 + 2; 3])).
Proof.
  destruct (npy_save_append_grows T_short fortran_header_1x3 (lit "ABCDEF")
              (lit "abcdefghijkl") 1 2 [3]
              (mk_istream (fortran_header_1x3 ++ lit "ABCDEF") 129 false 119)
              ltac:(vm_compute; reflexivity) ltac:(vm_compute; reflexivity)
              ltac:(vm_compute; reflexivity) ltac:(vm_compute; reflexivity))
    as (file' & Hsave & Hheader & Hpayload & Hload).
  exists file'. repeat split; try assumption.
  apply Hload.
  - discriminate.
  - repeat constructor; vm_compute; congruence.
  - vm_compute. reflexivity.
  - vm_compute. reflexivity.
  - vm_compute. reflexivity.
  - vm_compute. reflexivity.
Defined.

(** The existing file is column-major with word size 2 and rank 2, the
    new data has word size 2 and rank 2, yet no file is produced: the
    second dimensions 3 and 4 differ and the call throws. *)
Lemma append_grows_as_stated_fails :
  ~ append_grows_as_stated T_short fortran_file_1x3
      (lit "abcdefghijklmnop") [2; 4].
Proof.
  intros H.
  destruct (H 2 [1; 3] (mk_istream fortran_file_1x3 129 false 119))
    as (file' & arr & Hsave & _).
  - vm_compute. reflexivity.
  - reflexivity.
  - reflexivity.
  - vm_compute in Hsave. discriminate Hsave.
Qed.

Lemma outcome_throws : forall (r : outcome (list ascii)) (P Q : Prop) e,
  r = Throw e -> P ->
  ((exists e, r = Throw e) <-> P)
  /\ (Q -> ~ P -> exists file', r = Ok file').
Proof.
  intros r P Q e -> HP. split; [split; intros H|].
  - exact HP.
  - now exists e.
  - intros _ HnP. contradiction.
Qed.

(** C4 (amended): on an existing file whose header parses, the append
    throws exactly when the file is row-major, or its word size differs,
    or its rank differs, or a dimension after the first differs; without
    such a mismatch, for a non-empty shape with enough data behind the
    pointer, it returns.  When the header does not parse, the parser's
    exception is the result. *)
Theorem npy_save_append_fails_iff : forall T old data new_shape,
  match fst (parse_npy_header (open_stream old)) with
  | Ok (ws, ds, fo) =>
      ((exists e, npy_save T (Some old) data new_shape "a" = Throw e)
       <-> append_mismatch T new_shape ws ds fo)
      /\ (new_shape <> []
            /\ wrap64 (sizeof T * product new_shape) <= len data ->
          ~ append_mismatch T new_shape ws ds fo ->
          exists file', npy_save T (Some old) data new_shape "a" = Ok file')
  | Throw e => npy_save T (Some old) data new_shape "a" = Throw e
  | Undefined => npy_save T (Some old) data new_shape "a" = Undefined
  | Unfinished => npy_save T (Some old) data new_shape "a" = Unfinished
  end.
Proof.
  intros T old data new_shape. unfold npy_save.
  change (String.eqb "a" "a") with true. cbn iota.
  destruct (fst (parse_npy_header (open_stream old)))
    as [[[ws ds] fo] | e | | ]; cbn [bind]; try reflexivity.
  unfold append_mismatch.
  destruct fo; cbn [negb].
  2:{ eapply outcome_throws; [reflexivity | now left]. }
  destruct (Z.eqb_spec ws (sizeof T)) as [Hws|Hws]; cbn [negb].
  2:{ eapply outcome_throws; [reflexivity | auto]. }
  destruct (Z.eqb_spec (len ds) (len new_shape)) as [Hlen|Hlen]; cbn [negb].
  2:{ eapply outcome_throws; [reflexivity|].
      right; right; left. unfold len in Hlen. lia. }
  assert (Hl : length ds = length new_shape) by (unfold len in Hlen; lia).
  destruct (list_eq_dec Z.eq_dec (tl new_shape) (tl ds)) as [Hdims|Hdims].
  - rewrite Hdims, check_trailing_dims_same. cbn [bind].
    split; [split|].
    + intros [e He]. exfalso.
      destruct ds as [|t0 ttl], new_shape as [|s0 stl]; try discriminate He.
      cbn [bind] in He. rewrite create_npy_header_cons in He. cbn [bind] in He.
      unfold raw_bytes in He. destruct (_ <? _); discriminate He.
    + intros [H|[H|[H|H]]]; congruence.
    + intros [Hne Hd] _.
      destruct new_shape as [|s0 stl]; [congruence|].
      destruct ds as [|t0 ttl]; [discriminate Hl|].
      cbn [bind]. rewrite create_npy_header_cons. cbn [bind].
      rewrite raw_bytes_enough by assumption. cbn [bind]. eexists. reflexivity.
  - destruct (check_trailing_dims_differ (tl new_shape) (tl ds))
      as [what Hc]; [|assumption|].
    { destruct ds, new_shape; simpl in *; lia. }
    rewrite Hc. cbn [bind].
    eapply outcome_throws; [reflexivity|].
    right; right; right. congruence.
Qed.

Lemma npy_save_append_fails_iff_witness :
  exists file',
    npy_save T_short (Some fortran_file_1x3) (lit "abcdefghijkl") [2; 3] "a"
    = Ok file'.
Proof.
  pose proof (npy_save_append_fails_iff T_short fortran_file_1x3
                (lit "abcdefghijkl") [2; 3]) as H.
  replace (fst (parse_npy_header (open_stream fortran_file_1x3)))
    with (@Ok (Z * list Z * bool) (2, [1; 3], true)) in H
    by (vm_compute; reflexivity).
  destruct H as [_ H]. apply H.
  - split; [discriminate | vm_compute; discriminate].
  - unfold append_mismatch. intros [E|[E|[E|E]]].
    + discriminate E.
    + apply E. reflexivity.
    + apply E. reflexivity.
    + apply E. reflexivity.
Defined.

(** On the column-major (1, 3) file: the same shape after the first
    dimension is accepted, another second dimension is refused. *)
Example npy_save_append_accepts_and_refuses :
  (exists file',
     npy_save T_short (Some fortran_file_1x3) (lit "abcdefghijkl") [2; 3] "a"
     = Ok file')
  /\ npy_save T_short (Some fortran_file_1x3) (lit "abcdefghijklmnop")
               [2; 4] "a"
     = runtime_error
         "Appending to existing data with wrong dimension: new=4 existing=3".
Proof.
  split; [eexists|]; vm_compute; reflexivity.
Qed.

(** C4 (counterexample): on the column-major (1, 3) [int16] file, new
    [int16] data of shape (2, 5) has the same word size and the same rank,
    and the append throws all the same. *)
Lemma append_fails_as_stated_fails :
  ~ append_fails_as_stated T_short fortran_file_1x3
      (lit "abcdefghijklmnopqrst") [2; 5].
Proof.
  intros H.
  specialize (H 2 [1; 3] true (mk_istream fortran_file_1x3 129 false 119)).
  destruct H as [H _]; [vm_compute; reflexivity|].
  destruct H as [H|[H|H]].
  - eexists. vm_compute. reflexivity.
  - discriminate H.
  - apply H. reflexivity.
  - apply H. reflexivity.
Qed.

(** The header an append writes declares [fortran_order] false, so a
    second append to the same file throws. *)
Example npy_save_append_twice :
  exists file',
    npy_save T_short (Some fortran_file_1x3) (lit "abcdefghijkl") [2; 3] "a"
    = Ok file'
    /\ npy_save T_short (Some file') (lit "mnopqrstuvwxyzABCD") [3; 3] "a"
       = runtime_error "Appending to existing fortran-order file not supported".
Proof.
  exists (npy_header_of_dict (npy_dict T_short 3 [3])
          ++ lit "ABCDEF" ++ lit "abcdefghijkl").
  split; vm_compute; reflexivity.
Qed.

(** When the existing header is one byte shorter than the regenerated one
    (128 against 129 bytes), the rewrite in place runs over the first
    payload byte and the result no longer loads. *)
Example npy_save_append_other_header_length :
  exists file',
    npy_save T_short (Some fortran_file_1x3_aligned) (lit "abcdefghijkl")
             [2; 3] "a" = Ok file'
    /\ file' = npy_header_of_dict (npy_dict T_short 3 [3])
               ++ lit "BCDEF" ++ lit "abcdefghijkl"
    /\ npy_load (Some file')
       = runtime_error "load_the_npy_file: failed fread".
Proof.
  eexists. split; [vm_compute; reflexivity|].
  split; vm_compute; reflexivity.
Qed.

(* ================================================================== *)
(** * The format version check *)

Lemma le_value_single : forall c, le_value [c] = Z_of_byte c.
Proof. intros c. cbn [le_value]. lia. Qed.

(** The parser after the magic and the two version bytes. *)
Lemma parse_npy_header_after_version : forall major minor rest,
  let C := numpy_magic ++ [major; minor] ++ rest in
  parse_npy_header (open_stream C)
  = if (Z_of_byte major =? 1) && (Z_of_byte minor =? 0) then
      let '(got, ist) := read (mk_istream C 8 false 1) 2 in
      read_header_text ist (le_value (over got 4 zero))
    else if (Z_of_byte major =? 2) && (Z_of_byte minor =? 0) then
      let '(got, ist) := read (mk_istream C 8 false 1) 4 in
      read_header_text ist (le_value (over got 4 zero))
    else
      (runtime_error
         (str (lit "Numpy version " ++ to_string (Z_of_byte major) ++ lit "."
               ++ to_string (Z_of_byte minor) ++ lit " not supported.")),
       mk_istream C 8 false 1).
Proof.
  intros major minor rest C. unfold parse_npy_header, open_stream.
  rewrite (read_split C [] numpy_magic ([major; minor] ++ rest))
    by reflexivity.
  rewrite over_exact by reflexivity. rewrite chars_eqb_refl. cbn [negb].
  rewrite (read_split C numpy_magic [major] ([minor] ++ rest)) by reflexivity.
  rewrite (read_split C (numpy_magic ++ [major]) [minor] rest);
    [| subst C; now rewrite <- app_assoc | reflexivity | reflexivity ].
  rewrite !le_value_over, !le_value_single.
  reflexivity.
Qed.

(** C9: after the magic, a version other than 1.0 and 2.0 makes
    [parse_npy_header] throw with the stream still at offset 8, before any
    length or text byte is read; version 1.0 takes the next 2 bytes as the
    little-endian text length and version 2.0 the next 4 bytes, and the
    text of that length is then what is parsed. *)
Theorem parse_npy_header_versions : forall major minor rest,
  let C := numpy_magic ++ [major; minor] ++ rest in
  let M := Z_of_byte major in
  let m := Z_of_byte minor in
  ((M, m) <> (1, 0) -> (M, m) <> (2, 0) ->
     parse_npy_header (open_stream C)
     = (runtime_error
          (str (lit "Numpy version " ++ to_string M ++ lit "."
                ++ to_string m ++ lit " not supported.")),
        mk_istream C 8 false 1))
  /\ (forall lf text tail,
        (M, m) = (1, 0) ->
        rest = lf ++ text ++ tail ->
        len lf = 2 -> len text = le_value lf ->
        1 <= len text -> last text zero = "010"%char ->
        parse_npy_header (open_stream C)
        = (parse_header_text text,
           mk_istream C (10 + len text) false (len text)))
  /\ (forall lf text tail,
        (M, m) = (2, 0) ->
        rest = lf ++ text ++ tail ->
        len lf = 4 -> len text = le_value lf ->
        1 <= len text -> last text zero = "010"%char ->
        parse_npy_header (open_stream C)
        = (parse_header_text text,
           mk_istream C (12 + len text) false (len text))).
Proof.
  intros major minor rest C M m.
  pose proof (parse_npy_header_after_version major minor rest) as Hp.
  cbv zeta in Hp. fold C M m in Hp. rewrite Hp. clear Hp.
  split; [|split].
  - intros H1 H2.
    destruct (Z.eqb_spec M 1), (Z.eqb_spec m 0); cbn [andb]; try congruence;
      destruct (Z.eqb_spec M 2); cbn [andb]; congruence.
  - intros lf text tail Hv Hrest Hlf Ht Hpos Hlast.
    inversion Hv as [[HM Hm]]. rewrite HM, Hm. cbn [Z.eqb Pos.eqb andb].
    rewrite (read_split C (numpy_magic ++ [major; minor]) lf (text ++ tail));
      [| subst C rest; now rewrite <- app_assoc | reflexivity | now rewrite Hlf ].
    rewrite le_value_over, <- Ht.
    change (8 + 2) with (len (numpy_magic ++ [major; minor]) + 2).
    rewrite <- Hlf, <- len_app.
    rewrite (read_header_text_exact C _ text tail);
      [| subst C rest; now rewrite <- !app_assoc | assumption | assumption ].
    f_equal. f_equal. rewrite len_app, Hlf. reflexivity.
  - intros lf text tail Hv Hrest Hlf Ht Hpos Hlast.
    inversion Hv as [[HM Hm]]. rewrite HM, Hm. cbn [Z.eqb Pos.eqb andb].
    rewrite (read_split C (numpy_magic ++ [major; minor]) lf (text ++ tail));
      [| subst C rest; now rewrite <- app_assoc | reflexivity | now rewrite Hlf ].
    rewrite le_value_over, <- Ht.
    change (8 + 4) with (len (numpy_magic ++ [major; minor]) + 4).
    rewrite <- Hlf, <- len_app.
    rewrite (read_header_text_exact C _ text tail);
      [| subst C rest; now rewrite <- !app_assoc | assumption | assumption ].
    f_equal. f_equal. rewrite len_app, Hlf. reflexivity.
Qed.

Lemma parse_npy_header_versions_witness :
  (let C := numpy_magic ++ [byte_of_Z 3; byte_of_Z 0] ++ lit "xyz" in
   parse_npy_header (open_stream C)
   = (runtime_error "Numpy version 3.0 not supported.",
      mk_istream C 8 false 1))
  /\ (let C := numpy_magic ++ [byte_of_Z 1; byte_of_Z 0]
               ++ (le_bytes 2 119 ++ fortran_text_1x3 ++ lit "ABCDEF") in
      parse_npy_header (open_stream C)
      = (parse_header_text fortran_text_1x3,
         mk_istream C (10 + len fortran_text_1x3) false
                    (len fortran_text_1x3)))
  /\ (let C := numpy_magic ++ [byte_of_Z 2; byte_of_Z 0]
               ++ (le_bytes 4 119 ++ fortran_text_1x3 ++ lit "ABCDEF") in
      parse_npy_header (open_stream C)
      = (parse_header_text fortran_text_1x3,
         mk_istream C (12 + len fortran_text_1x3) false
                    (len fortran_text_1x3))).
Proof.
  split; [|split].
  - apply (proj1 (parse_npy_header_versions (byte_of_Z 3) (byte_of_Z 0)
                    (lit "xyz"))); vm_compute; discriminate.
  - apply (proj1 (proj2 (parse_npy_header_versions (byte_of_Z 1) (byte_of_Z 0)
                           (le_bytes 2 119 ++ fortran_text_1x3 ++ lit "ABCDEF")))
             (le_bytes 2 119) fortran_text_1x3 (lit "ABCDEF"));
      vm_compute; (reflexivity || discriminate).
  - apply (proj2 (proj2 (parse_npy_header_versions (byte_of_Z 2) (byte_of_Z 0)
                           (le_bytes 4 119 ++ fortran_text_1x3 ++ lit "ABCDEF")))
             (le_bytes 4 119) fortran_text_1x3 (lit "ABCDEF"));
      vm_compute; (reflexivity || discriminate).
Defined.

(** Both accepted versions lead to the same parsed metadata, and the two
    header lengths differ by the two extra length bytes. *)
Example parse_npy_header_accepts_1_0_and_2_0 :
  parse_header_text fortran_text_1x3 = Ok (2, [1; 3], true)
  /\ fst (parse_npy_header
            (open_stream (numpy_magic ++ [byte_of_Z 1; byte_of_Z 0]
                          ++ le_bytes 2 119 ++ fortran_text_1x3)))
     = Ok (2, [1; 3], true)
  /\ fst (parse_npy_header
            (open_stream (numpy_magic ++ [byte_of_Z 2; byte_of_Z 0]
                          ++ le_bytes 4 119 ++ fortran_text_1x3)))
     = Ok (2, [1; 3], true).
Proof. repeat split; vm_compute; reflexivity. Qed.

(** A truncated magic, a wrong magic and a stream that ends after the
    magic are all refused. *)
Example parse_npy_header_rejects_malformed :
  fst (parse_npy_header (open_stream (firstn 3 numpy_magic)))
  = runtime_error "Not a Numpy file as magic number does not match"
  /\ fst (parse_npy_header (open_stream (lit "PK" ++ fortran_file_1x3)))
     = runtime_error "Not a Numpy file as magic number does not match"
  /\ fst (parse_npy_header (open_stream numpy_magic))
     = runtime_error "Numpy version 0.0 not supported."
  /\ fst (parse_npy_header (open_stream (numpy_magic ++ [byte_of_Z 1])))
     = runtime_error "Cannot read header length".
Proof. repeat split; vm_compute; reflexivity. Qed.

(* ================================================================== *)
(** * The archive reader *)

Section ArchiveReader.

Variable zlib_inflate : list ascii -> Z -> inflate_run.

(** A block whose bytes 2 and 3 are not 03 04 ends the scan. *)
Lemma npz_load_loop_stop : forall fuel C pre block rest arrays g,
  C = pre ++ block ++ rest ->
  len block = 30 ->
  (Z_of_byte (nth 2 block zero) =? 3) && (Z_of_byte (nth 3 block zero) =? 4)
  = false ->
  npz_load_loop zlib_inflate (S fuel) (mk_istream C (len pre) false g) arrays
  = Ok arrays.
Proof.
  intros fuel C pre block rest arrays g HC Hl Hsig.
  cbn [npz_load_loop failbit].
  rewrite (read_split C pre block rest) by first [assumption | reflexivity | now rewrite Hl].
  cbn [failbit gcount]. rewrite Z.eqb_refl. cbn [negb orb].
  apply andb_false_iff in Hsig as [-> | ->]; cbn [negb orb];
    [reflexivity | now rewrite orb_true_r].
Qed.

(** A block whose bytes 2 and 3 are 03 04 is read as an entry: name,
    extra field, then the array, which is stored under the name without
    its last four characters. *)
Lemma npz_load_loop_entry : forall fuel C pre block name extra rest arrays g,
  C = pre ++ block ++ name ++ extra ++ rest ->
  len block = 30 ->
  Z_of_byte (nth 2 block zero) = 3 ->
  Z_of_byte (nth 3 block zero) = 4 ->
  len name = field block 26 2 ->
  len extra = field block 28 2 ->
  npz_load_loop zlib_inflate (S fuel) (mk_istream C (len pre) false g) arrays
  = let ist := mk_istream C (len pre + 30 + len name + len extra) false
                 (if 0 <? len extra then len extra else len name) in
    let '(r, ist') :=
      if field block 8 2 =? 0 then load_the_npy_file ist
      else load_the_npz_array zlib_inflate ist
             (field block 18 4) (field block 22 4) in
    do arr <- r;
    npz_load_loop zlib_inflate fuel ist'
      (npz_assign arrays (erase_npy_suffix name) arr).
Proof.
  intros fuel C pre block name extra rest arrays g HC Hl H2 H3 Hn He.
  cbn [npz_load_loop failbit].
  rewrite (read_split C pre block (name ++ extra ++ rest))
    by first [assumption | reflexivity | now rewrite Hl].
  cbn [failbit gcount]. rewrite Z.eqb_refl, H2, H3. cbn [Z.eqb Pos.eqb negb orb].
  rewrite <- Hn, <- He.
  replace (len pre + zip_header_length) with (len (pre ++ block))
    by (rewrite len_app, Hl; reflexivity).
  rewrite (read_split C (pre ++ block) name (extra ++ rest));
    [| subst C; now rewrite <- app_assoc | reflexivity | reflexivity ].
  cbn [failbit gcount]. rewrite Z.eqb_refl. cbn [negb orb].
  destruct (Z.ltb_spec 0 (len extra)) as [Hpos|Hzero].
  - rewrite <- len_app.
    rewrite (read_split C ((pre ++ block) ++ name) extra rest);
      [| subst C; now rewrite <- !app_assoc | reflexivity | reflexivity ].
    cbn [failbit gcount]. rewrite Z.eqb_refl. cbn [negb orb].
    rewrite !len_app, Hl. reflexivity.
  - cbn [negb]. pose proof (len_nonneg extra).
    replace (len extra) with 0 by lia.
    rewrite len_app, Hl, Z.add_0_r. reflexivity.
Qed.

End ArchiveReader.

Lemma erase_npy_suffix_cases : forall name,
  (4 <= len name ->
     erase_npy_suffix name = firstn (length name - 4) name)
  /\ (len name < 4 -> erase_npy_suffix name = name)
  /\ (len name = 4 -> erase_npy_suffix name = []).
Proof.
  intros name. unfold erase_npy_suffix. split; [|split]; intros H.
  - destruct (Z.leb_spec 4 (len name)); [|lia].
    rewrite takeZ_firstn. f_equal. unfold len in *. lia.
  - destruct (Z.leb_spec 4 (len name)); [lia | reflexivity].
  - destruct (Z.leb_spec 4 (len name)); [|lia].
    rewrite H. rewrite takeZ_firstn. reflexivity.
Qed.

(** C10: when [npz_load] reads an entry, the key it stores the array under
    is the stored name without its last four characters when the name has
    at least four, the name itself when it is shorter, and the empty
    string when it has exactly four. *)
Theorem npz_load_key :
  forall zlib_inflate fuel C pre block name extra rest arrays g,
    C = pre ++ block ++ name ++ extra ++ rest ->
    len block = 30 ->
    Z_of_byte (nth 2 block zero) = 3 ->
    Z_of_byte (nth 3 block zero) = 4 ->
    len name = field block 26 2 ->
    len extra = field block 28 2 ->
    exists key,
      npz_load_loop zlib_inflate (S fuel) (mk_istream C (len pre) false g)
                    arrays
      = (let ist := mk_istream C (len pre + 30 + len name + len extra) false
                      (if 0 <? len extra then len extra else len name) in
         let '(r, ist') :=
           if field block 8 2 =? 0 then load_the_npy_file ist
           else load_the_npz_array zlib_inflate ist
                  (field block 18 4) (field block 22 4) in
         do arr <- r;
         npz_load_loop zlib_inflate fuel ist' (npz_assign arrays key arr))
      /\ (4 <= len name -> key = firstn (length name - 4) name)
      /\ (len name < 4 -> key = name)
      /\ (len name = 4 -> key = []).
Proof.
  intros zlib_inflate fuel C pre block name extra rest arrays g
         HC Hl H2 H3 Hn He.
  exists (erase_npy_suffix name). split.
  - now apply (npz_load_loop_entry zlib_inflate fuel C pre block name extra rest).
  - apply erase_npy_suffix_cases.
Qed.

Lemma npz_load_key_witness :
  exists key,
    npz_load_loop copy_inflate 2
      (mk_istream (stored_archive (lit "ab")) (len (@nil ascii)) false 0) []
    = (let ist := mk_istream (stored_archive (lit "ab"))
                    (len (@nil ascii) + 30 + len (lit "ab") + len (@nil ascii))
                    false
                    (if 0 <? len (@nil ascii) then len (@nil ascii)
                     else len (lit "ab")) in
       let '(r, ist') :=
         if field (local_block (lit "ab")) 8 2 =? 0 then load_the_npy_file ist
         else load_the_npz_array copy_inflate ist
                (field (local_block (lit "ab")) 18 4)
                (field (local_block (lit "ab")) 22 4) in
       do arr <- r;
       npz_load_loop copy_inflate 1 ist' (npz_assign [] key arr))
    /\ (4 <= len (lit "ab") -> key = firstn (length (lit "ab") - 4) (lit "ab"))
    /\ (len (lit "ab") < 4 -> key = lit "ab")
    /\ (len (lit "ab") = 4 -> key = []).
Proof.
  apply (npz_load_key copy_inflate 1 (stored_archive (lit "ab")) []
           (local_block (lit "ab")) (lit "ab") []
           (npy_file_2x3 ++ directory_block) [] 0);
    vm_compute; reflexivity.
Defined.

(** Stored names of two, four and five characters. *)
Example npz_load_short_names :
  npz_load copy_inflate (Some (stored_archive (lit "ab")))
  = Ok [(lit "ab", mk_NpyArray (lit "abcdefghijkl") [2; 3] 2 false 6)]
  /\ npz_load copy_inflate (Some (stored_archive (lit ".npy")))
     = Ok [([], mk_NpyArray (lit "abcdefghijkl") [2; 3] 2 false 6)]
  /\ npz_load copy_inflate (Some (stored_archive (lit "a.npy")))
     = Ok [(lit "a", mk_NpyArray (lit "abcdefghijkl") [2; 3] 2 false 6)].
Proof. repeat split; vm_compute; reflexivity. Qed.

(** C8 (amended): a 30-byte block ends the scan, with the mapping built
    so far as the result, when its byte 2 is not 03 or its byte 3 is not
    04; its bytes 0 and 1 are not looked at.  A block with 03 04 there is
    read as an entry. *)
Theorem npz_load_scan_step :
  forall zlib_inflate fuel C pre block rest arrays g,
    C = pre ++ block ++ rest ->
    len block = 30 ->
    ((Z_of_byte (nth 2 block zero) <> 3 \/ Z_of_byte (nth 3 block zero) <> 4) ->
       npz_load_loop zlib_inflate (S fuel) (mk_istream C (len pre) false g)
                     arrays
       = Ok arrays)
    /\ (forall name extra rest',
          Z_of_byte (nth 2 block zero) = 3 ->
          Z_of_byte (nth 3 block zero) = 4 ->
          rest = name ++ extra ++ rest' ->
          len name = field block 26 2 ->
          len extra = field block 28 2 ->
          npz_load_loop zlib_inflate (S fuel) (mk_istream C (len pre) false g)
                        arrays
          = (let ist := mk_istream C (len pre + 30 + len name + len extra)
                          false
                          (if 0 <? len extra then len extra else len name) in
             let '(r, ist') :=
               if field block 8 2 =? 0 then load_the_npy_file ist
               else load_the_npz_array zlib_inflate ist
                      (field block 18 4) (field block 22 4) in
             do arr <- r;
             npz_load_loop zlib_inflate fuel ist'
               (npz_assign arrays (erase_npy_suffix name) arr))).
Proof.
  intros zlib_inflate fuel C pre block rest arrays g HC Hl. split.
  - intros Hsig. apply (npz_load_loop_stop zlib_inflate fuel C pre block rest);
      try assumption.
    apply andb_false_iff.
    destruct Hsig as [H|H]; [left | right]; now apply Z.eqb_neq.
  - intros name extra rest' H2 H3 Hrest Hn He.
    apply (npz_load_loop_entry zlib_inflate fuel C pre block name extra rest');
      try assumption.
    now subst rest.
Qed.

Lemma npz_load_scan_step_witness :
  let arrays := [(lit "a", mk_NpyArray (lit "abcdefghijkl") [2; 3] 2 false 6)] in
  let C := stored_archive (lit "a.npy") in
  let pre := local_block (lit "a.npy") ++ lit "a.npy" ++ npy_file_2x3 in
  npz_load_loop copy_inflate 1 (mk_istream C (len pre) false 12) arrays
  = Ok arrays.
Proof.
  intros arrays C pre.
  apply (proj1 (npz_load_scan_step copy_inflate 0 C pre directory_block []
                  arrays 12 ltac:(vm_compute; reflexivity)
                  ltac:(vm_compute; reflexivity))).
  left. vm_compute. discriminate.
Defined.

(** C8 (counterexample): the block at offset 0 starts with [XY\003\004],
    which is not the local file header signature, and the scan does not
    stop there: it reads the block as the entry [a]. *)
Lemma scan_stops_as_stated_fails :
  ~ scan_stops_as_stated copy_inflate (unsigned_archive (lit "a.npy")) 0 [].
Proof.
  intros H. specialize (H 1%nat).
  assert (H1 : len (slice 0 30 (unsigned_archive (lit "a.npy"))) = 30)
    by (vm_compute; reflexivity).
  assert (H2 : takeZ 4 (slice 0 30 (unsigned_archive (lit "a.npy")))
               <> lit "PK" ++ [byte_of_Z 3; byte_of_Z 4])
    by (vm_compute; discriminate).
  specialize (H H1 H2). vm_compute in H. discriminate H.
Qed.

(* ================================================================== *)
(** * Compressed entries *)

Lemma len_dropZ : forall {A} n (l : list A),
  0 <= n <= len l -> len (dropZ n l) = len l - n.
Proof.
  intros A n l H. rewrite dropZ_skipn. unfold len in *.
  rewrite length_skipn. lia.
Qed.

(** What lines 246-256 do once the three checks are passed.  On a run in
    which the three zlib calls answer [Z_OK], with an inflated buffer of
    the declared uncompressed size and a header that parses to a shape and
    word size needing no more bytes than the buffer has,
    [load_the_npz_array] returns the array whose payload is the buffer
    from offset (uncompressed size - byte length) to its end.  No inflate
    that satisfies [inflate_finishes] gives such a run, as is proved
    below. *)
Lemma load_the_npz_array_tail :
  forall zlib_inflate C pre cdata rest g uncompr_bytes buf ws shp fo,
    C = pre ++ cdata ++ rest ->
    zlib_inflate cdata uncompr_bytes = mk_inflate_run Z_OK Z_OK buf Z_OK ->
    len buf = uncompr_bytes ->
    uncompr_bytes < 2 ^ 32 ->
    fst (parse_npy_header (open_stream buf)) = Ok (ws, shp, fo) ->
    wrap64 (product shp * ws) <= uncompr_bytes ->
    let nbytes := wrap64 (product shp * ws) in
    fst (load_the_npz_array zlib_inflate (mk_istream C (len pre) false g)
           (len cdata) uncompr_bytes)
    = Ok (mk_NpyArray (dropZ (uncompr_bytes - nbytes) buf) shp ws fo
                      (product shp))
    /\ len (dropZ (uncompr_bytes - nbytes) buf) = nbytes.
Proof.
  intros zlib_inflate C pre cdata rest g uncompr_bytes buf ws shp fo
         HC Hrun Hlen Hu32 Hparse Hfit nbytes.
  pose proof (wrap64_range (product shp * ws)) as Hn. fold nbytes in Hn, Hfit.
  assert (Hd : len (dropZ (uncompr_bytes - nbytes) buf) = nbytes)
    by (rewrite len_dropZ; lia).
  split; [|exact Hd].
  unfold load_the_npz_array.
  rewrite (read_split C pre cdata rest) by (assumption || reflexivity).
  cbn [failbit gcount]. rewrite Z.eqb_refl. cbn [negb orb].
  rewrite Hrun. cbn [init_ret inflate_ret end_ret inflated].
  cbn [Z.eqb Z_OK negb].
  assert (Hb : takeZ uncompr_bytes (buf ++ fill uncompr_bytes zero) = buf)
    by (rewrite <- Hlen at 1; apply takeZ_app_exact).
  rewrite Hb, Hparse.
  assert (Hnb : num_bytes (new_NpyArray shp ws fo) = nbytes).
  { unfold num_bytes, new_NpyArray. cbn [data_holder].
    now rewrite len_fill by apply wrap64_range. }
  rewrite Hnb.
  replace (wrap64 (uncompr_bytes - nbytes)) with (uncompr_bytes - nbytes)
    by (unfold wrap64; symmetry; apply Z.mod_small; lia).
  destruct (Z.ltb_spec (len buf) (uncompr_bytes - nbytes + nbytes)); [lia|].
  cbn [fst]. unfold set_data, new_NpyArray.
  cbn [shape word_size fortran_order num_vals]. f_equal. f_equal.
  unfold slice. apply takeZ_all. lia.
Qed.

Lemma load_the_npz_array_tail_witness :
  let nbytes := wrap64 (product [2; 3] * 2) in
  fst (load_the_npz_array copy_inflate
         (mk_istream (lit "XY" ++ npy_file_2x3 ++ lit "Z") (len (lit "XY"))
                     false 0)
         (len npy_file_2x3) 141)
  = Ok (mk_NpyArray (dropZ (141 - nbytes) npy_file_2x3) [2; 3] 2 false
                    (product [2; 3]))
  /\ len (dropZ (141 - nbytes) npy_file_2x3) = nbytes.
Proof.
  apply (load_the_npz_array_tail copy_inflate
           (lit "XY" ++ npy_file_2x3 ++ lit "Z") (lit "XY") npy_file_2x3
           (lit "Z") 0 141 npy_file_2x3 2 [2; 3] false);
    vm_compute; (reflexivity || discriminate).
Defined.

(** An inflate call that reports the end of the stream ([Z_STREAM_END])
    rather than [Z_OK] makes the loader throw. *)
Lemma load_the_npz_array_stream_end :
  forall zlib_inflate C pre cdata rest g uncompr_bytes buf e,
    C = pre ++ cdata ++ rest ->
    zlib_inflate cdata uncompr_bytes
    = mk_inflate_run Z_OK Z_STREAM_END buf e ->
    fst (load_the_npz_array zlib_inflate (mk_istream C (len pre) false g)
           (len cdata) uncompr_bytes)
    = runtime_error "Failed inflating buffer.".
Proof.
  intros zlib_inflate C pre cdata rest g uncompr_bytes buf e HC Hrun.
  unfold load_the_npz_array.
  rewrite (read_split C pre cdata rest) by (assumption || reflexivity).
  cbn [failbit gcount]. rewrite Z.eqb_refl. cbn [negb orb].
  rewrite Hrun. reflexivity.
Qed.

Lemma inflate_finishes_finish_inflate : inflate_finishes finish_inflate.
Proof.
  intros input avail_out. unfold finish_inflate. cbn [inflate_ret].
  destruct (len input <=? avail_out); discriminate.
Qed.

(** C7 (code bug): with an inflate that answers as zlib documents for
    [Z_FINISH], never with [Z_OK], [load_the_npz_array] returns no array
    at all.  Every call throws one of its first three errors, and a call
    that finds all the compressed bytes and an initialised zlib throws
    ["Failed inflating buffer."] at line 241, also when the stream was
    inflated to its end; the copy of the tail of the buffer is never
    reached. *)
Theorem load_the_npz_array_refuses_finished_stream :
  forall zlib_inflate,
    inflate_finishes zlib_inflate ->
    forall ist compr_bytes uncompr_bytes,
      let r := fst (load_the_npz_array zlib_inflate ist compr_bytes
                                       uncompr_bytes) in
      (r = runtime_error "Failed reading compressed data"
       \/ r = runtime_error "Failed initializing compression system."
       \/ r = runtime_error "Failed inflating buffer.")
      /\ (forall C pre cdata rest g,
            ist = mk_istream C (len pre) false g ->
            C = pre ++ cdata ++ rest ->
            compr_bytes = len cdata ->
            init_ret (zlib_inflate cdata uncompr_bytes) = Z_OK ->
            r = runtime_error "Failed inflating buffer.").
Proof.
  intros zlib_inflate Hz ist c u r. split.
  - subst r. unfold load_the_npz_array.
    destruct (read ist c) as [buf i1].
    destruct (failbit i1 || negb (gcount i1 =? c)); [now left|].
    destruct (Z.eqb_spec (init_ret (zlib_inflate buf u)) Z_OK) as [_|_];
      cbn [negb]; [|right; now left].
    destruct (Z.eqb_spec (inflate_ret (zlib_inflate buf u)) Z_OK) as [E|_];
      cbn [negb]; [|right; now right].
    now apply Hz in E.
  - intros C pre cdata rest g -> HC -> Hinit. subst r.
    unfold load_the_npz_array.
    rewrite (read_split C pre cdata rest) by (assumption || reflexivity).
    cbn [failbit gcount]. rewrite Z.eqb_refl. cbn [negb orb].
    rewrite Hinit. cbn [Z.eqb Z_OK negb].
    destruct (Z.eqb_spec (inflate_ret (zlib_inflate cdata u)) Z_OK) as [E|_];
      cbn [negb]; [|reflexivity].
    now apply Hz in E.
Qed.

Lemma load_the_npz_array_refuses_finished_stream_witness :
  fst (load_the_npz_array finish_inflate
         (mk_istream (lit "XY" ++ npy_file_2x3 ++ lit "Z") (len (lit "XY"))
                     false 0)
         (len npy_file_2x3) 141)
  = runtime_error "Failed inflating buffer.".
Proof.
  apply (proj2 (load_the_npz_array_refuses_finished_stream finish_inflate
                  inflate_finishes_finish_inflate
                  (mk_istream (lit "XY" ++ npy_file_2x3 ++ lit "Z")
                              (len (lit "XY")) false 0)
                  (len npy_file_2x3) 141)
           (lit "XY" ++ npy_file_2x3 ++ lit "Z") (lit "XY") npy_file_2x3
           (lit "Z") 0); reflexivity.
Defined.

(** The archive of the array (2, 3) with its entry declared as deflated:
    an inflate that answers [Z_STREAM_END] for the completed stream makes
    [npz_load] throw; only on an inflate that answers [Z_OK] does the
    array come back. *)
Example npz_load_deflated_entry :
  npz_load finish_inflate (Some (deflated_archive (lit "a.npy")))
  = runtime_error "Failed inflating buffer."
  /\ inflate_ret (finish_inflate npy_file_2x3 (len npy_file_2x3))
     = Z_STREAM_END
  /\ npz_load copy_inflate (Some (deflated_archive (lit "a.npy")))
     = Ok [(lit "a", mk_NpyArray (lit "abcdefghijkl") [2; 3] 2 false 6)].
Proof. repeat split; vm_compute; reflexivity. Qed.

(* ================================================================== *)
(** * The archive writer *)

Lemma field_at : forall record pre k v post i w,
  record = pre ++ le_bytes k v ++ post ->
  i = len pre ->
  w = Z.of_nat k ->
  field record i w = v mod 256 ^ w.
Proof.
  intros record pre k v post i w -> -> ->. unfold field.
  replace (Z.of_nat k) with (len (le_bytes k v)) at 1
    by (unfold len; now rewrite le_bytes_length).
  rewrite slice_middle. apply le_value_le_bytes.
Qed.

Lemma len_le_bytes : forall k v, len (le_bytes k v) = Z.of_nat k.
Proof. intros. unfold len. now rewrite le_bytes_length. Qed.

Lemma zip_local_header_eq : forall crc nbytes key,
  zip_local_header crc nbytes key
  = (lit "PK" ++ le_bytes 2 (wrap16 1027)
     ++ (le_bytes 2 20 ++ le_bytes 2 0 ++ le_bytes 2 0 ++ le_bytes 2 0
         ++ le_bytes 2 0 ++ le_bytes 4 (wrap32 crc)
         ++ le_bytes 4 (wrap32 nbytes) ++ le_bytes 4 (wrap32 nbytes)
         ++ le_bytes 2 (wrap16 (len key)) ++ le_bytes 2 0))
    ++ key.
Proof.
  intros. unfold zip_local_header. repeat rewrite <- app_assoc. reflexivity.
Qed.

Lemma zip_local_header_len : forall crc nbytes key,
  len (zip_local_header crc nbytes key) = 30 + len key.
Proof.
  intros. rewrite zip_local_header_eq. rewrite len_app. f_equal.
Qed.

(** The 26 bytes the directory record copies from the local header. *)
Lemma zip_local_header_copied : forall crc nbytes key,
  slice 4 26 (zip_local_header crc nbytes key)
  = le_bytes 2 20 ++ le_bytes 2 0 ++ le_bytes 2 0 ++ le_bytes 2 0
    ++ le_bytes 2 0 ++ le_bytes 4 (wrap32 crc)
    ++ le_bytes 4 (wrap32 nbytes) ++ le_bytes 4 (wrap32 nbytes)
    ++ le_bytes 2 (wrap16 (len key)) ++ le_bytes 2 0.
Proof.
  intros. rewrite zip_local_header_eq.
  set (x := le_bytes 2 20 ++ _).
  rewrite <- app_assoc.
  change (lit "PK" ++ le_bytes 2 (wrap16 1027) ++ x ++ key)
    with ((lit "PK" ++ le_bytes 2 (wrap16 1027)) ++ x ++ key).
  apply (slice_middle (lit "PK" ++ le_bytes 2 (wrap16 1027)) x key).
Qed.

(** The local header declares compression method 0. *)
Lemma zip_local_header_stored : forall crc nbytes key,
  field (zip_local_header crc nbytes key) 8 2 = 0.
Proof.
  intros.
  apply (field_at _ (lit "PK" ++ le_bytes 2 (wrap16 1027) ++ le_bytes 2 20
                     ++ le_bytes 2 0) 2 0
           (le_bytes 2 0 ++ le_bytes 2 0 ++ le_bytes 4 (wrap32 crc)
            ++ le_bytes 4 (wrap32 nbytes) ++ le_bytes 4 (wrap32 nbytes)
            ++ le_bytes 2 (wrap16 (len key)) ++ le_bytes 2 0 ++ key)).
  - rewrite zip_local_header_eq. repeat rewrite <- app_assoc. reflexivity.
  - reflexivity.
  - reflexivity.
Qed.

Lemma zip_directory_record_len : forall crc nbytes key offset,
  len (zip_directory_record (zip_local_header crc nbytes key) offset key)
  = 46 + len key.
Proof.
  intros. unfold zip_directory_record. rewrite zip_local_header_copied.
  repeat rewrite len_app. repeat rewrite len_le_bytes.
  change (len (lit "PK")) with 2. lia.
Qed.

(** The directory record declares compression method 0 as well. *)
Lemma zip_directory_record_stored : forall crc nbytes key offset,
  field (zip_directory_record (zip_local_header crc nbytes key) offset key)
        10 2 = 0.
Proof.
  intros. unfold zip_directory_record. rewrite zip_local_header_copied.
  apply (field_at _ (lit "PK" ++ le_bytes 2 (wrap16 513) ++ le_bytes 2 20
                     ++ le_bytes 2 20 ++ le_bytes 2 0) 2 0
           (le_bytes 2 0 ++ le_bytes 2 0 ++ le_bytes 4 (wrap32 crc)
            ++ le_bytes 4 (wrap32 nbytes) ++ le_bytes 4 (wrap32 nbytes)
            ++ le_bytes 2 (wrap16 (len key)) ++ le_bytes 2 0
            ++ le_bytes 2 0 ++ le_bytes 2 0 ++ le_bytes 2 0 ++ le_bytes 4 0
            ++ le_bytes 4 (wrap32 offset) ++ key)).
  - repeat rewrite <- app_assoc. reflexivity.
  - reflexivity.
  - reflexivity.
Qed.

Lemma zip_footer_len : forall n s o, len (zip_footer n s o) = 22.
Proof.
  intros. unfold zip_footer. repeat rewrite len_app.
  repeat rewrite len_le_bytes. reflexivity.
Qed.

Lemma zip_footer_eq : forall n s o,
  zip_footer n s o
  = lit "PK" ++ le_bytes 2 (wrap16 1541) ++ le_bytes 2 0 ++ le_bytes 2 0
    ++ le_bytes 2 (wrap16 (n + 1)) ++ le_bytes 2 (wrap16 (n + 1))
    ++ le_bytes 4 (wrap32 s) ++ le_bytes 4 (wrap32 o) ++ le_bytes 2 0.
Proof. intros. unfold zip_footer. repeat rewrite <- app_assoc. reflexivity. Qed.

(** What [parse_zip_footer] reads back from a file that ends with a
    written locator: the count, size and offset modulo their field widths. *)
Lemma parse_zip_footer_written : forall pre n s o,
  parse_zip_footer (pre ++ zip_footer n s o)
  = Ok (wrap16 (n + 1), wrap32 s, wrap32 o).
Proof.
  intros pre n s o. unfold parse_zip_footer.
  rewrite len_app, zip_footer_len. pose proof (len_nonneg pre).
  unfold zip_footer_length.
  destruct (Z.ltb_spec (len pre + 22) 22); [lia|].
  replace (len pre + 22 - 22) with (len pre) by lia.
  rewrite dropZ_app_exact.
  set (F := zip_footer n s o).
  assert (E := zip_footer_eq n s o). fold F in E.
  assert (Hw16 : forall z, wrap16 z mod 256 ^ 2 = wrap16 z).
  { intros z. unfold wrap16. change (256 ^ 2) with (2 ^ 16).
    apply Z.mod_mod. lia. }
  assert (Hw32 : forall z, wrap32 z mod 256 ^ 4 = wrap32 z).
  { intros z. unfold wrap32. change (256 ^ 4) with (2 ^ 32).
    apply Z.mod_mod. lia. }
  rewrite (field_at F (lit "PK" ++ le_bytes 2 (wrap16 1541)) 2 0
             (le_bytes 2 0 ++ le_bytes 2 (wrap16 (n + 1))
              ++ le_bytes 2 (wrap16 (n + 1)) ++ le_bytes 4 (wrap32 s)
              ++ le_bytes 4 (wrap32 o) ++ le_bytes 2 0) 4 2);
    [| rewrite E; repeat rewrite <- app_assoc; reflexivity | reflexivity
     | reflexivity ].
  rewrite (field_at F (lit "PK" ++ le_bytes 2 (wrap16 1541) ++ le_bytes 2 0)
             2 0
             (le_bytes 2 (wrap16 (n + 1))
              ++ le_bytes 2 (wrap16 (n + 1)) ++ le_bytes 4 (wrap32 s)
              ++ le_bytes 4 (wrap32 o) ++ le_bytes 2 0) 6 2);
    [| rewrite E; repeat rewrite <- app_assoc; reflexivity | reflexivity
     | reflexivity ].
  rewrite (field_at F (lit "PK" ++ le_bytes 2 (wrap16 1541) ++ le_bytes 2 0
                       ++ le_bytes 2 0)
             2 (wrap16 (n + 1))
             (le_bytes 2 (wrap16 (n + 1)) ++ le_bytes 4 (wrap32 s)
              ++ le_bytes 4 (wrap32 o) ++ le_bytes 2 0) 8 2);
    [| rewrite E; repeat rewrite <- app_assoc; reflexivity | reflexivity
     | reflexivity ].
  rewrite (field_at F (lit "PK" ++ le_bytes 2 (wrap16 1541) ++ le_bytes 2 0
                       ++ le_bytes 2 0 ++ le_bytes 2 (wrap16 (n + 1)))
             2 (wrap16 (n + 1))
             (le_bytes 4 (wrap32 s) ++ le_bytes 4 (wrap32 o) ++ le_bytes 2 0)
             10 2);
    [| rewrite E; repeat rewrite <- app_assoc; reflexivity | reflexivity
     | reflexivity ].
  rewrite (field_at F (lit "PK" ++ le_bytes 2 (wrap16 1541) ++ le_bytes 2 0
                       ++ le_bytes 2 0 ++ le_bytes 2 (wrap16 (n + 1))
                       ++ le_bytes 2 (wrap16 (n + 1)))
             4 (wrap32 s)
             (le_bytes 4 (wrap32 o) ++ le_bytes 2 0) 12 4);
    [| rewrite E; repeat rewrite <- app_assoc; reflexivity | reflexivity
     | reflexivity ].
  rewrite (field_at F (lit "PK" ++ le_bytes 2 (wrap16 1541) ++ le_bytes 2 0
                       ++ le_bytes 2 0 ++ le_bytes 2 (wrap16 (n + 1))
                       ++ le_bytes 2 (wrap16 (n + 1)) ++ le_bytes 4 (wrap32 s))
             4 (wrap32 o)
             (le_bytes 2 0) 16 4);
    [| rewrite E; repeat rewrite <- app_assoc; reflexivity | reflexivity
     | reflexivity ].
  rewrite (field_at F (lit "PK" ++ le_bytes 2 (wrap16 1541) ++ le_bytes 2 0
                       ++ le_bytes 2 0 ++ le_bytes 2 (wrap16 (n + 1))
                       ++ le_bytes 2 (wrap16 (n + 1)) ++ le_bytes 4 (wrap32 s)
                       ++ le_bytes 4 (wrap32 o))
             2 0 [] 20 2);
    [| rewrite E; repeat rewrite <- app_assoc; now rewrite app_nil_r
     | reflexivity | reflexivity ].
  rewrite !Hw16, !Hw32.
  change (0 mod 256 ^ 2) with 0.
  cbn [Z.eqb negb orb]. rewrite Z.eqb_refl. reflexivity.
Qed.

Lemma records_size_concat : forall recs, records_size recs = len (concat recs).
Proof.
  induction recs as [|r recs IH]; [reflexivity|].
  unfold records_size in *. cbn [map fold_right concat].
  rewrite len_app, IH. reflexivity.
Qed.

Lemma records_size_app : forall recs r,
  records_size (recs ++ [r]) = records_size recs + len r.
Proof.
  intros. rewrite !records_size_concat, concat_app, len_app.
  cbn [concat]. now rewrite app_nil_r.
Qed.

(** Writing at the end of [body] at least as many bytes as follow it
    replaces everything after [body]. *)
Lemma write_at_tail : forall body tail bytes,
  len tail <= len bytes ->
  write_at (body ++ tail) (len body) bytes = body ++ bytes.
Proof.
  intros body tail bytes H. unfold write_at.
  rewrite takeZ_app_exact.
  pose proof (len_nonneg tail). pose proof (len_nonneg body).
  unfold fill. rewrite len_app.
  replace (Z.to_nat (len body - (len body + len tail))) with 0%nat by lia.
  cbn [repeat app].
  rewrite dropZ_all by (rewrite len_app; lia).
  now rewrite app_nil_r.
Qed.

(** The file [npz_save] writes from the state it starts in: the entries
    so far ([body]), the directory so far ([dir]) and its record count. *)
Lemma npz_written_invariant : forall body recs local_header npy_header data
                                     record nbytes,
  nbytes = len npy_header + len data ->
  len recs + 1 < 2 ^ 16 ->
  records_size recs + len record < 2 ^ 32 ->
  len body + len local_header + nbytes < 2 ^ 32 ->
  let global_header := concat recs ++ record in
  let footer :=
    zip_footer (len recs) (len global_header)
      (wrap64 (wrap64 (len body + wrap64 nbytes) + len local_header)) in
  let file' := body ++ local_header ++ npy_header ++ data
               ++ global_header ++ footer in
  archive_invariant file' (body ++ local_header ++ npy_header ++ data)
                    (recs ++ [record])
  /\ parse_zip_footer file'
     = Ok (len recs + 1, records_size recs + len record,
           len body + len local_header + nbytes).
Proof.
  intros body recs local_header npy_header data record nbytes
         Hn Hc Hs Ho global_header footer file'.
  pose proof (len_nonneg body). pose proof (len_nonneg local_header).
  pose proof (len_nonneg npy_header). pose proof (len_nonneg data).
  pose proof (len_nonneg recs). pose proof (len_nonneg record).
  pose proof (len_nonneg (concat recs)) as Hcr.
  rewrite <- records_size_concat in Hcr.
  assert (Hp : parse_zip_footer file'
               = Ok (len recs + 1, records_size recs + len record,
                     len body + len local_header + nbytes)).
  { subst file'.
    replace (body ++ local_header ++ npy_header ++ data ++ global_header ++ footer)
      with ((body ++ local_header ++ npy_header ++ data ++ global_header) ++ footer)
      by (repeat rewrite <- app_assoc; reflexivity).
    subst footer. rewrite parse_zip_footer_written.
    rewrite (wrap64_small nbytes) by lia.
    rewrite (wrap64_small (len body + nbytes)) by lia.
    rewrite (wrap64_small (len body + nbytes + len local_header)) by lia.
    subst global_header. rewrite len_app, <- records_size_concat.
    rewrite wrap16_small, !wrap32_small by lia.
    f_equal. f_equal. lia. }
  split; [|exact Hp].
  exists footer. split; [|split].
  - subst file' global_header. rewrite concat_app. cbn [concat].
    rewrite app_nil_r. repeat rewrite <- app_assoc. reflexivity.
  - apply zip_footer_len.
  - rewrite Hp. rewrite records_size_app, !len_app.
    change (len [record]) with 1. rewrite Hn.
    replace (len body + (len local_header + (len npy_header + len data)))
      with (len body + len local_header + (len npy_header + len data)) by lia.
    reflexivity.
Qed.

(** Without an existing file, or in a mode other than ["a"], the call
    starts from an empty archive, as with mode ["w"]. *)
Lemma npz_save_create_mode : forall crc32 T zipfile key data new_shape mode,
  zipfile = None \/ String.eqb mode "a" = false ->
  npz_save crc32 T zipfile key data new_shape mode
  = npz_save crc32 T None key data new_shape "w".
Proof.
  intros crc32 T zipfile key data new_shape mode [-> | Hm]; unfold npz_save.
  - destruct (String.eqb mode "a"); reflexivity.
  - rewrite Hm. destruct zipfile; reflexivity.
Qed.

(** C5 (amended): a call of [npz_save] that creates an archive, or that
    appends to an archive laid out as [archive_invariant] says, returns a
    file laid out the same way with the new entry and its directory
    record added, as long as the new count fits 16 bits and the new
    directory size and offset fit 32 bits.  The locator then reports one
    entry more, a directory size that is the sum of the record lengths,
    and a directory offset one past the new entry's last payload byte; the
    new local header and directory record declare compression method 0. *)
Theorem npz_save_directory_invariant :
  forall crc32 T key data shape0 shape_tl,
    let new_shape := shape0 :: shape_tl in
    let key' := key ++ lit ".npy" in
    let npy_header := npy_header_of_dict (npy_dict T shape0 shape_tl) in
    let entry_size := 30 + len key' + len npy_header + len data in
    let record_size := 46 + len key' in
    len data = wrap64 (product new_shape * sizeof T) ->
    (forall zipfile mode,
       zipfile = None \/ String.eqb mode "a" = false ->
       entry_size < 2 ^ 32 -> record_size < 2 ^ 32 ->
       exists file' local_header record,
         npz_save crc32 T zipfile key data new_shape mode = Ok file'
         /\ len local_header = 30 + len key' /\ len record = record_size
         /\ field local_header 8 2 = 0 /\ field record 10 2 = 0
         /\ archive_invariant file' (local_header ++ npy_header ++ data)
                              [record]
         /\ parse_zip_footer file' = Ok (1, record_size, entry_size))
    /\ (forall old body recs,
          archive_invariant old body recs ->
          len recs + 1 < 2 ^ 16 ->
          records_size recs + record_size < 2 ^ 32 ->
          len body + entry_size < 2 ^ 32 ->
          exists file' local_header record,
            npz_save crc32 T (Some old) key data new_shape "a" = Ok file'
            /\ len local_header = 30 + len key' /\ len record = record_size
            /\ field local_header 8 2 = 0 /\ field record 10 2 = 0
            /\ archive_invariant file'
                 (body ++ local_header ++ npy_header ++ data)
                 (recs ++ [record])
            /\ parse_zip_footer file'
               = Ok (len recs + 1, records_size recs + record_size,
                     len body + entry_size)).
Proof.
  intros crc32 T key data shape0 shape_tl new_shape key' npy_header
         entry_size record_size Hd.
  pose proof (len_nonneg key'). pose proof (len_nonneg npy_header).
  pose proof (len_nonneg data).
  split.
  - intros zipfile mode Hmode He Hr.
    rewrite (npz_save_create_mode crc32 T zipfile key data new_shape mode Hmode).
    unfold npz_save. change (String.eqb "w" "a") with false. cbn iota.
    cbn [bind].
    fold key'. unfold new_shape at 1. rewrite create_npy_header_cons.
    cbn [bind]. fold npy_header new_shape.
    rewrite raw_bytes_exact by (now rewrite Hd). cbn [bind].
    rewrite <- Hd.
    set (crc := wrap32 (crc32 _ _)).
    set (lh := zip_local_header crc _ key').
    set (rec := zip_directory_record lh 0 key').
    exists (write_at [] 0
              (lh ++ npy_header ++ data ++ ([] ++ rec)
               ++ zip_footer 0 (len ([] ++ rec))
                    (wrap64 (wrap64 (0 + wrap64 (len data + len npy_header))
                             + len lh)))), lh, rec.
    assert (Hlh : len lh = 30 + len key') by apply zip_local_header_len.
    assert (Hrec : len rec = record_size) by apply zip_directory_record_len.
    split; [reflexivity|].
    split; [exact Hlh|]. split; [exact Hrec|].
    split; [apply zip_local_header_stored|].
    split; [apply zip_directory_record_stored|].
    rewrite write_at_empty.
    pose proof (npz_written_invariant [] [] lh npy_header data rec
                  (len npy_header + len data) eq_refl) as Hinv.
    cbv zeta in Hinv. cbn [concat app] in Hinv.
    change (len (@nil ascii)) with 0 in Hinv.
    change (len (@nil (list ascii))) with 0 in Hinv.
    change (records_size []) with 0 in Hinv.
    replace (len data + len npy_header) with (len npy_header + len data)
      by lia.
    cbn [app].
    destruct Hinv as [Hi Hp];
      [lia | unfold record_size in *; lia | unfold entry_size in *; lia |].
    split; [exact Hi|]. rewrite Hp, Hrec, Hlh. unfold entry_size.
    apply f_equal. apply f_equal2; [apply f_equal2|]; lia.
  - intros old body recs Hinv0 Hc Hs Ho.
    destruct Hinv0 as (footer0 & Hold & Hf0 & Hparse).
    pose proof (len_nonneg body). pose proof (len_nonneg recs).
    pose proof (len_nonneg (concat recs)) as Hcr.
    unfold npz_save. change (String.eqb "a" "a") with true. cbn iota.
    rewrite Hparse. cbn [bind].
    assert (Hdir : slice (len body) (records_size recs) old = concat recs).
    { rewrite Hold, records_size_concat. apply slice_middle. }
    rewrite Hdir. rewrite <- records_size_concat, Z.eqb_refl. cbn [negb].
    cbn [bind].
    fold key'. unfold new_shape at 1. rewrite create_npy_header_cons.
    cbn [bind]. fold npy_header new_shape.
    rewrite raw_bytes_exact by (now rewrite Hd). cbn [bind].
    rewrite <- Hd.
    set (crc := wrap32 (crc32 _ _)).
    set (lh := zip_local_header crc _ key').
    set (rec := zip_directory_record lh (len body) key').
    assert (Hlh : len lh = 30 + len key') by apply zip_local_header_len.
    assert (Hrec : len rec = record_size) by apply zip_directory_record_len.
    match goal with
    | |- context [write_at old (len body) ?X] =>
        assert (Hw : write_at old (len body) X = body ++ X)
    end.
    { rewrite Hold at 1. apply write_at_tail.
      repeat rewrite len_app. rewrite zip_footer_len, Hf0.
      pose proof (len_nonneg rec). lia. }
    rewrite Hw.
    eexists _, lh, rec.
    split; [reflexivity|].
    split; [exact Hlh|]. split; [exact Hrec|].
    split; [apply zip_local_header_stored|].
    split; [apply zip_directory_record_stored|].
    pose proof (npz_written_invariant body recs lh npy_header data rec
                  (len npy_header + len data) eq_refl) as Hinv.
    cbv zeta in Hinv.
    replace (len data + len npy_header) with (len npy_header + len data)
      by lia.
    destruct Hinv as [Hi Hp];
      [lia | rewrite Hrec; lia | rewrite Hlh; unfold entry_size in *; lia |].
    split; [exact Hi|]. rewrite Hp, Hrec, Hlh. unfold entry_size.
    apply f_equal. apply f_equal2; [apply f_equal2|]; lia.
Qed.

Lemma npz_save_directory_invariant_witness :
  (exists file' local_header record,
     npz_save length_crc T_short None (lit "a") (lit "abcdefghijkl") [2; 3] "w"
     = Ok file'
     /\ len local_header = 30 + len (lit "a" ++ lit ".npy")
     /\ len record = 46 + len (lit "a" ++ lit ".npy")
     /\ field local_header 8 2 = 0 /\ field record 10 2 = 0
     /\ archive_invariant file'
          (local_header ++ npy_header_of_dict (npy_dict T_short 2 [3])
           ++ lit "abcdefghijkl") [record]
     /\ parse_zip_footer file'
        = Ok (1, 46 + len (lit "a" ++ lit ".npy"),
              30 + len (lit "a" ++ lit ".npy")
              + len (npy_header_of_dict (npy_dict T_short 2 [3]))
              + len (lit "abcdefghijkl")))
  /\ (exists file' local_header record,
        npz_save length_crc T_char (Some archive_a) (lit "bb") (lit "xyz") [3] "a"
        = Ok file'
        /\ len local_header = 30 + len (lit "bb" ++ lit ".npy")
        /\ len record = 46 + len (lit "bb" ++ lit ".npy")
        /\ field local_header 8 2 = 0 /\ field record 10 2 = 0
        /\ archive_invariant file'
             (body_a ++ local_header
              ++ npy_header_of_dict (npy_dict T_char 3 []) ++ lit "xyz")
             ([record_a] ++ [record])
        /\ parse_zip_footer file'
           = Ok (len [record_a] + 1,
                 records_size [record_a] + (46 + len (lit "bb" ++ lit ".npy")),
                 len body_a
                 + (30 + len (lit "bb" ++ lit ".npy")
                    + len (npy_header_of_dict (npy_dict T_char 3 []))
                    + len (lit "xyz")))).
Proof.
  split.
  - apply (proj1 (npz_save_directory_invariant length_crc T_short (lit "a")
                    (lit "abcdefghijkl") 2 [3] ltac:(vm_compute; reflexivity))
             None "w"%string).
    + now left.
    + vm_compute. reflexivity.
    + vm_compute. reflexivity.
  - apply (proj2 (npz_save_directory_invariant length_crc T_char (lit "bb")
                    (lit "xyz") 3 [] ltac:(vm_compute; reflexivity))
             archive_a body_a [record_a]).
    + exists (dropZ 227 archive_a). repeat split; vm_compute; reflexivity.
    + vm_compute. reflexivity.
    + vm_compute. reflexivity.
    + vm_compute. reflexivity.
Defined.

(** Two appends after a create: three entries, and the directory size is
    the sum of the three record lengths. *)
Example npz_save_three_entries :
  npz_save length_crc T_short None (lit "a") (lit "abcdefghijkl") [2; 3] "w"
  = Ok archive_a
  /\ npz_save length_crc T_char (Some archive_a) (lit "bb") (lit "xyz") [3] "a"
     = Ok archive_ab
  /\ npz_save length_crc T_char (Some archive_ab) (lit "c") (lit "uvwx")
               [2; 2] "a"
     = Ok archive_abc
  /\ parse_zip_footer archive_abc
     = Ok (3, (46 + 5) + (46 + 6) + (46 + 5), 512)
  /\ npz_load copy_inflate (Some archive_abc)
     = Ok [(lit "a", mk_NpyArray (lit "abcdefghijkl") [2; 3] 2 false 6);
           (lit "bb", mk_NpyArray (lit "xyz") [3] 1 false 3);
           (lit "c", mk_NpyArray (lit "uvwx") [2; 2] 1 false 4)].
Proof. repeat split; vm_compute; reflexivity. Qed.

(** C5 (counterexample): the existing locator reports 65535 entries; the
    append returns, and the locator it writes reports 0 entries, not
    65536. *)
Lemma locator_counts_as_stated_fails :
  ~ locator_counts_as_stated length_crc T_char full_locator (lit "bb")
      (lit "xyz") [3].
Proof.
  intros H.
  destruct (H 65535 0 0
              (match npz_save length_crc T_char (Some full_locator) (lit "bb")
                       (lit "xyz") [3] "a" with
               | Ok file => file
               | _ => []
               end))
    as (size' & offset' & Hp).
  - vm_compute. reflexivity.
  - vm_compute. reflexivity.
  - vm_compute in Hp. discriminate Hp.
Qed.

(* ================================================================== *)
(** * The loops of the model never run out of fuel *)

Ltac break_in H :=
  match type of H with
  | context [match ?x with _ => _ end] =>
      lazymatch x with
      | context [match _ with _ => _ end] => fail
      | _ => destruct x eqn:?
      end
  end.

Lemma stoul_finishes : forall s, stoul s <> Unfinished.
Proof.
  intros s H. unfold stoul in H.
  repeat (break_in H; try discriminate H).
Qed.

Lemma substr_finishes : forall s pos n, substr s pos n <> Unfinished.
Proof. intros s pos n H. unfold substr in H. break_in H; discriminate H. Qed.

Lemma substr_from_finishes : forall s pos, substr_from s pos <> Unfinished.
Proof. intros s pos H. unfold substr_from in H. break_in H; discriminate H. Qed.

Lemma char_at_finishes : forall s pos, char_at s pos <> Unfinished.
Proof.
  intros s pos H. unfold char_at in H. repeat (break_in H; try discriminate H).
Qed.

Lemma bind_finishes : forall {A B} (x : outcome A) (k : A -> outcome B),
  x <> Unfinished -> (forall a, k a <> Unfinished) -> bind x k <> Unfinished.
Proof.
  intros A B [a| | |] k Hx Hk; cbn [bind]; try discriminate; auto.
Qed.

Lemma parse_header_text_finishes : forall header,
  parse_header_text header <> Unfinished.
Proof.
  intros header. unfold parse_header_text, runtime_error.
  destruct (find header (lit "fortran_order")); [|discriminate].
  apply bind_finishes; [apply substr_finishes|]. intros fo.
  destruct (find header (lit "(")); [|discriminate].
  destruct (find header (lit ")")); [|discriminate].
  apply bind_finishes; [apply substr_finishes|]. intros str_shape.
  apply bind_finishes; [apply shape_loop_finishes; lia|]. intros shp.
  destruct (find header (lit "descr")); [|discriminate].
  apply bind_finishes; [apply char_at_finishes|]. intros c.
  destruct (negb _); [discriminate|].
  apply bind_finishes; [apply substr_from_finishes|]. intros str_ws.
  apply bind_finishes; [apply stoul_finishes|]. intros ws. discriminate.
Qed.

Lemma advances_refl : forall ist, advances ist ist.
Proof. intros ist. unfold advances. repeat split; lia. Qed.

Lemma advances_trans : forall a b c, advances a b -> advances b c -> advances a c.
Proof.
  intros a b c (H1 & H2 & H3) (H4 & H5 & H6). unfold advances.
  rewrite H1 in *. repeat split; [congruence | lia | lia].
Qed.

Lemma len_slice_le : forall p n l,
  0 <= p <= len l -> len (slice p n l) <= len l - p.
Proof.
  intros p n l Hp. unfold slice. rewrite takeZ_firstn, dropZ_skipn.
  unfold len in *. rewrite length_firstn, length_skipn. lia.
Qed.

Lemma read_advances : forall ist n got ist',
  0 <= gpos ist -> read ist n = (got, ist') ->
  advances ist ist'
  /\ (failbit ist' = false -> gpos ist' = gpos ist + n /\ gcount ist' = n).
Proof.
  intros ist n got ist' H0 H. unfold read in H.
  destruct (failbit ist) eqn:Hf.
  - inversion H; subst. split; [|discriminate].
    unfold advances. cbn. repeat split; lia.
  - inversion H; subst. cbn [failbit gpos gcount content].
    pose proof (len_nonneg (slice (gpos ist) n (content ist))) as Hl.
    split.
    + unfold advances. cbn [content gpos]. repeat split; try lia.
      intros Hle. pose proof (len_slice_le (gpos ist) n (content ist)). lia.
    + intros Hn. apply negb_false_iff, Z.eqb_eq in Hn. lia.
Qed.

Lemma read_header_text_advances : forall ist header_length r ist',
  0 <= gpos ist ->
  read_header_text ist header_length = (r, ist') ->
  advances ist ist' /\ r <> Unfinished.
Proof.
  intros ist hl r ist' H0 H. unfold read_header_text, runtime_error in H.
  destruct (failbit ist).
  { inversion H; subst. split; [apply advances_refl | discriminate]. }
  destruct (read ist hl) as [header i1] eqn:R.
  apply read_advances in R as [Ha _]; [|assumption].
  repeat (break_in H; try discriminate H); inversion H; subst;
    (split; [assumption | try discriminate]).
  apply parse_header_text_finishes.
Qed.

Lemma parse_npy_header_advances : forall ist r ist',
  0 <= gpos ist ->
  parse_npy_header ist = (r, ist') ->
  advances ist ist' /\ r <> Unfinished.
Proof.
  intros ist r ist' H0 H. unfold parse_npy_header, runtime_error in H.
  destruct (read ist numpy_magic_length) as [g1 i1] eqn:R1.
  apply read_advances in R1 as [A1 _]; [|assumption].
  destruct (negb _).
  { inversion H; subst. split; [assumption | discriminate]. }
  assert (P1 : 0 <= gpos i1) by (destruct A1 as (_ & ? & _); lia).
  destruct (read i1 1) as [g2 i2] eqn:R2.
  apply read_advances in R2 as [A2 _]; [|assumption].
  assert (P2 : 0 <= gpos i2) by (destruct A2 as (_ & ? & _); lia).
  destruct (read i2 1) as [g3 i3] eqn:R3.
  apply read_advances in R3 as [A3 _]; [|assumption].
  assert (P3 : 0 <= gpos i3) by (destruct A3 as (_ & ? & _); lia).
  pose proof (advances_trans _ _ _ A1 (advances_trans _ _ _ A2 A3)) as A13.
  destruct (_ && _).
  { destruct (read i3 2) as [g4 i4] eqn:R4.
    apply read_advances in R4 as [A4 _]; [|assumption].
    assert (P4 : 0 <= gpos i4) by (destruct A4 as (_ & ? & _); lia).
    apply read_header_text_advances in H as [A5 Hr]; [|assumption].
    split; [|assumption].
    eapply advances_trans; [exact A13|].
    eapply advances_trans; [exact A4 | exact A5]. }
  destruct (_ && _).
  { destruct (read i3 4) as [g4 i4] eqn:R4.
    apply read_advances in R4 as [A4 _]; [|assumption].
    assert (P4 : 0 <= gpos i4) by (destruct A4 as (_ & ? & _); lia).
    apply read_header_text_advances in H as [A5 Hr]; [|assumption].
    split; [|assumption].
    eapply advances_trans; [exact A13|].
    eapply advances_trans; [exact A4 | exact A5]. }
  inversion H; subst. split; [assumption | discriminate].
Qed.

Lemma load_the_npy_file_advances : forall ist r ist',
  0 <= gpos ist ->
  load_the_npy_file ist = (r, ist') ->
  advances ist ist' /\ r <> Unfinished.
Proof.
  intros ist r ist' H0 H. unfold load_the_npy_file, runtime_error in H.
  destruct (failbit ist).
  { inversion H; subst. split; [apply advances_refl | discriminate]. }
  destruct (parse_npy_header ist) as [r1 i1] eqn:P.
  apply parse_npy_header_advances in P as [A1 Hr1]; [|assumption].
  assert (P1 : 0 <= gpos i1) by (destruct A1 as (_ & ? & _); lia).
  destruct r1 as [[[ws shp] fo]| | |]; try congruence;
    try (inversion H; subst; split; [assumption | discriminate]).
  destruct (read i1 _) as [got i2] eqn:R.
  apply read_advances in R as [A2 _]; [|assumption].
  destruct (_ || _); inversion H; subst;
    (split; [eapply advances_trans; eassumption | discriminate]).
Qed.

Section ArchiveTotal.

Variable zlib_inflate : list ascii -> Z -> inflate_run.

Lemma load_the_npz_array_advances : forall ist c u r ist',
  0 <= gpos ist ->
  load_the_npz_array zlib_inflate ist c u = (r, ist') ->
  advances ist ist' /\ r <> Unfinished.
Proof.
  intros ist c u r ist' H0 H. unfold load_the_npz_array, runtime_error in H.
  destruct (read ist c) as [got i1] eqn:R.
  apply read_advances in R as [A1 _]; [|assumption].
  destruct (_ || _); [inversion H; subst; split; [assumption | discriminate]|].
  repeat (destruct (negb _);
          [inversion H; subst; split; [assumption | discriminate]|]).
  destruct (parse_npy_header _) as [r1 i2] eqn:P.
  apply parse_npy_header_advances in P as [_ Hr1]; [|cbn; lia].
  cbn [fst] in H.
  destruct r1 as [[[ws shp] fo]| | |]; try congruence;
    try (inversion H; subst; split; [assumption | discriminate]).
  destruct (_ <? _); inversion H; subst; (split; [assumption | discriminate]).
Qed.

(** The scan consumes at least the 30 bytes of a block in every round, so
    one unit of fuel per remaining byte is enough. *)
Lemma npz_load_loop_finishes : forall fuel ist arrays,
  0 <= gpos ist <= len (content ist) ->
  (Z.to_nat (len (content ist) - gpos ist) < fuel)%nat ->
  npz_load_loop zlib_inflate fuel ist arrays <> Unfinished.
Proof.
  induction fuel as [|fuel IH]; intros ist arrays Hpos Hfuel; [lia|].
  cbn [npz_load_loop]. unfold runtime_error.
  destruct (failbit ist); [discriminate|].
  destruct (read ist zip_header_length) as [lh i1] eqn:R1.
  apply read_advances in R1 as [A1 G1]; [|lia].
  destruct (failbit i1) eqn:F1; [discriminate|]. cbn [orb].
  destruct (negb (gcount i1 =? zip_header_length)); [discriminate|].
  destruct (_ || _); [discriminate|].
  destruct (G1 eq_refl) as [Hg1 _]. unfold zip_header_length in Hg1.
  destruct A1 as (C1 & L1 & U1). specialize (U1 ltac:(lia)).
  destruct (read i1 _) as [name i2] eqn:R2.
  apply read_advances in R2 as [A2 _]; [|lia].
  destruct (_ || _); [discriminate|].
  destruct A2 as (C2 & L2 & U2). rewrite C1 in *. specialize (U2 ltac:(lia)).
  assert (Hext : exists b i3,
            (if 0 <? field lh 28 2
             then let '(_, ist0) := read i2 (field lh 28 2) in
                  (negb (failbit ist0 || negb (gcount ist0 =? field lh 28 2)),
                   ist0)
             else (true, i2)) = (b, i3)
            /\ content i3 = content ist /\ gpos i2 <= gpos i3
            /\ gpos i3 <= len (content ist)).
  { destruct (0 <? field lh 28 2).
    - destruct (read i2 _) as [ex i3] eqn:R3.
      apply read_advances in R3 as [(C3 & L3 & U3) _]; [|lia].
      rewrite C2 in *. exists (negb (failbit i3 || negb (gcount i3 =? field lh 28 2))), i3.
      repeat split; try congruence; lia.
    - exists true, i2. repeat split; try congruence; lia. }
  destruct Hext as (b & i3 & -> & C3 & L3 & U3).
  destruct (negb b); [discriminate|].
  assert (Hload : exists r i4,
            (if field lh 8 2 =? 0 then load_the_npy_file i3
             else load_the_npz_array zlib_inflate i3
                    (field lh 18 4) (field lh 22 4)) = (r, i4)
            /\ advances i3 i4 /\ r <> Unfinished).
  { destruct (field lh 8 2 =? 0).
    - destruct (load_the_npy_file i3) as [r i4] eqn:L.
      exists r, i4. split; [reflexivity|].
      apply load_the_npy_file_advances in L; [assumption | lia].
    - destruct (load_the_npz_array _ _ _ _) as [r i4] eqn:L.
      exists r, i4. split; [reflexivity|].
      apply load_the_npz_array_advances in L; [assumption | lia]. }
  destruct Hload as (r & i4 & -> & (C4 & L4 & U4) & Hr).
  rewrite C3 in *. specialize (U4 ltac:(lia)).
  apply bind_finishes; [assumption|]. intros arr.
  apply IH; rewrite C4; lia.
Qed.

(** [npz_load] ends on every file: each pass of its scan either stops or
    consumes the 30 bytes of a block, so the fuel of the model, one more
    than the number of bytes of the file, is never used up. *)
Theorem npz_load_finishes : forall file,
  npz_load zlib_inflate file <> Unfinished.
Proof.
  intros [bytes|]; cbn [npz_load]; [|discriminate].
  apply npz_load_loop_finishes; cbn [open_stream gpos content].
  - pose proof (len_nonneg bytes). lia.
  - unfold len. lia.
Qed.

End ArchiveTotal.

(** [npy_load] ends on every file: the loop that collects the numbers of
    the shape takes at least one digit off the text in every round. *)
Theorem npy_load_finishes : forall file, npy_load file <> Unfinished.
Proof.
  intros [bytes|]; cbn [npy_load]; [|discriminate].
  destruct (load_the_npy_file (open_stream bytes)) as [r i] eqn:L.
  apply load_the_npy_file_advances in L as [_ Hr]; [assumption | cbn; lia].
Qed.

(* ================================================================== *)
(** * Reading inside a larger file *)

Lemma dropZ_shift : forall (pre s : list ascii) p,
  0 <= p -> dropZ (len pre + p) (pre ++ s) = dropZ p s.
Proof.
  intros pre s p Hp. rewrite !dropZ_skipn. unfold len.
  replace (Z.to_nat (Z.of_nat (length pre) + p))
    with (length pre + Z.to_nat p)%nat by lia.
  rewrite skipn_app.
  rewrite (skipn_all2 pre) by lia.
  replace (length pre + Z.to_nat p - length pre)%nat with (Z.to_nat p) by lia.
  reflexivity.
Qed.

Lemma read_shift : forall pre ist n,
  0 <= gpos ist ->
  read (shift pre ist) n
  = (fst (read ist n), shift pre (snd (read ist n))).
Proof.
  intros pre ist n Hp. unfold read, shift. cbn [failbit gpos content gcount].
  destruct (failbit ist); cbn [fst snd content gpos failbit gcount];
    [reflexivity|].
  unfold slice. rewrite dropZ_shift by assumption.
  f_equal. f_equal. lia.
Qed.

Lemma read_gpos_nonneg : forall ist n,
  0 <= gpos ist -> 0 <= gpos (snd (read ist n)).
Proof.
  intros ist n H. destruct (read ist n) as [got i1] eqn:R.
  apply read_advances in R as [(_ & Hle & _) _]; [|assumption].
  cbn [snd]. lia.
Qed.

Lemma shift_failbit : forall pre ist, failbit (shift pre ist) = failbit ist.
Proof. reflexivity. Qed.

Lemma shift_gcount : forall pre ist, gcount (shift pre ist) = gcount ist.
Proof. reflexivity. Qed.

Lemma read_header_text_shift : forall pre ist header_length,
  0 <= gpos ist ->
  read_header_text (shift pre ist) header_length
  = (fst (read_header_text ist header_length),
     shift pre (snd (read_header_text ist header_length))).
Proof.
  intros pre ist hl Hp. unfold read_header_text.
  rewrite shift_failbit. destruct (failbit ist); [reflexivity|].
  rewrite read_shift by assumption.
  destruct (read ist hl) as [header i1]. cbn [fst snd].
  rewrite shift_failbit, shift_gcount.
  repeat match goal with
         | |- context [if ?b then _ else _] => destruct b
         end; reflexivity.
Qed.

Lemma parse_npy_header_shift : forall pre ist,
  0 <= gpos ist ->
  parse_npy_header (shift pre ist)
  = (fst (parse_npy_header ist), shift pre (snd (parse_npy_header ist))).
Proof.
  intros pre ist Hp. unfold parse_npy_header.
  rewrite read_shift by assumption.
  pose proof (read_gpos_nonneg ist numpy_magic_length Hp) as H1.
  destruct (read ist numpy_magic_length) as [g1 i1]. cbn [fst snd] in *.
  destruct (negb _); [reflexivity|].
  rewrite read_shift by assumption.
  pose proof (read_gpos_nonneg i1 1 H1) as H2.
  destruct (read i1 1) as [g2 i2]. cbn [fst snd] in *.
  rewrite read_shift by assumption.
  pose proof (read_gpos_nonneg i2 1 H2) as H3.
  destruct (read i2 1) as [g3 i3]. cbn [fst snd] in *.
  destruct (_ && _).
  { rewrite read_shift by assumption.
    pose proof (read_gpos_nonneg i3 2 H3) as H4.
    destruct (read i3 2) as [g4 i4]. cbn [fst snd] in *.
    rewrite read_header_text_shift by assumption.
    destruct (read_header_text i4 _). reflexivity. }
  destruct (_ && _).
  { rewrite read_shift by assumption.
    pose proof (read_gpos_nonneg i3 4 H3) as H4.
    destruct (read i3 4) as [g4 i4]. cbn [fst snd] in *.
    rewrite read_header_text_shift by assumption.
    destruct (read_header_text i4 _). reflexivity. }
  reflexivity.
Qed.

Lemma load_the_npy_file_shift : forall pre ist,
  0 <= gpos ist ->
  load_the_npy_file (shift pre ist)
  = (fst (load_the_npy_file ist), shift pre (snd (load_the_npy_file ist))).
Proof.
  intros pre ist Hp. unfold load_the_npy_file.
  rewrite shift_failbit. destruct (failbit ist); [reflexivity|].
  rewrite parse_npy_header_shift by assumption.
  destruct (parse_npy_header ist) as [r i1] eqn:P.
  apply parse_npy_header_advances in P as [(_ & Hle & _) _]; [|assumption].
  cbn [fst snd].
  destruct r as [[[ws shp] fo]| | |]; try reflexivity.
  rewrite read_shift by lia.
  destruct (read i1 _) as [got i2]. cbn [fst snd].
  rewrite shift_failbit, shift_gcount.
  destruct (_ || _); reflexivity.
Qed.

(* ================================================================== *)
(** * What an append does to the file *)

Lemma write_at_start : forall (file bytes : list ascii),
  write_at file 0 bytes = bytes ++ dropZ (len bytes) file.
Proof.
  intros file bytes. unfold write_at, fill.
  rewrite takeZ_firstn. pose proof (len_nonneg file).
  replace (Z.to_nat (0 - len file)) with 0%nat by lia.
  cbn [Z.to_nat firstn repeat app]. reflexivity.
Qed.

(** C3 (code bug): an append that passes the checks of lines 163-184
    writes the regenerated header over the start of the file and the new
    bytes at its end (lines 194-204).  The regenerated header has a
    length of 1 modulo 64, so it is never as long as a header aligned to
    16 or 64 bytes, as the format prescribes; when it is [k] bytes longer
    than the existing header, the first [k] bytes of the old payload are
    overwritten and the file holds the old payload without them, then
    the new bytes.  The header written says ['fortran_order': False], so
    every further append to the file throws: blocks cannot be appended
    one after the other. *)
Theorem npy_save_append_rewrites_header :
  forall T old_header old_payload data t0 s0 dims ist',
    parse_npy_header (open_stream (old_header ++ old_payload))
    = (Ok (sizeof T, t0 :: dims, true), ist') ->
    gpos ist' = len old_header ->
    len data = wrap64 (sizeof T * product (s0 :: dims)) ->
    supported T ->
    Forall is_size_t dims ->
    header_fits (npy_dict T (wrap64 (t0 + s0)) dims) ->
    let header := npy_header_of_dict (npy_dict T (wrap64 (t0 + s0)) dims) in
    exists file',
      npy_save T (Some (old_header ++ old_payload)) data (s0 :: dims) "a"
      = Ok file'
      /\ file' = header ++ dropZ (len header) (old_header ++ old_payload)
                 ++ data
      /\ len header mod 64 = 1
      /\ (len old_header mod 16 = 0 -> len header <> len old_header)
      /\ (forall k, 0 <= k -> len header = len old_header + k ->
            file' = header ++ dropZ k old_payload ++ data)
      /\ (forall T' data' shape',
            npy_save T' (Some file') data' shape' "a"
            = runtime_error
                "Appending to existing fortran-order file not supported").
Proof.
  intros T old_header old_payload data t0 s0 dims ist' Hp Hpos Hd HT Hs Hfit
         header.
  assert (Hmod : len header mod 64 = 1).
  { unfold len. apply npy_header_of_dict_mod64. }
  assert (Hfile : write_at (old_header ++ old_payload) 0 header
                  ++ takeZ (wrap64 (sizeof T * product (s0 :: dims))) data
                  = header ++ dropZ (len header) (old_header ++ old_payload)
                    ++ data).
  { rewrite write_at_start, <- Hd, takeZ_all by lia.
    now rewrite <- app_assoc. }
  exists (header ++ dropZ (len header) (old_header ++ old_payload) ++ data).
  split; [|split; [reflexivity|split; [exact Hmod|split; [|split]]]].
  - rewrite (npy_save_append_ok T _ data t0 s0 dims ist' Hp) by lia.
    fold header. now rewrite Hfile.
  - intros Ha He. rewrite He in Hmod. revert Ha Hmod.
    generalize (len old_header). intros n Ha Hmod.
    Z.div_mod_to_equations. lia.
  - intros k Hk He. rewrite He, dropZ_shift by assumption. reflexivity.
  - intros T' data' shape'. unfold npy_save.
    change (String.eqb "a" "a") with true. cbn iota.
    subst header.
    rewrite parse_npy_header_generated;
      [reflexivity | assumption | | assumption].
    constructor; [apply wrap64_range | assumption].
Qed.

Lemma npy_save_append_rewrites_header_witness :
  exists file',
    npy_save T_short (Some fortran_file_1x3_aligned) (lit "abcdefghijkl")
             [2; 3] "a" = Ok file'
    /\ file' = npy_header_of_dict (npy_dict T_short 3 [3])
               ++ lit "BCDEF" ++ lit "abcdefghijkl"
    /\ (forall T' data' shape',
          npy_save T' (Some file') data' shape' "a"
          = runtime_error
              "Appending to existing fortran-order file not supported").
Proof.
  destruct (npy_save_append_rewrites_header T_short
              (takeZ 128 fortran_file_1x3_aligned) (lit "ABCDEF")
              (lit "abcdefghijkl") 1 2 [3]
              (mk_istream fortran_file_1x3_aligned 128 false 118)
              ltac:(vm_compute; reflexivity) ltac:(vm_compute; reflexivity)
              ltac:(vm_compute; reflexivity) ltac:(discriminate)
              ltac:(repeat constructor; vm_compute; congruence)
              ltac:(vm_compute; reflexivity))
    as (file' & Hsave & _ & _ & _ & Hk & Htwice).
  exists file'. split; [exact Hsave|]. split; [|exact Htwice].
  apply (Hk 1); [lia | vm_compute; reflexivity].
Defined.

(* ================================================================== *)
(** * Further properties of the single-array reader and writer *)

(** [load_the_npy_file] reads from the stream position onwards only: in
    the middle of a larger file it returns what it returns on the rest of
    the file alone, and leaves the stream as far behind the start. *)
Theorem load_the_npy_file_at_position : forall pre s g,
  load_the_npy_file (mk_istream (pre ++ s) (len pre) false g)
  = (fst (load_the_npy_file (open_stream s)),
     shift pre (snd (load_the_npy_file (open_stream s)))).
Proof.
  intros pre s g.
  replace (mk_istream (pre ++ s) (len pre) false g)
    with (shift pre (mk_istream s 0 false g))
    by (unfold shift; cbn [content gpos failbit gcount]; f_equal; lia).
  rewrite load_the_npy_file_shift by (cbn; lia).
  reflexivity.
Qed.

(** The same for the header parser. *)
Theorem parse_npy_header_at_position : forall pre s g,
  parse_npy_header (mk_istream (pre ++ s) (len pre) false g)
  = (fst (parse_npy_header (open_stream s)),
     shift pre (snd (parse_npy_header (open_stream s)))).
Proof.
  intros pre s g.
  replace (mk_istream (pre ++ s) (len pre) false g)
    with (shift pre (mk_istream s 0 false g))
    by (unfold shift; cbn [content gpos failbit gcount]; f_equal; lia).
  rewrite parse_npy_header_shift by (cbn; lia).
  reflexivity.
Qed.

Lemma read_short : forall C pre x g n,
  C = pre ++ x -> len x < n ->
  read (mk_istream C (len pre) false g) n
  = (x, mk_istream C (len pre + len x) true (len x)).
Proof.
  intros C pre x g n -> Hn. unfold read. cbn [failbit gpos content].
  assert (Hs : slice (len pre) n (pre ++ x) = x).
  { unfold slice. rewrite dropZ_app_exact. apply takeZ_all. lia. }
  rewrite Hs. destruct (Z.eqb_spec (len x) n); [lia | reflexivity].
Qed.

(** With room for the array, the loader that can fail to allocate is the
    loader above. *)
Lemma load_the_npy_file_in_enough : forall memory ist,
  (forall ws shp fo ist',
     parse_npy_header ist = (Ok (ws, shp, fo), ist') ->
     wrap64 (product shp * ws) <= memory) ->
  load_the_npy_file_in memory ist = load_the_npy_file ist.
Proof.
  intros memory ist H. unfold load_the_npy_file_in, load_the_npy_file.
  destruct (failbit ist); [reflexivity|].
  destruct (parse_npy_header ist) as [r i1] eqn:P.
  destruct r as [[[ws shp] fo]| | |]; try reflexivity.
  unfold NpyArray_in.
  destruct (Z.ltb_spec memory (wrap64 (product shp * ws))) as [Hlt|_];
    [|reflexivity].
  specialize (H ws shp fo i1 eq_refl). lia.
Qed.

(** A file that holds a generated header and fewer payload bytes than the
    header announces gives no array, and no partly filled one: when the
    program can get a buffer of the announced size, the read into it
    comes up short and [npy_load] throws the read error; when it cannot,
    the constructor throws before anything is read. *)
Theorem npy_load_truncated_payload : forall memory T shape0 shape_tl data,
  supported T ->
  Forall is_size_t (shape0 :: shape_tl) ->
  header_fits (npy_dict T shape0 shape_tl) ->
  len data < wrap64 (sizeof T * product (shape0 :: shape_tl)) ->
  npy_load_in memory
    (Some (npy_header_of_dict (npy_dict T shape0 shape_tl) ++ data))
  = if memory <? wrap64 (sizeof T * product (shape0 :: shape_tl))
    then Throw Alloc_failure
    else runtime_error "load_the_npy_file: failed fread".
Proof.
  intros memory T shape0 shape_tl data HT Hs Hfit Hd.
  unfold npy_load_in, load_the_npy_file_in. cbn [open_stream failbit].
  fold (open_stream (npy_header_of_dict (npy_dict T shape0 shape_tl) ++ data)).
  rewrite parse_npy_header_generated by assumption.
  set (header := npy_header_of_dict _).
  unfold NpyArray_in.
  replace (product (shape0 :: shape_tl) * sizeof T)
    with (sizeof T * product (shape0 :: shape_tl)) by lia.
  destruct (memory <? wrap64 (sizeof T * product (shape0 :: shape_tl)));
    [reflexivity|].
  assert (Hn : num_bytes (new_NpyArray (shape0 :: shape_tl) (sizeof T) false)
               = wrap64 (sizeof T * product (shape0 :: shape_tl))).
  { unfold num_bytes, new_NpyArray. cbn [data_holder].
    rewrite len_fill by apply wrap64_range. f_equal. lia. }
  rewrite Hn.
  rewrite (read_short (header ++ data) header data) by (reflexivity || lia).
  reflexivity.
Qed.

Lemma npy_load_truncated_payload_witness :
  npy_load_in (2 ^ 30)
    (Some (npy_header_of_dict (npy_dict T_short 2 [3]) ++ lit "abcdefghijk"))
  = runtime_error "load_the_npy_file: failed fread".
Proof.
  apply (npy_load_truncated_payload (2 ^ 30) T_short 2 [3]
           (lit "abcdefghijk")).
  - discriminate.
  - repeat constructor; vm_compute; congruence.
  - vm_compute. reflexivity.
  - vm_compute. reflexivity.
Defined.

(** A file that [npy_save] wrote in create mode cannot be appended to:
    its header says ['fortran_order': False], and the append branch throws
    on that before it looks at the element type, the shape or the data of
    the call. *)
Theorem npy_save_append_after_create_throws :
  forall T file data shape0 shape_tl T' data' shape',
    supported T ->
    Forall is_size_t (shape0 :: shape_tl) ->
    header_fits (npy_dict T shape0 shape_tl) ->
    len data = wrap64 (sizeof T * product (shape0 :: shape_tl)) ->
    exists file',
      npy_save T file data (shape0 :: shape_tl) "w" = Ok file'
      /\ npy_save T' (Some file') data' shape' "a"
         = runtime_error
             "Appending to existing fortran-order file not supported".
Proof.
  intros T file data shape0 shape_tl T' data' shape' HT Hs Hfit Hd.
  eexists. split; [now apply npy_save_create|].
  unfold npy_save. change (String.eqb "a" "a") with true. cbn iota.
  rewrite parse_npy_header_generated by assumption. reflexivity.
Qed.

Lemma npy_save_append_after_create_throws_witness :
  exists file',
    npy_save T_short None (lit "abcdefghijkl") [2; 3] "w" = Ok file'
    /\ npy_save T_short (Some file') (lit "mnopqr") [1; 3] "a"
       = runtime_error
           "Appending to existing fortran-order file not supported".
Proof.
  apply (npy_save_append_after_create_throws T_short None
           (lit "abcdefghijkl") 2 [3] T_short (lit "mnopqr") [1; 3]).
  - discriminate.
  - repeat constructor; vm_compute; congruence.
  - vm_compute. reflexivity.
  - reflexivity.
Defined.

(** Outside the append branch (no file at the path, or a mode other than
    ["a"]) [npy_save] writes the header and then exactly
    [sizeof(T) * nels] bytes from the pointer: what the path held before
    and what lies behind those bytes do not reach the file. *)
Theorem npy_save_create_discards : forall T file data shape0 shape_tl mode,
  file = None \/ String.eqb mode "a" = false ->
  wrap64 (sizeof T * product (shape0 :: shape_tl)) <= len data ->
  npy_save T file data (shape0 :: shape_tl) mode
  = Ok (npy_header_of_dict (npy_dict T shape0 shape_tl)
        ++ takeZ (wrap64 (sizeof T * product (shape0 :: shape_tl))) data).
Proof.
  intros T file data shape0 shape_tl mode Hm Hd. unfold npy_save.
  assert (E : match file, String.eqb mode "a" with
              | Some old, true => @Undefined (list Z * list ascii)
              | _, _ => Ok (shape0 :: shape_tl, [])
              end = Ok (shape0 :: shape_tl, [])).
  { destruct Hm as [-> | ->]; [reflexivity | now destruct file]. }
  destruct file as [old|]; [destruct (String.eqb mode "a"); [discriminate E|]|];
    cbn [bind]; rewrite create_npy_header_cons; cbn [bind];
    rewrite raw_bytes_enough by assumption; cbn [bind];
    now rewrite write_at_empty.
Qed.

Lemma npy_save_create_discards_witness :
  npy_save T_char (Some (lit "old content")) (lit "xyz and more") [3] "wb"
  = Ok (npy_header_of_dict (npy_dict T_char 3 [])
        ++ takeZ (wrap64 (sizeof T_char * product [3])) (lit "xyz and more")).
Proof.
  apply (npy_save_create_discards T_char (Some (lit "old content"))
           (lit "xyz and more") 3 [] "wb").
  - right. reflexivity.
  - vm_compute. discriminate.
Defined.

(** The text of a generated header is the dictionary, then at most 63
    blanks, then one newline; when it fits the length field that was
    chosen, the field holds its length. *)
Theorem create_npy_header_text : forall T shape0 shape_tl,
  let dict := npy_dict T shape0 shape_tl in
  let w := if big_header dict then 4 else 2 in
  exists h blanks,
    create_npy_header T (shape0 :: shape_tl) = Ok h
    /\ 0 <= blanks <= 63
    /\ dropZ (8 + w) h = dict ++ fill blanks " " ++ ["010"%char]
    /\ (header_fits dict -> le_value (slice 8 w h) = len (dropZ (8 + w) h)).
Proof.
  intros T shape0 shape_tl dict w.
  pose proof (header_remainder_range dict) as Hr.
  exists (npy_header_of_dict dict), (header_remainder dict - 1).
  split; [apply create_npy_header_cons|].
  split; [lia|].
  unfold npy_header_of_dict, header_fits. subst w.
  destruct (big_header dict).
  - set (pre := (numpy_magic ++ [byte_of_Z 2]) ++ [byte_of_Z 0]).
    assert (E : ((pre ++ le_bytes 4 (wrap32 (len (pad_dict dict))))
                 ++ pad_dict dict)
                = pre ++ le_bytes 4 (wrap32 (len (pad_dict dict)))
                  ++ pad_dict dict) by now rewrite <- app_assoc.
    rewrite E.
    assert (Hd : dropZ (8 + 4) (pre ++ le_bytes 4 (wrap32 (len (pad_dict dict)))
                                ++ pad_dict dict) = pad_dict dict).
    { rewrite app_assoc. apply (dropZ_app_exact
        (pre ++ le_bytes 4 (wrap32 (len (pad_dict dict)))) (pad_dict dict)). }
    rewrite Hd. split; [apply pad_dict_eq|].
    intros Hfit.
    change 8 with (len pre). change 4 with (len (le_bytes 4 (wrap32 (len (pad_dict dict))))) at 1.
    rewrite slice_middle, le_value_le_bytes.
    pose proof (len_nonneg (pad_dict dict)).
    unfold wrap32. change (256 ^ Z.of_nat 4) with (2 ^ 32).
    rewrite Z.mod_mod by lia. apply Z.mod_small. lia.
  - set (pre := (numpy_magic ++ [byte_of_Z 1]) ++ [byte_of_Z 0]).
    assert (E : ((pre ++ le_bytes 2 (wrap16 (len (pad_dict dict))))
                 ++ pad_dict dict)
                = pre ++ le_bytes 2 (wrap16 (len (pad_dict dict)))
                  ++ pad_dict dict) by now rewrite <- app_assoc.
    rewrite E.
    assert (Hd : dropZ (8 + 2) (pre ++ le_bytes 2 (wrap16 (len (pad_dict dict)))
                                ++ pad_dict dict) = pad_dict dict).
    { rewrite app_assoc. apply (dropZ_app_exact
        (pre ++ le_bytes 2 (wrap16 (len (pad_dict dict)))) (pad_dict dict)). }
    rewrite Hd. split; [apply pad_dict_eq|].
    intros Hfit.
    change 8 with (len pre). change 2 with (len (le_bytes 2 (wrap16 (len (pad_dict dict))))) at 1.
    rewrite slice_middle, le_value_le_bytes.
    pose proof (len_nonneg (pad_dict dict)).
    unfold wrap16. change (256 ^ Z.of_nat 2) with (2 ^ 16).
    rewrite Z.mod_mod by lia. apply Z.mod_small. lia.
Qed.

Lemma create_npy_header_text_witness :
  exists h blanks,
    create_npy_header T_double [3] = Ok h
    /\ 0 <= blanks <= 63
    /\ dropZ (8 + 2) h
       = npy_dict T_double 3 [] ++ fill blanks " " ++ ["010"%char]
    /\ le_value (slice 8 2 h) = len (dropZ (8 + 2) h).
Proof.
  destruct (create_npy_header_text T_double 3 [])
    as (h & blanks & H1 & H2 & H3 & H4).
  exists h, blanks. repeat split; try assumption; try lia.
  apply H4. vm_compute. reflexivity.
Defined.

(* ================================================================== *)
(** * What the readers accept *)

Lemma read_got_len : forall ist n got ist',
  read ist n = (got, ist') -> failbit ist' = false ->
  failbit ist = false /\ len got = n /\ got = slice (gpos ist) n (content ist)
  /\ ist' = mk_istream (content ist) (gpos ist + n) false n.
Proof.
  intros ist n got ist' H Hf. unfold read in H.
  destruct (failbit ist) eqn:F.
  - inversion H; subst. discriminate Hf.
  - inversion H; subst. cbn [failbit] in Hf.
    apply negb_false_iff, Z.eqb_eq in Hf.
    split; [reflexivity|]. split; [exact Hf|]. split; [reflexivity|].
    rewrite Hf, Z.eqb_refl. reflexivity.
Qed.

Lemma read_failed_stays : forall ist n,
  failbit ist = true -> failbit (snd (read ist n)) = true.
Proof. intros ist n H. unfold read. now rewrite H. Qed.

Lemma len_slice_exact : forall p n l,
  0 <= p -> 0 <= n -> p + n <= len l -> len (slice p n l) = n.
Proof.
  intros p n l Hp Hn Hl. unfold slice. rewrite takeZ_firstn, dropZ_skipn.
  unfold len in *. rewrite length_firstn, length_skipn. lia.
Qed.

Lemma len_slice_bound : forall p n l, 0 <= n -> len (slice p n l) <= n.
Proof.
  intros p n l Hn. unfold slice. rewrite takeZ_firstn.
  unfold len. rewrite length_firstn. lia.
Qed.

(** A slice of full length splits the buffer around it. *)
Lemma slice_full_split : forall p n l,
  0 <= p -> len (slice p n l) = n ->
  l = takeZ p l ++ slice p n l ++ dropZ (p + n) l.
Proof.
  intros p n l Hp Hl. unfold slice in *.
  rewrite !takeZ_firstn, !dropZ_skipn in *.
  pose proof (len_nonneg (firstn (Z.to_nat n) (skipn (Z.to_nat p) l))).
  replace (Z.to_nat (p + n)) with (Z.to_nat n + Z.to_nat p)%nat by lia.
  rewrite <- skipn_skipn.
  rewrite (firstn_skipn (Z.to_nat n)). now rewrite firstn_skipn.
Qed.

Lemma over_is_magic : forall got,
  len got <= 6 -> over got numpy_magic_length zero = numpy_magic ->
  got = numpy_magic.
Proof.
  intros got Hl H. unfold over, fill, numpy_magic_length in H.
  destruct (Z.eq_dec (len got) 6) as [E|E].
  - rewrite E in H. cbn in H. now rewrite app_nil_r in H.
  - exfalso.
    assert (Hn : nth 5 (got ++ repeat zero (Z.to_nat (6 - len got))) zero
                 = zero).
    { unfold len in *. rewrite app_nth2 by lia. apply nth_repeat. }
    rewrite H in Hn. discriminate Hn.
Qed.

(** A stream whose first six bytes are not the magic string, a shorter
    stream included, is refused with the magic error, whatever follows.
    [npy_load] passes the error on, and so does [npy_save] in append
    mode, which then writes nothing. *)
Theorem parse_npy_header_bad_magic : forall bytes,
  slice 0 6 bytes <> numpy_magic ->
  fst (parse_npy_header (open_stream bytes))
  = runtime_error "Not a Numpy file as magic number does not match"
  /\ npy_load (Some bytes)
     = runtime_error "Not a Numpy file as magic number does not match"
  /\ (forall T data shape,
        npy_save T (Some bytes) data shape "a"
        = runtime_error "Not a Numpy file as magic number does not match").
Proof.
  intros bytes Hm.
  assert (Hp : fst (parse_npy_header (open_stream bytes))
               = runtime_error "Not a Numpy file as magic number does not match").
  { unfold parse_npy_header, open_stream, read.
    cbn [failbit gpos content].
    destruct (chars_eqb _ numpy_magic) eqn:E; [|reflexivity].
    exfalso. apply Hm. apply chars_eqb_eq in E.
    apply over_is_magic; [|exact E].
    apply len_slice_bound. unfold numpy_magic_length. lia. }
  split; [exact Hp|]. split.
  - unfold npy_load, load_the_npy_file. cbn [open_stream failbit].
    fold (open_stream bytes).
    destruct (parse_npy_header (open_stream bytes)) as [r i]. cbn [fst] in *.
    now rewrite Hp.
  - intros T data shape. unfold npy_save.
    change (String.eqb "a" "a") with true. cbv iota. now rewrite Hp.
Qed.

Lemma parse_npy_header_bad_magic_witness :
  fst (parse_npy_header (open_stream (lit "PK" ++ fortran_file_1x3)))
  = runtime_error "Not a Numpy file as magic number does not match"
  /\ npy_load (Some (lit "PK" ++ fortran_file_1x3))
     = runtime_error "Not a Numpy file as magic number does not match"
  /\ (forall T data shape,
        npy_save T (Some (lit "PK" ++ fortran_file_1x3)) data shape "a"
        = runtime_error "Not a Numpy file as magic number does not match").
Proof.
  apply (parse_npy_header_bad_magic (lit "PK" ++ fortran_file_1x3)).
  vm_compute. discriminate.
Defined.

Lemma dropZ_split : forall p n (l : list ascii),
  0 <= p -> len (slice p n l) = n ->
  dropZ p l = slice p n l ++ dropZ (p + n) l.
Proof.
  intros p n l Hp Hl. unfold slice in *.
  rewrite !takeZ_firstn, !dropZ_skipn in *.
  pose proof (len_nonneg (firstn (Z.to_nat n) (skipn (Z.to_nat p) l))).
  replace (Z.to_nat (p + n)) with (Z.to_nat n + Z.to_nat p)%nat by lia.
  rewrite <- skipn_skipn. now rewrite (firstn_skipn (Z.to_nat n)).
Qed.

Lemma len_one : forall (l : list ascii), len l = 1 -> exists c, l = [c].
Proof.
  intros [|c [|d l]] H; unfold len in H; simpl in H; try lia.
  now exists c.
Qed.

(** [parse_npy_header] returns metadata only for a stream that is laid out
    as the format says: the magic, a version byte 1 with a 2-byte length
    or 2 with a 4-byte length, a minor version 0, and a non-empty text of
    exactly the announced length that ends in a newline; the metadata is
    what the text scan finds in that text. *)
Theorem parse_npy_header_accepts_only : forall bytes r,
  fst (parse_npy_header (open_stream bytes)) = Ok r ->
  exists major minor lf text rest,
    bytes = numpy_magic ++ [major; minor] ++ lf ++ text ++ rest
    /\ Z_of_byte minor = 0
    /\ ((Z_of_byte major = 1 /\ len lf = 2)
        \/ (Z_of_byte major = 2 /\ len lf = 4))
    /\ len text = le_value lf
    /\ 1 <= len text
    /\ last text zero = "010"%char
    /\ parse_header_text text = Ok r.
Proof.
  intros bytes r H. unfold parse_npy_header in H.
  destruct (read (open_stream bytes) numpy_magic_length) as [g1 i1] eqn:R1.
  destruct (chars_eqb (over g1 numpy_magic_length zero) numpy_magic) eqn:M;
    cbn [negb] in H; [|discriminate H].
  destruct (read i1 1) as [g2 i2] eqn:R2.
  destruct (read i2 1) as [g3 i3] eqn:R3.
  rewrite !le_value_over in H.
  assert (Htail : forall w i4 g4,
            read i3 w = (g4, i4) -> 0 <= w ->
            fst (read_header_text i4 (le_value (over g4 4 zero))) = Ok r ->
            exists major minor text rest,
              bytes = numpy_magic ++ [major; minor] ++ g4 ++ text ++ rest
              /\ g2 = [major] /\ g3 = [minor] /\ len g4 = w
              /\ len text = le_value g4 /\ 1 <= len text
              /\ last text zero = "010"%char
              /\ parse_header_text text = Ok r).
  { intros w i4 g4 R4 Hw Hr. unfold read_header_text, runtime_error in Hr.
    destruct (failbit i4) eqn:F4; [discriminate Hr|].
    rewrite le_value_over in Hr.
    destruct (read i4 (le_value g4)) as [header i5] eqn:R5.
    destruct (failbit i5) eqn:F5; [discriminate Hr|]. cbn [orb] in Hr.
    destruct (negb (gcount i5 =? le_value g4)); [discriminate Hr|].
    destruct (Z.eqb_spec (le_value g4) 0) as [Z0|Z0]; [discriminate Hr|].
    destruct (negb (Ascii.eqb (last header zero) "010")) eqn:NL;
      [discriminate Hr|].
    cbn [fst] in Hr.
    apply negb_false_iff, Ascii.eqb_eq in NL.
    destruct (read_got_len _ _ _ _ R4 F4) as (F3 & L4 & E4 & I4).
    destruct (read_got_len _ _ _ _ R3 F3) as (F2 & L3 & E3 & I3).
    destruct (read_got_len _ _ _ _ R2 F2) as (F1 & L2 & E2 & I2).
    destruct (read_got_len _ _ _ _ R1 F1) as (_ & L1 & E1 & I1).
    destruct (read_got_len _ _ _ _ R5 F5) as (_ & L5 & E5 & _).
    cbn [open_stream gpos content] in *.
    rewrite I1 in *. cbn [gpos content] in *.
    rewrite I2 in *. cbn [gpos content] in *.
    rewrite I3 in *. cbn [gpos content] in *.
    rewrite I4 in *. cbn [gpos content] in *.
    unfold numpy_magic_length in *.
    assert (G1 : g1 = numpy_magic).
    { apply over_is_magic; [lia | now apply chars_eqb_eq]. }
    destruct (len_one g2 L2) as [major G2].
    destruct (len_one g3 L3) as [minor G3].
    pose proof (len_nonneg header) as Hh.
    exists major, minor, header, (dropZ (0 + 6 + 1 + 1 + w + le_value g4) bytes).
    split; [|repeat split; auto; lia].
    rewrite <- (dropZ_0 bytes) at 1.
    rewrite (dropZ_split 0 6 bytes) by (lia || (rewrite <- E1; exact L1)).
    rewrite <- E1, G1.
    rewrite (dropZ_split (0 + 6) 1 bytes) by (lia || (rewrite <- E2; exact L2)).
    rewrite <- E2, G2.
    rewrite (dropZ_split (0 + 6 + 1) 1 bytes)
      by (lia || (rewrite <- E3; exact L3)).
    rewrite <- E3, G3.
    rewrite (dropZ_split (0 + 6 + 1 + 1) w bytes)
      by (lia || (rewrite <- E4; exact L4)).
    rewrite <- E4.
    rewrite (dropZ_split (0 + 6 + 1 + 1 + w) (le_value g4) bytes)
      by (lia || (rewrite <- E5; exact L5)).
    rewrite <- E5. reflexivity. }
  destruct ((le_value g2 =? 1) && (le_value g3 =? 0)) eqn:V1.
  - destruct (read i3 2) as [g4 i4] eqn:R4.
    destruct (Htail 2 i4 g4 R4 ltac:(lia) H)
      as (major & minor & text & rest & Hb & G2 & G3 & L4 & Ht & Hp & Hl & Hx).
    apply andb_true_iff in V1 as [V1 V2].
    apply Z.eqb_eq in V1, V2. subst g2 g3.
    rewrite le_value_single in V1, V2.
    exists major, minor, g4, text, rest. repeat split; auto.
  - destruct ((le_value g2 =? 2) && (le_value g3 =? 0)) eqn:V2;
      [|discriminate H].
    destruct (read i3 4) as [g4 i4] eqn:R4.
    destruct (Htail 4 i4 g4 R4 ltac:(lia) H)
      as (major & minor & text & rest & Hb & G2 & G3 & L4 & Ht & Hp & Hl & Hx).
    apply andb_true_iff in V2 as [V2 V3].
    apply Z.eqb_eq in V2, V3. subst g2 g3.
    rewrite le_value_single in V2, V3.
    exists major, minor, g4, text, rest. repeat split; auto.
Qed.

Lemma parse_npy_header_accepts_only_witness :
  exists major minor lf text rest,
    fortran_file_1x3 = numpy_magic ++ [major; minor] ++ lf ++ text ++ rest
    /\ Z_of_byte minor = 0
    /\ ((Z_of_byte major = 1 /\ len lf = 2)
        \/ (Z_of_byte major = 2 /\ len lf = 4))
    /\ len text = le_value lf
    /\ 1 <= len text
    /\ last text zero = "010"%char
    /\ parse_header_text text = Ok (2, [1; 3], true).
Proof.
  apply (parse_npy_header_accepts_only fortran_file_1x3 (2, [1; 3], true)).
  vm_compute. reflexivity.
Defined.

Lemma digits_value_nonneg : forall s acc, 0 <= acc -> 0 <= digits_value acc s.
Proof.
  induction s as [|c s IH]; intros acc Ha; cbn [digits_value]; [assumption|].
  destruct (is_digit c) eqn:D; [|assumption].
  apply IH. unfold is_digit in D. apply andb_true_iff in D as [D _].
  apply Z.leb_le in D. lia.
Qed.

Lemma stoul_size_t : forall s v, stoul s = Ok v -> is_size_t v.
Proof.
  intros s v H. unfold stoul in H.
  destruct (match skip_space s with
            | [] => (false, skip_space s)
            | c :: r => _
            end) as [neg t].
  destruct t as [|c t]; [discriminate H|].
  destruct (is_digit c); [|discriminate H].
  destruct (Z.ltb_spec ULONG_MAX (digits_value 0 (c :: t))) as [|Hle];
    [discriminate H|].
  assert (Hv : v = if neg then wrap64 (- digits_value 0 (c :: t))
                   else digits_value 0 (c :: t))
    by (injection H as <-; reflexivity).
  rewrite Hv. unfold is_size_t.
  destruct neg; [apply wrap64_range|].
  pose proof (digits_value_nonneg (c :: t) 0 ltac:(lia)).
  unfold ULONG_MAX in Hle. lia.
Qed.

Lemma shape_loop_size_t : forall fuel s acc shp,
  Forall is_size_t acc -> shape_loop fuel s acc = Ok shp ->
  Forall is_size_t shp.
Proof.
  induction fuel as [|fuel IH]; intros s acc shp Ha H; [discriminate H|].
  cbn [shape_loop] in H.
  destruct (regex_search_num s) as [[m suffix]|];
    [|inversion H; subst; assumption].
  destruct (stoul m) as [v| | |] eqn:E; cbn [bind] in H; try discriminate H.
  apply IH in H; [assumption|].
  apply Forall_app. split; [assumption|].
  constructor; [|constructor]. eapply stoul_size_t; eassumption.
Qed.

(** What a header text must have for [parse_header_text] to return: the
    words [fortran_order] and [descr], an opening and a closing
    parenthesis, and the character [<] or [|] nine places after the
    start of [descr]; a big-endian text is never accepted.  The order
    flag is true exactly when the four characters sixteen places after
    the start of [fortran_order] are [True], and the word size and every
    dimension are [size_t] values. *)
Theorem parse_header_text_accepts_only : forall header ws shp fo,
  parse_header_text header = Ok (ws, shp, fo) ->
  exists lf lo lc ld c fo_text,
    find header (lit "fortran_order") = Some lf
    /\ find header (lit "(") = Some lo
    /\ find header (lit ")") = Some lc
    /\ find header (lit "descr") = Some ld
    /\ char_at header (ld + 9) = Ok c
    /\ (c = "<"%char \/ c = "|"%char)
    /\ substr header (lf + 16) 4 = Ok fo_text
    /\ fo = chars_eqb fo_text (lit "True")
    /\ is_size_t ws
    /\ Forall is_size_t shp.
Proof.
  intros header ws shp fo H. unfold parse_header_text, runtime_error in H.
  destruct (find header (lit "fortran_order")) as [lf|]; [|discriminate H].
  destruct (substr header (lf + 16) 4) as [fo_text| | |] eqn:Hfo;
    cbn [bind] in H; try discriminate H.
  destruct (find header (lit "(")) as [lo|]; [|discriminate H].
  destruct (find header (lit ")")) as [lc|]; [|discriminate H].
  destruct (substr header (lo + 1) _) as [str_shape| | |];
    cbn [bind] in H; try discriminate H.
  destruct (shape_loop _ str_shape []) as [shape| | |] eqn:Hshape;
    cbn [bind] in H; try discriminate H.
  destruct (find header (lit "descr")) as [ld|]; [|discriminate H].
  destruct (char_at header (ld + 9)) as [c| | |] eqn:Hc;
    cbn [bind] in H; try discriminate H.
  destruct (Ascii.eqb c "<" || Ascii.eqb c "|") eqn:Hend;
    cbn [negb] in H; [|discriminate H].
  destruct (substr_from header (ld + 9 + 2)) as [str_ws| | |];
    cbn [bind] in H; try discriminate H.
  destruct (stoul _) as [word_size| | |] eqn:Hws;
    cbn [bind] in H; try discriminate H.
  inversion H; subst.
  exists lf, lo, lc, ld, c, fo_text.
  repeat split; try reflexivity; try assumption.
  - apply orb_true_iff in Hend as [E|E]; apply Ascii.eqb_eq in E; auto.
  - apply (stoul_size_t _ _ Hws).
  - apply (stoul_size_t _ _ Hws).
  - apply (shape_loop_size_t _ _ [] shp (Forall_nil _) Hshape).
Qed.

Lemma parse_header_text_accepts_only_witness :
  exists lf lo lc ld c fo_text,
    find fortran_text_1x3 (lit "fortran_order") = Some lf
    /\ find fortran_text_1x3 (lit "(") = Some lo
    /\ find fortran_text_1x3 (lit ")") = Some lc
    /\ find fortran_text_1x3 (lit "descr") = Some ld
    /\ char_at fortran_text_1x3 (ld + 9) = Ok c
    /\ (c = "<"%char \/ c = "|"%char)
    /\ substr fortran_text_1x3 (lf + 16) 4 = Ok fo_text
    /\ true = chars_eqb fo_text (lit "True")
    /\ is_size_t 2
    /\ Forall is_size_t [1; 3].
Proof.
  apply (parse_header_text_accepts_only fortran_text_1x3 2 [1; 3] true).
  vm_compute. reflexivity.
Defined.

(* ================================================================== *)
(** * What every loaded array satisfies *)

Lemma new_NpyArray_invariant : forall shp ws fo got,
  len got = num_bytes (new_NpyArray shp ws fo) ->
  array_invariant (set_data (new_NpyArray shp ws fo) got).
Proof.
  intros shp ws fo got H. unfold array_invariant, set_data, num_bytes in *.
  cbn [new_NpyArray num_vals shape word_size data_holder] in *.
  split; [reflexivity|]. rewrite H. apply len_fill. apply wrap64_range.
Qed.

Lemma load_the_npy_file_invariant : forall ist arr ist',
  load_the_npy_file ist = (Ok arr, ist') -> array_invariant arr.
Proof.
  intros ist arr ist' H. unfold load_the_npy_file, runtime_error in H.
  destruct (failbit ist); [discriminate H|].
  destruct (parse_npy_header ist) as [r i1].
  destruct r as [[[ws shp] fo]| | |]; try discriminate H.
  destruct (read i1 (num_bytes (new_NpyArray shp ws fo))) as [got i2] eqn:R.
  destruct (failbit i2) eqn:F; [discriminate H|]. cbn [orb] in H.
  destruct (negb (gcount i2 =? num_bytes (new_NpyArray shp ws fo)));
    [discriminate H|].
  inversion H; subst. apply new_NpyArray_invariant.
  now destruct (read_got_len _ _ _ _ R F) as (_ & L & _).
Qed.

(** An array that [npy_load] returns has as many elements as the product
    of its dimensions, computed in [size_t], and its payload is exactly
    [num_vals * word_size] bytes, again in [size_t]. *)
Theorem npy_load_array_invariant : forall file arr,
  npy_load file = Ok arr -> array_invariant arr.
Proof.
  intros [bytes|] arr H; [|discriminate H]. unfold npy_load in H.
  destruct (load_the_npy_file (open_stream bytes)) as [r i] eqn:L.
  cbn [fst] in H. subst r. eapply load_the_npy_file_invariant; eassumption.
Qed.

Lemma npy_load_array_invariant_witness :
  array_invariant
    (mk_NpyArray (lit "ABCDEF") [1; 3] 2 true 3).
Proof.
  apply (npy_load_array_invariant (Some fortran_file_1x3)).
  vm_compute. reflexivity.
Defined.

Section ArchiveArrays.

Variable zlib_inflate : list ascii -> Z -> inflate_run.

Lemma load_the_npz_array_invariant : forall ist c u arr ist',
  load_the_npz_array zlib_inflate ist c u = (Ok arr, ist') ->
  array_invariant arr.
Proof.
  intros ist c u arr ist' H. unfold load_the_npz_array, runtime_error in H.
  destruct (read ist c) as [buf i1].
  destruct (failbit i1 || negb (gcount i1 =? c)); [discriminate H|].
  destruct (negb (init_ret (zlib_inflate buf u) =? Z_OK)); [discriminate H|].
  destruct (negb (inflate_ret (zlib_inflate buf u) =? Z_OK));
    [discriminate H|].
  destruct (negb (end_ret (zlib_inflate buf u) =? Z_OK)); [discriminate H|].
  cbv zeta in H.
  destruct (fst (parse_npy_header (open_stream _))) as [[[ws shp] fo]| | |];
    try discriminate H.
  match type of H with
  | (if ?c then _ else _) = _ => destruct c eqn:E; [discriminate H|]
  end.
  inversion H; subst. apply new_NpyArray_invariant.
  apply Z.ltb_ge in E.
  apply len_slice_exact; [apply wrap64_range | apply len_nonneg | exact E].
Qed.

Lemma npz_assign_Forall : forall (P : list ascii * NpyArray -> Prop)
                                 arrays varname arr,
  (forall k, P (k, arr)) -> Forall P arrays ->
  Forall P (npz_assign arrays varname arr).
Proof.
  intros P arrays varname arr Hp. induction 1 as [|[k a] rest Hk Hr IH].
  - cbn [npz_assign]. constructor; [apply Hp | constructor].
  - cbn [npz_assign]. destruct (chars_eqb k varname).
    + constructor; [apply Hp | assumption].
    + constructor; assumption.
Qed.

Lemma npz_load_loop_invariant : forall fuel ist arrays result,
  Forall (fun p => array_invariant (snd p)) arrays ->
  npz_load_loop zlib_inflate fuel ist arrays = Ok result ->
  Forall (fun p => array_invariant (snd p)) result.
Proof.
  induction fuel as [|fuel IH]; intros ist arrays result Ha H;
    [discriminate H|].
  cbn [npz_load_loop] in H. unfold runtime_error in H.
  destruct (failbit ist); [inversion H; subst; assumption|].
  destruct (read ist zip_header_length) as [lh i1].
  destruct (failbit i1 || negb (gcount i1 =? zip_header_length));
    [discriminate H|].
  match type of H with
  | (if ?c then _ else _) = _ =>
      destruct c; [inversion H; subst; assumption|]
  end.
  destruct (read i1 (field lh 26 2)) as [name i2].
  destruct (failbit i2 || negb (gcount i2 =? field lh 26 2));
    [discriminate H|].
  match type of H with
  | (let '(_, _) := ?e in _) = _ => destruct e as [ok i3]
  end.
  destruct (negb ok); [discriminate H|].
  match type of H with
  | (let '(_, _) := ?e in _) = _ => destruct e as [r i4] eqn:L
  end.
  destruct r as [arr| | |]; cbn [bind] in H; try discriminate H.
  apply IH in H; [assumption|].
  apply npz_assign_Forall; [|assumption].
  intros k. cbn [snd].
  destruct (field lh 8 2 =? 0).
  - eapply load_the_npy_file_invariant; eassumption.
  - eapply load_the_npz_array_invariant; eassumption.
Qed.

(** Every array of an archive that [npz_load] returns, stored or
    deflated, has [num_vals] equal to the product of its dimensions and
    a payload of exactly [num_vals * word_size] bytes (both in
    [size_t]). *)
Theorem npz_load_arrays_invariant : forall file arrays,
  npz_load zlib_inflate file = Ok arrays ->
  Forall (fun p => array_invariant (snd p)) arrays.
Proof.
  intros [bytes|] arrays H; [|discriminate H]. unfold npz_load in H.
  eapply npz_load_loop_invariant; [|exact H]. constructor.
Qed.

End ArchiveArrays.

Lemma npz_load_arrays_invariant_witness :
  Forall (fun p => array_invariant (snd p)) loaded_ab.
Proof.
  apply (npz_load_arrays_invariant copy_inflate (Some archive_ab)).
  vm_compute. reflexivity.
Defined.

(* ================================================================== *)
(** * The archive locator, and what an append leaves alone *)

(** The locator that [npz_save] writes is accepted by [parse_zip_footer],
    whatever precedes it; the reader gets the count, the directory size
    and the directory offset as the writer truncated them to 16, 32 and
    32 bits. *)
Theorem parse_zip_footer_of_zip_footer : forall pre nrecs size offset,
  parse_zip_footer (pre ++ zip_footer nrecs size offset)
  = Ok ((nrecs + 1) mod 2 ^ 16, size mod 2 ^ 32, offset mod 2 ^ 32).
Proof. intros. apply parse_zip_footer_written. Qed.

Lemma slice_app_shift : forall (a b : list ascii) i n,
  0 <= i -> slice (len a + i) n (a ++ b) = slice i n b.
Proof. intros a b i n Hi. unfold slice. now rewrite dropZ_shift. Qed.

(** [parse_zip_footer] never looks at the first four bytes of the
    locator, nor at anything before the last 22 bytes of the file: two
    files whose last 18 bytes agree get the same answer. *)
Theorem parse_zip_footer_ignores_signature :
  forall pre pre' sig sig' rest,
    len sig = 4 -> len sig' = 4 -> len rest = 18 ->
    parse_zip_footer (pre ++ sig ++ rest)
    = parse_zip_footer (pre' ++ sig' ++ rest).
Proof.
  assert (H : forall pre sig rest,
            len sig = 4 -> len rest = 18 ->
            parse_zip_footer (pre ++ sig ++ rest)
            = parse_zip_footer (fill 4 zero ++ rest)).
  { intros pre sig rest Hs Hr. unfold parse_zip_footer, zip_footer_length.
    pose proof (len_nonneg pre) as Hp.
    rewrite !len_app, Hs, Hr.
    rewrite len_fill by lia.
    destruct (Z.ltb_spec (len pre + (4 + 18)) 22) as [?|_]; [lia|].
    change (4 + 18 <? 22) with false. cbv iota.
    replace (len pre + (4 + 18) - 22) with (len pre) by lia.
    change (4 + 18 - 22) with 0.
    rewrite dropZ_app_exact, dropZ_0.
    assert (G : forall (a : list ascii) i n, len a = 4 -> 0 <= i ->
              field (a ++ rest) (4 + i) n = field rest i n).
    { intros a i n Ha Hi. unfold field. rewrite <- Ha.
      now rewrite slice_app_shift by assumption. }
    assert (F : forall j n, 4 <= j ->
              field (sig ++ rest) j n = field (fill 4 zero ++ rest) j n).
    { intros j n Hj. replace j with (4 + (j - 4)) by lia.
      rewrite !G; auto; lia. }
    rewrite (F 4 2), (F 6 2), (F 8 2), (F 10 2), (F 12 4), (F 16 4), (F 20 2)
      by lia.
    reflexivity. }
  intros pre pre' sig sig' rest Hs Hs' Hr.
  rewrite (H pre sig rest), (H pre' sig' rest) by assumption. reflexivity.
Qed.

Lemma parse_zip_footer_ignores_signature_witness :
  parse_zip_footer (lit "abc" ++ lit "PK" ++ le_bytes 2 (wrap16 1541)
                    ++ fill 18 zero)
  = parse_zip_footer ([] ++ lit "none" ++ fill 18 zero).
Proof.
  apply (parse_zip_footer_ignores_signature (lit "abc") []
           (lit "PK" ++ le_bytes 2 (wrap16 1541)) (lit "none")
           (fill 18 zero)); reflexivity.
Defined.

Section ArchiveEdges.

Variable crc32 : Z -> list ascii -> Z.
Variable zlib_inflate : list ascii -> Z -> inflate_run.

(** A file of fewer than 30 bytes is not an archive for [npz_load]: the
    first header read comes up short and the call throws.  This includes
    the empty file and an archive that holds no entry, which is only its
    22-byte locator. *)
Theorem npz_load_short_file : forall bytes,
  len bytes < zip_header_length ->
  npz_load zlib_inflate (Some bytes) = runtime_error "Failed reading header".
Proof.
  intros bytes H. unfold npz_load, open_stream.
  cbn [npz_load_loop failbit].
  change 0 with (len (@nil ascii)) at 1.
  rewrite (read_short bytes [] bytes) by (reflexivity || assumption).
  reflexivity.
Qed.

(** Appending to a file of fewer than 22 bytes throws the locator read
    error, before the header of the new array is built. *)
Theorem npz_save_append_short_file : forall T old key data shape,
  len old < zip_footer_length ->
  npz_save crc32 T (Some old) key data shape "a"
  = runtime_error "parse_zip_footer: failed to read footer".
Proof.
  intros T old key data shape H. unfold npz_save, parse_zip_footer.
  change (String.eqb "a" "a") with true. cbv iota.
  apply Z.ltb_lt in H. rewrite H. reflexivity.
Qed.

(** Appending to a file whose locator announces a directory that runs
    past the end of the file throws, and nothing is written. *)
Theorem npz_save_append_directory_past_end :
  forall T old key data shape nrecs size offset,
    parse_zip_footer old = Ok (nrecs, size, offset) ->
    0 < size -> 0 <= offset -> len old < offset + size ->
    npz_save crc32 T (Some old) key data shape "a"
    = runtime_error
        "npz_save: header read error while adding to existing zip".
Proof.
  intros T old key data shape nrecs size offset Hp Hs Ho Hl.
  unfold npz_save. change (String.eqb "a" "a") with true. cbv iota.
  rewrite Hp. cbn [bind].
  assert (Hlt : len (slice offset size old) < size).
  { unfold slice. rewrite takeZ_firstn, dropZ_skipn. unfold len in *.
    rewrite length_firstn, length_skipn. lia. }
  destruct (Z.eqb_spec (len (slice offset size old)) size) as [E|_]; [lia|].
  reflexivity.
Qed.

(** An append that succeeds leaves every byte before the directory
    offset of the old locator as it was: the entries already in the
    archive are not rewritten. *)
Theorem npz_save_append_keeps_entries :
  forall T old key data shape nrecs size offset file',
    parse_zip_footer old = Ok (nrecs, size, offset) ->
    0 <= offset <= len old ->
    npz_save crc32 T (Some old) key data shape "a" = Ok file' ->
    takeZ offset file' = takeZ offset old.
Proof.
  intros T old key data shape nrecs size offset file' Hp Ho H.
  unfold npz_save in H. change (String.eqb "a" "a") with true in H.
  cbv iota in H. rewrite Hp in H. cbn [bind] in H.
  destruct (negb (len (slice offset size old) =? size)); [discriminate H|].
  cbn [bind] in H.
  destruct (create_npy_header T shape) as [npy_header| | |];
    try discriminate H. cbn [bind] in H.
  destruct (raw_bytes data _) as [bytes| | |]; try discriminate H.
  cbn [bind] in H. inversion H as [E]. clear H E.
  unfold write_at.
  assert (Hl : len (takeZ offset old) = offset).
  { rewrite takeZ_firstn. unfold len in *. rewrite length_firstn. lia. }
  rewrite <- Hl at 1. apply takeZ_app_exact.
Qed.

End ArchiveEdges.

Lemma npz_load_short_file_witness :
  npz_load copy_inflate (Some (zip_footer 0 0 0))
  = runtime_error "Failed reading header".
Proof.
  apply (npz_load_short_file copy_inflate (zip_footer 0 0 0)). reflexivity.
Defined.

Lemma npz_save_append_short_file_witness :
  npz_save length_crc T_char (Some (lit "PK")) (lit "a") (lit "xyz") [3] "a"
  = runtime_error "parse_zip_footer: failed to read footer".
Proof.
  apply (npz_save_append_short_file length_crc T_char (lit "PK")).
  reflexivity.
Defined.

Lemma npz_save_append_directory_past_end_witness :
  npz_save length_crc T_char (Some dangling_locator) (lit "a") (lit "xyz")
           [3] "a"
  = runtime_error "npz_save: header read error while adding to existing zip".
Proof.
  apply (npz_save_append_directory_past_end length_crc T_char
           dangling_locator (lit "a") (lit "xyz") [3] 1 100 0);
    [reflexivity | lia | lia | vm_compute; reflexivity].
Defined.

Lemma npz_save_append_keeps_entries_witness :
  takeZ 176 archive_ab = takeZ 176 archive_a.
Proof.
  apply (npz_save_append_keeps_entries length_crc T_char archive_a
           (lit "bb") (lit "xyz") [3] 1 51 176 archive_ab).
  - vm_compute. reflexivity.
  - split; [lia|]. vm_compute. discriminate.
  - vm_compute. reflexivity.
Defined.

(* ================================================================== *)
(** * Saving arrays to an archive and loading them back *)

Lemma load_the_npy_file_gcount : forall C p g,
  load_the_npy_file (mk_istream C p false g)
  = load_the_npy_file (mk_istream C p false 0).
Proof. reflexivity. Qed.

(** Loading from a stream that stands at a generated header followed by
    the payload, inside a larger file. *)
Lemma load_the_npy_file_generated_at : forall pre T shape0 shape_tl data rest g,
  supported T ->
  Forall is_size_t (shape0 :: shape_tl) ->
  header_fits (npy_dict T shape0 shape_tl) ->
  len data = wrap64 (product (shape0 :: shape_tl) * sizeof T) ->
  let header := npy_header_of_dict (npy_dict T shape0 shape_tl) in
  let C := pre ++ header ++ data ++ rest in
  load_the_npy_file (mk_istream C (len pre) false g)
  = (Ok (mk_NpyArray data (shape0 :: shape_tl) (sizeof T) false
                     (product (shape0 :: shape_tl))),
     mk_istream C (len pre + len header + len data) false (len data)).
Proof.
  intros pre T shape0 shape_tl data rest g HT Hs Hfit Hd header C.
  rewrite load_the_npy_file_gcount.
  replace (mk_istream C (len pre) false 0)
    with (shift pre (open_stream (header ++ data ++ rest)))
    by (unfold shift, open_stream; cbn [content gpos failbit gcount];
        f_equal; lia).
  rewrite load_the_npy_file_shift by (cbn; lia).
  unfold load_the_npy_file. cbn [open_stream failbit].
  fold (open_stream (header ++ data ++ rest)).
  subst header. rewrite parse_npy_header_generated by assumption.
  set (header := npy_header_of_dict _).
  assert (Hn : num_bytes (new_NpyArray (shape0 :: shape_tl) (sizeof T) false)
               = len data).
  { unfold num_bytes, new_NpyArray. cbn [data_holder].
    rewrite len_fill by apply wrap64_range. now rewrite Hd. }
  rewrite Hn.
  rewrite (read_split (header ++ data ++ rest) header data rest);
    [| reflexivity | reflexivity | reflexivity ].
  cbn [failbit gcount fst snd]. rewrite Z.eqb_refl. cbn [negb orb fst snd].
  unfold shift, set_data, new_NpyArray.
  cbn [content gpos failbit gcount shape word_size fortran_order num_vals].
  f_equal. f_equal. lia.
Qed.

Lemma erase_npy_suffix_name : forall key,
  erase_npy_suffix (key ++ lit ".npy") = key.
Proof.
  intros key. unfold erase_npy_suffix. rewrite len_app.
  change (len (lit ".npy")) with 4. pose proof (len_nonneg key).
  destruct (Z.leb_spec 4 (len key + 4)); [|lia].
  replace (len key + 4 - 4) with (len key) by lia. apply takeZ_app_exact.
Qed.

Section ArchiveRoundTrip.

Variable crc32 : Z -> list ascii -> Z.
Variable zlib_inflate : list ascii -> Z -> inflate_run.

(** The scan of [npz_load] over the block that [npz_save] wrote for one
    entry: the array is stored under the key and the scan goes on behind
    the payload. *)
Lemma npz_load_loop_saved_entry : forall e fuel pre rest arrays g,
  entry_ok e ->
  let C := pre ++ entry_block crc32 e ++ rest in
  npz_load_loop zlib_inflate (S fuel) (mk_istream C (len pre) false g) arrays
  = npz_load_loop zlib_inflate fuel
      (mk_istream C (len pre + len (entry_block crc32 e)) false
                  (len (e_data e)))
      (npz_assign arrays (e_key e) (entry_array e)).
Proof.
  intros e fuel pre rest arrays g (HT & Hs & Hfit & Hd & Hk) C.
  pose proof (len_nonneg (entry_name e)) as Hk0.
  subst C. unfold entry_block, entry_header.
  set (crc := wrap32 (crc32 _ _)).
  set (nbytes := wrap64 _).
  rewrite zip_local_header_eq.
  set (fields := le_bytes 2 20 ++ _).
  set (block := lit "PK" ++ le_bytes 2 (wrap16 1027) ++ fields).
  set (C := pre ++ ((block ++ entry_name e) ++ entry_npy_header e ++ e_data e)
            ++ rest).
  assert (HC : C = pre ++ block ++ entry_name e ++ []
                   ++ (entry_npy_header e ++ e_data e ++ rest)).
  { subst C block. cbn [app]. repeat rewrite <- app_assoc. reflexivity. }
  assert (Hl : len block = 30).
  { subst block fields. repeat rewrite len_app. repeat rewrite len_le_bytes.
    reflexivity. }
  assert (Hname : field block 26 2 = len (entry_name e)).
  { rewrite (field_at block
               (lit "PK" ++ le_bytes 2 (wrap16 1027) ++ le_bytes 2 20
                ++ le_bytes 2 0 ++ le_bytes 2 0 ++ le_bytes 2 0
                ++ le_bytes 2 0 ++ le_bytes 4 (wrap32 crc)
                ++ le_bytes 4 (wrap32 nbytes) ++ le_bytes 4 (wrap32 nbytes))
               2 (wrap16 (len (entry_name e))) (le_bytes 2 0) 26 2);
      [| subst block fields; repeat rewrite <- app_assoc; reflexivity
       | repeat rewrite len_app; repeat rewrite len_le_bytes; reflexivity
       | reflexivity ].
    rewrite wrap16_small by lia. apply Z.mod_small. lia. }
  assert (Hextra : field block 28 2 = 0).
  { rewrite (field_at block
               (lit "PK" ++ le_bytes 2 (wrap16 1027) ++ le_bytes 2 20
                ++ le_bytes 2 0 ++ le_bytes 2 0 ++ le_bytes 2 0
                ++ le_bytes 2 0 ++ le_bytes 4 (wrap32 crc)
                ++ le_bytes 4 (wrap32 nbytes) ++ le_bytes 4 (wrap32 nbytes)
                ++ le_bytes 2 (wrap16 (len (entry_name e))))
               2 0 [] 28 2);
      [ reflexivity
      | subst block fields; repeat rewrite <- app_assoc;
        now rewrite app_nil_r
      | repeat rewrite len_app; repeat rewrite len_le_bytes; reflexivity
      | reflexivity ]. }
  assert (Hmethod : field block 8 2 = 0).
  { rewrite (field_at block
               (lit "PK" ++ le_bytes 2 (wrap16 1027) ++ le_bytes 2 20
                ++ le_bytes 2 0)
               2 0
               (le_bytes 2 0 ++ le_bytes 2 0 ++ le_bytes 4 (wrap32 crc)
                ++ le_bytes 4 (wrap32 nbytes) ++ le_bytes 4 (wrap32 nbytes)
                ++ le_bytes 2 (wrap16 (len (entry_name e))) ++ le_bytes 2 0)
               8 2);
      [ reflexivity
      | subst block fields; repeat rewrite <- app_assoc; reflexivity
      | reflexivity | reflexivity ]. }
  rewrite (npz_load_loop_entry zlib_inflate fuel C pre block (entry_name e) []
             (entry_npy_header e ++ e_data e ++ rest) arrays g HC Hl);
    [| reflexivity | reflexivity | now rewrite Hname | now rewrite Hextra ].
  cbv zeta. rewrite Hmethod. cbn [Z.eqb].
  change (len (@nil ascii)) with 0. cbn [Z.ltb Z.compare].
  replace (len pre + 30 + len (entry_name e) + 0)
    with (len (pre ++ block ++ entry_name e))
    by (repeat rewrite len_app; rewrite Hl; lia).
  assert (HC' : C = (pre ++ block ++ entry_name e)
                    ++ entry_npy_header e ++ e_data e ++ rest).
  { rewrite HC. cbn [app]. repeat rewrite <- app_assoc. reflexivity. }
  rewrite HC'. unfold entry_npy_header.
  rewrite load_the_npy_file_generated_at by assumption.
  cbn [bind]. unfold entry_name at 3. rewrite erase_npy_suffix_name.
  f_equal. f_equal.
  subst block. repeat rewrite len_app. 
  unfold entry_npy_header. lia.
Qed.

Lemma npz_load_loop_saved_entries : forall es fuel pre rest arrays g R,
  Forall entry_ok es ->
  let C := pre ++ flat_map (entry_block crc32) es ++ rest in
  (forall g',
     npz_load_loop zlib_inflate fuel
       (mk_istream C (len pre + len (flat_map (entry_block crc32) es))
                   false g')
       (assign_all arrays es) = R) ->
  npz_load_loop zlib_inflate (length es + fuel)
                (mk_istream C (len pre) false g) arrays = R.
Proof.
  induction es as [|e es IH]; intros fuel pre rest arrays g R Hok C Hend.
  - cbn [length Nat.add]. specialize (Hend g).
    cbn [flat_map assign_all fold_left] in Hend.
    change (len (@nil ascii)) with 0 in Hend.
    now rewrite Z.add_0_r in Hend.
  - inversion Hok as [|? ? He Hes]; subst.
    cbn [length Nat.add].
    subst C. cbn [flat_map]. rewrite <- app_assoc.
    rewrite (npz_load_loop_saved_entry e (length es + fuel) pre
               (flat_map (entry_block crc32) es ++ rest) arrays g He).
    rewrite <- len_app.
    rewrite (app_assoc pre (entry_block crc32 e)).
    apply (IH fuel (pre ++ entry_block crc32 e) rest); [assumption|].
    intros g'. specialize (Hend g').
    cbn [flat_map assign_all fold_left] in Hend.
    rewrite <- Hend. rewrite <- !app_assoc.
    rewrite !len_app, Z.add_assoc. reflexivity.
Qed.

Lemma entry_block_len : forall e,
  len (entry_block crc32 e) = entry_size e.
Proof.
  intros e. unfold entry_block, entry_header, entry_size.
  repeat rewrite len_app. rewrite zip_local_header_len. lia.
Qed.

Lemma entry_record_len : forall e offset,
  len (entry_record crc32 e offset) = record_size e.
Proof.
  intros. unfold entry_record, entry_header. apply zip_directory_record_len.
Qed.

Lemma entry_record_stop : forall e offset, stop_record (entry_record crc32 e offset).
Proof.
  intros e offset. unfold entry_record, entry_header, zip_directory_record.
  rewrite zip_local_header_copied.
  set (crc := wrap32 (crc32 _ _)). set (nbytes := wrap64 _).
  exists (lit "PK" ++ le_bytes 2 (wrap16 513) ++ le_bytes 2 20
          ++ le_bytes 2 20 ++ le_bytes 2 0 ++ le_bytes 2 0 ++ le_bytes 2 0
          ++ le_bytes 2 0 ++ le_bytes 4 (wrap32 crc)
          ++ le_bytes 4 (wrap32 nbytes) ++ le_bytes 4 (wrap32 nbytes)
          ++ le_bytes 2 (wrap16 (len (entry_name e)))),
         (le_bytes 2 0 ++ le_bytes 2 0 ++ le_bytes 2 0 ++ le_bytes 2 0
          ++ le_bytes 4 0 ++ le_bytes 4 (wrap32 offset) ++ entry_name e).
  split; [|split].
  - repeat rewrite <- app_assoc. reflexivity.
  - repeat rewrite len_app. repeat rewrite len_le_bytes. reflexivity.
  - reflexivity.
Qed.

(** The file after a call that starts a new archive. *)
Lemma npz_save_entry_create : forall e zipfile mode,
  zipfile = None \/ String.eqb mode "a" = false ->
  len (e_data e) = wrap64 (product (entry_shape e) * sizeof (e_type e)) ->
  entry_size e < 2 ^ 32 -> record_size e < 2 ^ 32 ->
  exists file',
    npz_save crc32 (e_type e) zipfile (e_key e) (e_data e) (entry_shape e) mode
    = Ok file'
    /\ archive_invariant file' (entry_block crc32 e)
                         [entry_record crc32 e 0].
Proof.
  intros e zipfile mode Hmode Hd He Hr.
  rewrite (npz_save_create_mode crc32 _ zipfile _ _ _ mode Hmode).
  unfold npz_save. change (String.eqb "w" "a") with false. cbn iota.
  cbn [bind].
  unfold entry_size, record_size, entry_block, entry_record in *.
  unfold entry_header, entry_npy_header, entry_name, entry_shape in *.
  set (key' := e_key e ++ lit ".npy") in *.
  rewrite create_npy_header_cons. cbn [bind].
  set (npy_header := npy_header_of_dict _) in *.
  rewrite raw_bytes_exact by (now rewrite Hd). cbn [bind].
  rewrite <- Hd.
  set (crc := wrap32 (crc32 _ _)).
  set (lh := zip_local_header crc _ key').
  set (rec := zip_directory_record lh 0 key').
  pose proof (len_nonneg key'). pose proof (len_nonneg npy_header).
  pose proof (len_nonneg (e_data e)).
  assert (Hlh : len lh = 30 + len key') by apply zip_local_header_len.
  assert (Hrec : len rec = 46 + len key') by apply zip_directory_record_len.
  eexists. split; [reflexivity|].
  rewrite write_at_empty.
  pose proof (npz_written_invariant [] [] lh npy_header (e_data e) rec
                (len npy_header + len (e_data e)) eq_refl) as Hinv.
  cbv zeta in Hinv. cbn [concat app] in Hinv.
  change (len (@nil ascii)) with 0 in Hinv.
  change (len (@nil (list ascii))) with 0 in Hinv.
  change (records_size []) with 0 in Hinv.
  replace (len (e_data e) + len npy_header)
    with (len npy_header + len (e_data e)) by lia.
  cbn [app].
  destruct Hinv as [Hi _]; [lia | lia | lia |]. exact Hi.
Qed.

(** The file after a call that appends to an archive laid out as
    [archive_invariant] says. *)
Lemma npz_save_entry_append : forall e old body recs,
  archive_invariant old body recs ->
  len (e_data e) = wrap64 (product (entry_shape e) * sizeof (e_type e)) ->
  len recs + 1 < 2 ^ 16 ->
  records_size recs + record_size e < 2 ^ 32 ->
  len body + entry_size e < 2 ^ 32 ->
  exists file',
    npz_save crc32 (e_type e) (Some old) (e_key e) (e_data e) (entry_shape e)
             "a"
    = Ok file'
    /\ archive_invariant file' (body ++ entry_block crc32 e)
                         (recs ++ [entry_record crc32 e (len body)]).
Proof.
  intros e old body recs Hinv0 Hd Hc Hs Ho.
  destruct Hinv0 as (footer0 & Hold & Hf0 & Hparse).
  pose proof (len_nonneg body). pose proof (len_nonneg recs).
  pose proof (len_nonneg (concat recs)) as Hcr.
  unfold npz_save. change (String.eqb "a" "a") with true. cbn iota.
  rewrite Hparse. cbn [bind].
  assert (Hdir : slice (len body) (records_size recs) old = concat recs).
  { rewrite Hold, records_size_concat. apply slice_middle. }
  rewrite Hdir. rewrite <- records_size_concat, Z.eqb_refl. cbn [negb].
  cbn [bind].
  unfold entry_size, record_size, entry_block, entry_record in *.
  unfold entry_header, entry_npy_header, entry_name, entry_shape in *.
  set (key' := e_key e ++ lit ".npy") in *.
  rewrite create_npy_header_cons. cbn [bind].
  set (npy_header := npy_header_of_dict _) in *.
  rewrite raw_bytes_exact by (now rewrite Hd). cbn [bind].
  rewrite <- Hd.
  set (crc := wrap32 (crc32 _ _)).
  set (lh := zip_local_header crc _ key').
  set (rec := zip_directory_record lh (len body) key').
  pose proof (len_nonneg key'). pose proof (len_nonneg npy_header).
  pose proof (len_nonneg (e_data e)).
  assert (Hlh : len lh = 30 + len key') by apply zip_local_header_len.
  assert (Hrec : len rec = 46 + len key') by apply zip_directory_record_len.
  match goal with
  | |- context [write_at old (len body) ?X] =>
      assert (Hw : write_at old (len body) X = body ++ X)
  end.
  { rewrite Hold at 1. apply write_at_tail.
    repeat rewrite len_app. rewrite zip_footer_len, Hf0.
    pose proof (len_nonneg rec). lia. }
  rewrite Hw.
  eexists. split; [reflexivity|].
  pose proof (npz_written_invariant body recs lh npy_header (e_data e) rec
                (len npy_header + len (e_data e)) eq_refl) as Hinv.
  cbv zeta in Hinv.
  replace (len (e_data e) + len npy_header)
    with (len npy_header + len (e_data e)) by lia.
  destruct Hinv as [Hi _]; [lia | lia | lia |].
  exact Hi.
Qed.

Lemma entry_size_ge : forall e, 30 <= entry_size e.
Proof.
  intros e. unfold entry_size.
  pose proof (len_nonneg (entry_name e)).
  pose proof (len_nonneg (entry_npy_header e)).
  pose proof (len_nonneg (e_data e)). lia.
Qed.

Lemma record_size_ge : forall e, 46 <= record_size e.
Proof.
  intros e. unfold record_size. pose proof (len_nonneg (entry_name e)). lia.
Qed.

Lemma archive_size_ge : forall es, 22 <= archive_size es.
Proof.
  induction es as [|e es IH]; [cbn; lia|].
  unfold archive_size in *. cbn [fold_right].
  pose proof (entry_size_ge e). pose proof (record_size_ge e). lia.
Qed.

Lemma flat_map_entry_block_len : forall es,
  len es <= len (flat_map (entry_block crc32) es).
Proof.
  induction es as [|e es IH]; [cbn; lia|].
  cbn [flat_map]. rewrite len_app, len_cons, entry_block_len.
  pose proof (entry_size_ge e). lia.
Qed.

(** The calls in append mode, from an archive laid out as
    [archive_invariant] says. *)
Lemma npz_save_all_append : forall es old body recs,
  archive_invariant old body recs ->
  Forall entry_ok es ->
  len recs + len es < 2 ^ 16 ->
  len body + records_size recs + archive_size es < 2 ^ 32 ->
  exists file' recs',
    npz_save_all crc32 (Some old) "a" es = Ok (Some file')
    /\ archive_invariant file' (body ++ flat_map (entry_block crc32) es)
                         (recs ++ recs').
Proof.
  induction es as [|e es IH]; intros old body recs Hinv Hok Hc Hs.
  - exists old, []. split; [reflexivity|]. now rewrite !app_nil_r.
  - inversion Hok as [|? ? He Hes]; subst.
    pose proof He as (_ & _ & _ & Hd & _).
    pose proof (archive_size_ge es) as Hge.
    pose proof (entry_size_ge e). pose proof (record_size_ge e).
    pose proof (len_nonneg es). pose proof (len_nonneg body).
    pose proof (len_nonneg (concat recs)) as Hcr.
    rewrite <- records_size_concat in Hcr.
    rewrite len_cons in Hc.
    unfold archive_size in Hs. cbn [fold_right] in Hs.
    fold (archive_size es) in Hs.
    destruct (npz_save_entry_append e old body recs Hinv Hd)
      as (file1 & Hsave & Hinv1); [lia | lia | lia |].
    destruct (IH file1 (body ++ entry_block crc32 e)
                 (recs ++ [entry_record crc32 e (len body)]) Hinv1 Hes)
      as (file' & recs' & Hall & Hinv').
    + rewrite len_app. change (len [entry_record crc32 e (len body)]) with 1.
      lia.
    + rewrite len_app, entry_block_len, records_size_app, entry_record_len.
      lia.
    + exists file', (entry_record crc32 e (len body) :: recs').
      split.
      * cbn [npz_save_all]. rewrite Hsave. cbn [bind]. exact Hall.
      * cbn [flat_map]. rewrite <- !app_assoc in Hinv'. exact Hinv'.
Qed.

(** Round trip for archives.  A sequence of [npz_save] calls on one path,
    the first in a mode other than ["a"] and the others in append mode,
    followed by [npz_load], returns what [arrays[key] = array] gives for
    the saved arrays in turn: every key with the shape, element size and
    bytes of the last array saved under it.  The calls have to be
    expressible in the format, the archive smaller than 4 GiB and the
    number of calls below 65536. *)
Theorem npz_save_all_load_roundtrip : forall zipfile e es,
  Forall entry_ok (e :: es) ->
  len (e :: es) < 2 ^ 16 ->
  archive_size (e :: es) < 2 ^ 32 ->
  exists file,
    npz_save_all crc32 zipfile "w" (e :: es) = Ok (Some file)
    /\ npz_load zlib_inflate (Some file) = Ok (assign_all [] (e :: es)).
Proof.
  intros zipfile e es Hok Hc Hs.
  inversion Hok as [|? ? He Hes]; subst.
  pose proof He as (_ & _ & _ & Hd & _).
  pose proof (archive_size_ge es) as Hge.
  pose proof (entry_size_ge e). pose proof (record_size_ge e).
  pose proof (len_nonneg es).
  rewrite len_cons in Hc.
  unfold archive_size in Hs. cbn [fold_right] in Hs.
  fold (archive_size es) in Hs.
  destruct (npz_save_entry_create e zipfile "w" (or_intror eq_refl) Hd)
    as (file1 & Hsave & Hinv1); [lia | lia |].
  destruct (npz_save_all_append es file1 (entry_block crc32 e)
              [entry_record crc32 e 0] Hinv1 Hes)
    as (file & recs' & Hall & Hinv).
  { change (len [entry_record crc32 e 0]) with 1. lia. }
  { rewrite entry_block_len.
    change [entry_record crc32 e 0] with ([] ++ [entry_record crc32 e 0]).
    rewrite records_size_app, entry_record_len.
    change (records_size []) with 0. lia. }
  exists file. split.
  { cbn [npz_save_all]. rewrite Hsave. cbn [bind]. exact Hall. }
  destruct Hinv as (footer & Hfile & _ & _).
  destruct (entry_record_stop e 0) as (block & tail & Hrec & Hbl & Hsig).
  cbn [app concat] in Hfile.
  change (entry_block crc32 e ++ flat_map (entry_block crc32) es)
    with (flat_map (entry_block crc32) (e :: es)) in Hfile.
  set (body := flat_map (entry_block crc32) (e :: es)) in *.
  rewrite Hrec in Hfile. rewrite <- !app_assoc in Hfile.
  assert (Hfuel : (length (e :: es) <= length file)%nat).
  { pose proof (flat_map_entry_block_len (e :: es)) as Hb. fold body in Hb.
    rewrite Hfile. rewrite length_app. unfold len in Hb. lia. }
  unfold npz_load.
  replace (S (length file))
    with (length (e :: es) + S (length file - length (e :: es)))%nat by lia.
  rewrite Hfile at 2.
  apply (npz_load_loop_saved_entries (e :: es) _ []
           (block ++ tail ++ concat recs' ++ footer) [] 0 _ Hok).
  intros g'. change (len (@nil ascii)) with 0. rewrite Z.add_0_l.
  cbn [app]. fold body.
  apply (npz_load_loop_stop zlib_inflate _ _ body block
           (tail ++ concat recs' ++ footer));
    [reflexivity | exact Hbl | exact Hsig].
Qed.

End ArchiveRoundTrip.

Lemma npz_save_all_load_roundtrip_witness :
  exists file,
    npz_save_all length_crc None "w" [entry_a; entry_bb; entry_a2]
    = Ok (Some file)
    /\ npz_load copy_inflate (Some file)
       = Ok (assign_all [] [entry_a; entry_bb; entry_a2]).
Proof.
  apply (npz_save_all_load_roundtrip length_crc copy_inflate None
           entry_a [entry_bb; entry_a2]).
  - repeat constructor; try discriminate; vm_compute; congruence.
  - reflexivity.
  - reflexivity.
Defined.

(* ================================================================== *)
(** * The deflated entries *)



(* ================================================================== *)
(** * An empty shape *)

(** Outside the append branch, saving with an empty shape reaches
    [shape[0]] of an empty vector in [create_npy_header]: undefined
    behaviour, in [npy_save] and in [npz_save] alike, whatever the
    element type and the data. *)
Theorem save_empty_shape_undefined : forall crc32 T file key data mode,
  file = None \/ String.eqb mode "a" = false ->
  npy_save T file data [] mode = Undefined
  /\ npz_save crc32 T file key data [] mode = Undefined.
Proof.
  intros crc32 T file key data mode Hm. split.
  - unfold npy_save.
    destruct Hm as [-> | ->]; [reflexivity | now destruct file].
  - rewrite (npz_save_create_mode crc32 T file key data [] mode Hm).
    reflexivity.
Qed.

Lemma save_empty_shape_undefined_witness :
  npy_save T_double None (lit "12345678") [] "w" = Undefined
  /\ npz_save length_crc T_double None (lit "x") (lit "12345678") [] "w"
     = Undefined.
Proof.
  apply (save_empty_shape_undefined length_crc T_double None (lit "x")
           (lit "12345678") "w").
  left. reflexivity.
Defined.
